(** * deploy-neex: the deployment orchestration engine

    A shallow embedding of [src/types.ts], [src/utils/logger.ts],
    [src/utils/system.ts], [src/generators/pm2.ts],
    [src/generators/nginx.ts] and [src/deployer.ts].

    Asynchronous methods become computations in a state-and-exception monad
    over a [World]: the host (an oracle deciding how external programs, the
    file system and the port probe answer), the files written so far, the
    trace of host operations and the console output.  A rejected promise is
    a thrown [Error]; effects performed before the rejection persist.

    JavaScript strings are the byte strings of their UTF-8 encoding; port
    numbers, which the callers validate to be integers in 1..65535, are
    naturals.  External programs are known by their exit status only: the
    file map changes through [writeFile] alone. *)

From Stdlib Require Import NArith Ascii String DecimalString.
From stdpp Require Import base option gmap strings list.

Set Warnings "-register-all".

Local Open Scope string_scope.
Local Open Scope list_scope.
Local Open Scope N_scope.

(** ** Text helpers *)

(** The double-quote character, spliced into templates that contain it. *)
Definition dq : string := String (ascii_of_nat 34) EmptyString.
(** The line feed, as a character and as a one-character string. *)
Definition lf : ascii := ascii_of_nat 10.
Definition nl : string := String lf EmptyString.

(** [q s] is [s] between double quotes. *)
Definition q (s : string) : string := dq +:+ s +:+ dq.

(** Template interpolation of a JavaScript number holding a natural value:
    its decimal digits. *)
Definition num (n : N) : string := NilEmpty.string_of_uint (N.to_uint n).

(** [Array.prototype.join]. *)
Fixpoint join (sep : string) (l : list string) : string :=
  match l with
  | [] => ""
  | [x] => x
  | x :: rest => x +:+ sep +:+ join sep rest
  end.

(** ['='.repeat(n)]. *)
Fixpoint repeat_str (s : string) (n : nat) : string :=
  match n with
  | O => ""
  | S k => s +:+ repeat_str s k
  end.

(** The lines of a text: the pieces between line feeds. *)
Fixpoint lines (s : string) : list string :=
  match s with
  | EmptyString => [""]
  | String c r =>
      if Ascii.eqb c lf then "" :: lines r
      else match lines r with
           | [] => [String c ""]
           | l :: ls => String c l :: ls
           end
  end.

(** A text without line feed. *)
Fixpoint single_line (s : string) : bool :=
  match s with
  | EmptyString => true
  | String c r => negb (Ascii.eqb c lf) && single_line r
  end.

(** Leading blanks removed. *)
Fixpoint trim_left (s : string) : string :=
  match s with
  | String c r => if Ascii.eqb c " " then trim_left r else s
  | EmptyString => s
  end.

(** [s.startsWith(p)], by recursion on the prefix. *)
Fixpoint starts_with (p s : string) : bool :=
  match p with
  | EmptyString => true
  | String a p' =>
      match s with
      | String b s' => Ascii.eqb a b && starts_with p' s'
      | EmptyString => false
      end
  end.

(** A text as the templates build it: literal pieces and interpolated
    values, concatenated. *)
Inductive text :=
| Lit (s : string)
| Val (s : string)
| Cat (a b : text).

Fixpoint flatten (t : text) : string :=
  match t with
  | Lit s => s
  | Val s => s
  | Cat a b => flatten a +:+ flatten b
  end.

(** A line under construction: the pieces it is made of, in order. *)
Inductive piece :=
| PLit (s : string)
| PVal (s : string).

Definition piece_text (p : piece) : string :=
  match p with PLit s => s | PVal s => s end.

Definition visible (p : piece) : bool :=
  match p with PLit EmptyString => false | _ => true end.

Fixpoint cat_pieces (l : list string) : string :=
  match l with
  | [] => ""
  | [x] => x
  | x :: rest => x +:+ cat_pieces rest
  end.

Definition render_line (l : list piece) : string :=
  cat_pieces (map piece_text (List.filter visible l)).

(** Gluing the lines of two texts: the last line of the first continues
    with the first line of the second. *)
Definition glue_lines {A} (la lb : list (list A)) : list (list A) :=
  removelast la ++ (List.last la [] ++ List.hd [] lb) :: List.tl lb.

(** The lines read off the structure of a text, every interpolated value
    taken for a piece of one line. *)
Fixpoint lines_of (t : text) : list (list piece) :=
  match t with
  | Lit s => map (fun l => [PLit l]) (lines s)
  | Val s => [[PVal s]]
  | Cat a b => glue_lines (lines_of a) (lines_of b)
  end.

Fixpoint values_single_line (t : text) : bool :=
  match t with
  | Lit _ => true
  | Val s => single_line s
  | Cat a b => values_single_line a && values_single_line b
  end.

(** Index of the first element satisfying [f]. *)
Fixpoint find_index {A} (f : A -> bool) (l : list A) : option nat :=
  match l with
  | [] => None
  | x :: r => if f x then Some O else option_map S (find_index f r)
  end.

(** ** src/types.ts *)

Inductive PackageManager := npm | yarn | pnpm | bun.

Definition pm_name (m : PackageManager) : string :=
  match m with npm => "npm" | yarn => "yarn" | pnpm => "pnpm" | bun => "bun" end.

Inductive Environment := production | staging.

Definition env_name (e : Environment) : string :=
  match e with production => "production" | staging => "staging" end.

Module DeployConfig.
Record t := mk {
  projectName : string;
  domain : string;
  ssl : bool;
  email : option string;
  clientPort : N;
  serverPort : N;
  packageManager : PackageManager;
  environment : Environment;
  autoStart : bool;
  nginxConfig : bool
}.
End DeployConfig.

Module NeexProject.
Record t := mk {
  hasClient : bool;
  hasServer : bool;
  clientPath : string;
  serverPath : string;
  rootPath : string;
  packageManager : string
}.
End NeexProject.

(** ** The world the tool runs in *)

(** A thrown value.  Every value thrown in this program is an [Error]
    instance, so [error instanceof Error ? error.message : String(error)]
    is [message]. *)
Record Error := mkError { message : string }.

Inductive Outcome (A : Type) :=
| Returned (a : A)
| Thrown (e : Error).
Arguments Returned {A} a.
Arguments Thrown {A} e.

(** Host operations, as they were issued and how they ended. *)
Inductive Event :=
| EvExec (command : string) (args : list string) (cwd : option string)
         (failure : option Error)
| EvEnsureDir (ofFile : string) (failure : option Error)
| EvWriteFile (path content : string) (failure : option Error)
| EvDetectPort (port : N) (answer : Error + N)
| EvTimeout (ms : N).

(** The host: how the outside answers, given everything done so far.
    [ensureDir_outcome] receives the file whose parent directory
    ([path.dirname]) is to be ensured. *)
Record Host := mkHost {
  platform : string;
  exec_outcome : list Event -> string -> list string -> option string -> option Error;
  ensureDir_outcome : list Event -> string -> option Error;
  writeFile_outcome : list Event -> string -> string -> option Error;
  detectPort_outcome : list Event -> N -> Error + N
}.

Inductive Level := LSuccess | LError | LWarning | LInfo | LStep.

(** What reaches the terminal. *)
Inductive Output :=
| Log (level : Level) (msg : string)
| Line (text : string)
| SpinnerStart (text : string)
| SpinnerText (text : string)
| SpinnerStop (ok : bool).

Record World := mkWorld {
  host : Host;
  files : gmap string string;
  trace : list Event;
  console : list Output
}.

Definition record (ev : Event) (w : World) : World :=
  mkWorld (host w) (files w) (trace w ++ [ev]) (console w).

Definition emit (o : Output) (w : World) : World :=
  mkWorld (host w) (files w) (trace w) (console w ++ [o]).

Definition emit_all (l : list Output) (w : World) : World :=
  mkWorld (host w) (files w) (trace w) (console w ++ l).

Definition store (path content : string) (w : World) : World :=
  mkWorld (host w) (<[path := content]> (files w)) (trace w) (console w).

(** ** The monad of asynchronous methods *)

Definition M (A : Type) : Type := World -> Outcome A * World.

Definition ret {A} (a : A) : M A := fun w => (Returned a, w).

Definition throw {A} (e : Error) : M A := fun w => (Thrown e, w).

Definition bind {A B} (m : M A) (k : A -> M B) : M B :=
  fun w => match m w with
           | (Returned a, w') => k a w'
           | (Thrown e, w') => (Thrown e, w')
           end.

(** [try { m } catch (e) { h e }], also [promise.catch(h)]. *)
Definition try_catch {A} (m : M A) (h : Error -> M A) : M A :=
  fun w => match m w with
           | (Returned a, w') => (Returned a, w')
           | (Thrown e, w') => h e w'
           end.

Declare Scope m_scope.
Delimit Scope m_scope with M.
Notation "x <- m ;; k" := (bind m (fun x => k))
  (at level 100, m at next level, right associativity) : m_scope.
Notation "m ;; k" := (bind m (fun _ => k))
  (at level 100, right associativity) : m_scope.
Local Open Scope m_scope.

(** [if (b) { m }] *)
Definition when (b : bool) (m : M unit) : M unit :=
  if b then m else ret tt.

(** The four host primitives. *)
Definition execa (command : string) (args : list string) (cwd : option string) : M unit :=
  fun w =>
    let r := exec_outcome (host w) (trace w) command args cwd in
    let w' := record (EvExec command args cwd r) w in
    match r with
    | None => (Returned tt, w')
    | Some e => (Thrown e, w')
    end.

Definition fs_ensureDir (ofFile : string) : M unit :=
  fun w =>
    let r := ensureDir_outcome (host w) (trace w) ofFile in
    let w' := record (EvEnsureDir ofFile r) w in
    match r with
    | None => (Returned tt, w')
    | Some e => (Thrown e, w')
    end.

Definition fs_writeFile (path content : string) : M unit :=
  fun w =>
    let r := writeFile_outcome (host w) (trace w) path content in
    let w' := record (EvWriteFile path content r) w in
    match r with
    | None => (Returned tt, store path content w')
    | Some e => (Thrown e, w')
    end.

Definition detectPort (port : N) : M N :=
  fun w =>
    let r := detectPort_outcome (host w) (trace w) port in
    let w' := record (EvDetectPort port r) w in
    match r with
    | inr p => (Returned p, w')
    | inl e => (Thrown e, w')
    end.

(** [await new Promise(resolve => setTimeout(resolve, ms))] *)
Definition setTimeout (ms : N) : M unit :=
  fun w => (Returned tt, record (EvTimeout ms) w).

(** ** src/utils/logger.ts *)

Module Logger.
Definition out (o : Output) : M unit := fun w => (Returned tt, emit o w).

Definition success (msg : string) : M unit := out (Log LSuccess msg).
Definition error (msg : string) : M unit := out (Log LError msg).
Definition warning (msg : string) : M unit := out (Log LWarning msg).
Definition info (msg : string) : M unit := out (Log LInfo msg).
Definition step (msg : string) : M unit := out (Log LStep msg).
Definition startSpinner (text : string) : M unit := out (SpinnerStart text).
Definition stopSpinner (ok : bool) : M unit := out (SpinnerStop ok).
Definition updateSpinner (text : string) : M unit := out (SpinnerText text).
End Logger.

(** [console.log(text)] *)
Definition console_log (text : string) : M unit := Logger.out (Line text).

(** ** src/utils/system.ts *)

Inductive OS := linux | darwin | windows.

Module SystemUtils.
Definition checkCommand (command : string) : M bool :=
  try_catch (execa "which" [command] None ;; ret true)
            (fun _ => ret false).

Definition installPackage (packageName : string) (global : bool) : M unit :=
  let args := if global then ["install"; "-g"; packageName]
              else ["install"; packageName] in
  execa "npm" args None.

Definition executeCommand (command : string) (args : list string)
    (cwd : option string) : M unit :=
  execa command args cwd.

Definition writeFile (filePath content : string) : M unit :=
  fs_ensureDir filePath ;;
  fs_writeFile filePath content.

Definition isPortAvailable (port : N) : M bool :=
  try_catch (availablePort <- detectPort port ;;
             ret (N.eqb availablePort port))
            (fun _ => ret false).

Definition getOS : M OS :=
  fun w =>
    let platform := platform (host w) in
    (Returned (if String.eqb platform "darwin" then darwin
               else if String.eqb platform "win32" then windows
               else linux), w).
End SystemUtils.

(** ** [JSON.stringify(value, null, 2)] *)

Inductive json :=
| JString (s : string)
| JNumber (n : N)
| JBool (b : bool)
| JArray (items : list json)
| JObject (members : list (string * json)).

Definition hex_digit (n : N) : string :=
  String.substring (N.to_nat n) 1 "0123456789abcdef".

(** One character of a quoted JSON string. *)
Definition json_escape (c : ascii) : string :=
  let n := N_of_ascii c in
  if n =? 34 then "\" +:+ dq
  else if n =? 92 then "\\"
  else if n =? 8 then "\b"
  else if n =? 12 then "\f"
  else if n =? 10 then "\n"
  else if n =? 13 then "\r"
  else if n =? 9 then "\t"
  else if n <? 32 then "\u00" +:+ hex_digit (n / 16) +:+ hex_digit (n mod 16)
  else String c "".

Fixpoint json_escape_all (s : string) : string :=
  match s with
  | EmptyString => ""
  | String c r => json_escape c +:+ json_escape_all r
  end.

Definition json_quote (s : string) : string := q (json_escape_all s).

(** Serialisation with the gap [gap], at current indentation [indent]. *)
Fixpoint stringify_at (gap indent : string) (v : json) : string :=
  match v with
  | JString s => json_quote s
  | JNumber n => num n
  | JBool b => if b then "true" else "false"
  | JArray [] => "[]"
  | JArray items =>
      let inner := indent +:+ gap in
      "[" +:+ nl +:+ inner
        +:+ join ("," +:+ nl +:+ inner) (map (stringify_at gap inner) items)
        +:+ nl +:+ indent +:+ "]"
  | JObject [] => "{}"
  | JObject members =>
      let inner := indent +:+ gap in
      "{" +:+ nl +:+ inner
        +:+ join ("," +:+ nl +:+ inner)
              (map (fun kv => let '(k, x) := kv in
                              json_quote k +:+ ": " +:+ stringify_at gap inner x)
                   members)
        +:+ nl +:+ indent +:+ "}"
  end.

Definition JSON_stringify2 (v : json) : string := stringify_at "  " "" v.

(** ** src/generators/pm2.ts *)

Module PM2AppConfig.
Record Env := mkEnv {
  NODE_ENV : string;
  PORT : N
}.

Record t := mk {
  name : string;
  script : string;
  args : string;
  cwd : string;
  instances : N;
  autorestart : bool;
  watch : bool;
  max_memory_restart : string;
  env : Env
}.

(** The object as [JSON.stringify] sees it: own properties in insertion
    order. *)
Definition toJSON (a : t) : json :=
  JObject [ ("name", JString (name a));
            ("script", JString (script a));
            ("args", JString (args a));
            ("cwd", JString (cwd a));
            ("instances", JNumber (instances a));
            ("autorestart", JBool (autorestart a));
            ("watch", JBool (watch a));
            ("max_memory_restart", JString (max_memory_restart a));
            ("env", JObject [ ("NODE_ENV", JString (NODE_ENV (env a)));
                              ("PORT", JNumber (PORT (env a))) ]) ].
End PM2AppConfig.

Module PM2Generator.
(** The [apps] array of [generateEcosystemConfig], after the two
    conditional [push]es. *)
Definition ecosystemApps (config : DeployConfig.t) (project : NeexProject.t)
    : list PM2AppConfig.t :=
  let apps : list PM2AppConfig.t := [] in
  let apps :=
    if NeexProject.hasClient project then
      apps ++ [ PM2AppConfig.mk
                  (DeployConfig.projectName config +:+ "-client")
                  (pm_name (DeployConfig.packageManager config))
                  "run start:client"
                  (NeexProject.rootPath project)
                  1 true false "1G"
                  (PM2AppConfig.mkEnv
                     (env_name (DeployConfig.environment config))
                     (DeployConfig.clientPort config)) ]
    else apps in
  let apps :=
    if NeexProject.hasServer project then
      apps ++ [ PM2AppConfig.mk
                  (DeployConfig.projectName config +:+ "-server")
                  (pm_name (DeployConfig.packageManager config))
                  "run start:server"
                  (NeexProject.rootPath project)
                  1 true false "1G"
                  (PM2AppConfig.mkEnv
                     (env_name (DeployConfig.environment config))
                     (DeployConfig.serverPort config)) ]
    else apps in
  apps.

Definition generateEcosystemConfig (config : DeployConfig.t)
    (project : NeexProject.t) : string :=
  let apps := ecosystemApps config project in
  "module.exports = {
  apps: " +:+ JSON_stringify2 (JArray (map PM2AppConfig.toJSON apps)) +:+ "
};".

Definition generate (config : DeployConfig.t) (project : NeexProject.t) : M unit :=
  let ecosystemConfig := generateEcosystemConfig config project in
  SystemUtils.writeFile
    (NeexProject.rootPath project +:+ "/ecosystem.config.js")
    ecosystemConfig ;;
  Logger.success "PM2 ecosystem.config.js generated".

Definition install : M unit :=
  hasPm2 <- SystemUtils.checkCommand "pm2" ;;
  if negb hasPm2 then
    Logger.step "Installing PM2 globally..." ;;
    SystemUtils.installPackage "pm2" true ;;
    Logger.success "PM2 installed"
  else
    Logger.success "PM2 already installed".

(** [start], lines 93-120. *)
Definition start (config : DeployConfig.t) (project : NeexProject.t) : M unit :=
  Logger.step "Starting PM2 applications..." ;;
  try_catch
    (try_catch
       (SystemUtils.executeCommand "pm2" ["delete"; "all"]
          (Some (NeexProject.rootPath project)))
       (fun _ => ret tt) ;;
     SystemUtils.executeCommand "pm2" ["start"; "ecosystem.config.js"]
       (Some (NeexProject.rootPath project)) ;;
     SystemUtils.executeCommand "pm2" ["save"] None ;;
     when (DeployConfig.autoStart config)
       (try_catch
          (SystemUtils.executeCommand "pm2" ["startup"] None ;;
           Logger.success "PM2 auto-startup configured")
          (fun _ =>
             Logger.warning
               "Could not configure PM2 auto-startup. You may need to run this manually with sudo.")) ;;
     Logger.success "PM2 applications started")
    (fun error =>
       Logger.error ("Failed to start PM2 applications: " +:+ message error) ;;
       throw error).

Definition stop : M unit :=
  Logger.step "Stopping PM2 applications..." ;;
  try_catch
    (SystemUtils.executeCommand "pm2" ["stop"; "all"] None ;;
     Logger.success "PM2 applications stopped")
    (fun error =>
       Logger.error ("Failed to stop PM2 applications: " +:+ message error) ;;
       throw error).

Definition restart : M unit :=
  Logger.step "Restarting PM2 applications..." ;;
  try_catch
    (SystemUtils.executeCommand "pm2" ["restart"; "all"] None ;;
     Logger.success "PM2 applications restarted")
    (fun error =>
       Logger.error ("Failed to restart PM2 applications: " +:+ message error) ;;
       throw error).

Definition delete : M unit :=
  Logger.step "Deleting PM2 applications..." ;;
  try_catch
    (SystemUtils.executeCommand "pm2" ["delete"; "all"] None ;;
     Logger.success "PM2 applications deleted")
    (fun error =>
       Logger.error ("Failed to delete PM2 applications: " +:+ message error) ;;
       throw error).
End PM2Generator.

(** The second text of the class in the same source file (from line 159):
    [generate], [generateEcosystemConfig] and [install] read as above;
    [start] (lines 231-242) has no handler at all. *)
Module PM2GeneratorSecondText.
Definition start (config : DeployConfig.t) (project : NeexProject.t) : M unit :=
  Logger.step "Starting PM2 applications..." ;;
  SystemUtils.executeCommand "pm2" ["start"; "ecosystem.config.js"]
    (Some (NeexProject.rootPath project)) ;;
  SystemUtils.executeCommand "pm2" ["save"] None ;;
  when (DeployConfig.autoStart config)
    (SystemUtils.executeCommand "pm2" ["startup"] None) ;;
  Logger.success "PM2 applications started".
End PM2GeneratorSecondText.

(** ** src/generators/nginx.ts *)

Module NginxGenerator.
Definition generateNginxConfig (config : DeployConfig.t)
    (project : NeexProject.t) : string :=
  let clientUpstream := if NeexProject.hasClient project then "
    upstream client_backend {
        server localhost:" +:+ num (DeployConfig.clientPort config) +:+ ";
    }" else "" in

  let serverUpstream := if NeexProject.hasServer project then "
    upstream server_backend {
        server localhost:" +:+ num (DeployConfig.serverPort config) +:+ ";
    }" else "" in

  let clientLocation := if NeexProject.hasClient project then "
    # Frontend (Next.js)
    location / {
        proxy_pass http://client_backend;
        proxy_http_version 1.1;
        proxy_set_header Upgrade $http_upgrade;
        proxy_set_header Connection 'upgrade';
        proxy_set_header Host $host;
        proxy_set_header X-Real-IP $remote_addr;
        proxy_set_header X-Forwarded-For $proxy_add_x_forwarded_for;
        proxy_set_header X-Forwarded-Proto $scheme;
        proxy_cache_bypass $http_upgrade;
    }" else "" in

  let serverLocation := if NeexProject.hasServer project then "
    # Backend API (Express)
    location /api/ {
        proxy_pass http://server_backend/;
        proxy_http_version 1.1;
        proxy_set_header Upgrade $http_upgrade;
        proxy_set_header Connection 'upgrade';
        proxy_set_header Host $host;
        proxy_set_header X-Real-IP $remote_addr;
        proxy_set_header X-Forwarded-For $proxy_add_x_forwarded_for;
        proxy_set_header X-Forwarded-Proto $scheme;
        proxy_cache_bypass $http_upgrade;
    }" else "" in

  clientUpstream +:+ serverUpstream +:+ "

server {
    listen 80;
    server_name " +:+ DeployConfig.domain config +:+ " www." +:+ DeployConfig.domain config +:+ ";
    
    client_max_body_size 100M;
    
    # Security headers
    add_header X-Frame-Options " +:+ dq +:+ "SAMEORIGIN" +:+ dq +:+ " always;
    add_header X-XSS-Protection " +:+ dq +:+ "1; mode=block" +:+ dq +:+ " always;
    add_header X-Content-Type-Options " +:+ dq +:+ "nosniff" +:+ dq +:+ " always;
    add_header Referrer-Policy " +:+ dq +:+ "no-referrer-when-downgrade" +:+ dq +:+ " always;
    add_header Content-Security-Policy " +:+ dq +:+ "default-src 'self' http: https: data: blob: 'unsafe-inline'" +:+ dq +:+ " always;
    " +:+ serverLocation +:+ clientLocation +:+ "
    
    # Static files caching
    location ~* \.(js|css|png|jpg|jpeg|gif|ico|svg|woff|woff2|ttf|eot)$ {
        expires 1y;
        add_header Cache-Control " +:+ dq +:+ "public, immutable" +:+ dq +:+ ";
        " +:+ (if NeexProject.hasClient project then "proxy_pass http://client_backend;" else "") +:+ "
    }
    
    # Gzip compression
    gzip on;
    gzip_vary on;
    gzip_min_length 1024;
    gzip_proxied expired no-cache no-store private must-revalidate auth;
    gzip_types text/plain text/css text/xml text/javascript application/x-javascript application/javascript application/xml+rss application/json;
}".

Definition getConfigPath (config : DeployConfig.t) : M string :=
  os <- SystemUtils.getOS ;;
  match os with
  | darwin =>
      ret ("/usr/local/etc/nginx/servers/" +:+ DeployConfig.projectName config +:+ ".conf")
  | _ =>
      ret ("/etc/nginx/sites-available/" +:+ DeployConfig.projectName config)
  end.

Definition generateSetupInstructions (config : DeployConfig.t) : M string :=
  os <- SystemUtils.getOS ;;
  configPath <- getConfigPath config ;;
  let instructions := "# Nginx Setup Instructions

## 1. Install Nginx (if not already installed)

### Ubuntu/Debian:
```bash
sudo apt update
sudo apt install nginx
```

### CentOS/RHEL:
```bash
sudo yum install nginx
```

### macOS:
```bash
brew install nginx
```

## 2. Copy configuration

### Linux:
```bash
sudo cp " +:+ configPath +:+ " /etc/nginx/sites-available/" +:+ DeployConfig.projectName config +:+ "
sudo ln -s /etc/nginx/sites-available/" +:+ DeployConfig.projectName config +:+ " /etc/nginx/sites-enabled/
```

### macOS:
Configuration is already in the correct location.

## 3. Test and restart Nginx

```bash
sudo nginx -t
sudo systemctl restart nginx  # Linux
# or
sudo brew services restart nginx  # macOS
```

## 4. Setup SSL (Optional but recommended)

```bash
sudo apt install certbot python3-certbot-nginx  # Ubuntu/Debian
sudo certbot --nginx -d " +:+ DeployConfig.domain config +:+ "
```

## 5. Configure firewall

```bash
sudo ufw allow 'Nginx Full'  # Ubuntu/Debian
```

Your site will be available at: http://" +:+ DeployConfig.domain config +:+ "
" in
  ret instructions.

Definition generate (config : DeployConfig.t) (project : NeexProject.t) : M unit :=
  let nginxConfig := generateNginxConfig config project in
  configPath <- getConfigPath config ;;
  SystemUtils.writeFile configPath nginxConfig ;;
  Logger.success ("Nginx configuration generated at " +:+ configPath) ;;
  instructions <- generateSetupInstructions config ;;
  SystemUtils.writeFile
    (NeexProject.rootPath project +:+ "/nginx-setup.md")
    instructions ;;
  Logger.info "Check nginx-setup.md for manual setup steps".

Definition install : M unit :=
  hasNginx <- SystemUtils.checkCommand "nginx" ;;
  if negb hasNginx then
    Logger.warning "Nginx is not installed. Please install it manually:" ;;
    os <- SystemUtils.getOS ;;
    match os with
    | linux =>
        Logger.info "Ubuntu/Debian: sudo apt install nginx" ;;
        Logger.info "CentOS/RHEL: sudo yum install nginx"
    | darwin =>
        Logger.info "macOS: brew install nginx"
    | windows => ret tt
    end ;;
    throw (mkError "Nginx installation required")
  else
    Logger.success "Nginx already installed".
End NginxGenerator.

(** ** src/deployer.ts *)

Module Deployer.
Definition checkPrerequisites (project : NeexProject.t) : M unit :=
  Logger.step "Checking prerequisites..." ;;
  hasNode <- SystemUtils.checkCommand "node" ;;
  when (negb hasNode) (throw (mkError "Node.js is not installed")) ;;
  hasPackageManager <- SystemUtils.checkCommand (NeexProject.packageManager project) ;;
  when (negb hasPackageManager)
    (throw (mkError (NeexProject.packageManager project +:+ " is not installed"))) ;;
  Logger.success "Prerequisites checked".

Definition buildProject (project : NeexProject.t) : M unit :=
  Logger.step "Building project..." ;;
  Logger.startSpinner "Installing dependencies..." ;;
  SystemUtils.executeCommand (NeexProject.packageManager project) ["install"]
    (Some (NeexProject.rootPath project)) ;;
  Logger.updateSpinner "Building applications..." ;;
  SystemUtils.executeCommand (NeexProject.packageManager project) ["run"; "build"]
    (Some (NeexProject.rootPath project)) ;;
  Logger.stopSpinner true ;;
  Logger.success "Project built successfully".

Definition envPath (project : NeexProject.t) : string :=
  NeexProject.rootPath project +:+ "/.env".

Definition envContent (config : DeployConfig.t) : string :=
  "NODE_ENV=" +:+ env_name (DeployConfig.environment config) +:+ "
DATABASE_URL=" +:+ dq +:+ "your-database-connection-string" +:+ dq +:+ "
PORT_CLIENT=" +:+ num (DeployConfig.clientPort config) +:+ "
PORT_SERVER=" +:+ num (DeployConfig.serverPort config) +:+ "
# Add your other environment variables here
".

Definition generateEnvironment (config : DeployConfig.t)
    (project : NeexProject.t) : M unit :=
  let envPath := envPath project in
  envExists <- SystemUtils.checkCommand ("test -f " +:+ envPath) ;;
  if negb envExists then
    let envContent := envContent config in
    SystemUtils.writeFile envPath envContent ;;
    Logger.success ".env file created" ;;
    Logger.warning "Please update .env with your actual values"
  else
    Logger.success ".env file already exists".

Definition setupPM2 (config : DeployConfig.t) (project : NeexProject.t) : M unit :=
  Logger.step "Setting up PM2..." ;;
  PM2Generator.install ;;
  PM2Generator.generate config project ;;
  PM2Generator.start config project.

Definition setupNginx (config : DeployConfig.t) (project : NeexProject.t) : M unit :=
  Logger.step "Setting up Nginx..." ;;
  try_catch
    (NginxGenerator.install ;;
     NginxGenerator.generate config project)
    (fun error =>
       Logger.warning ("Nginx setup requires manual intervention: " +:+ message error)).

Definition statusScript (config : DeployConfig.t) : string :=
  "#!/bin/bash
echo " +:+ dq +:+ "=== PM2 Status ===" +:+ dq +:+ "
pm2 status

echo -e " +:+ dq +:+ "\n=== PM2 Logs (last 20 lines) ===" +:+ dq +:+ "
pm2 logs --lines 20

echo -e " +:+ dq +:+ "\n=== Port Status ===" +:+ dq +:+ "
netstat -tulpn | grep -E " +:+ dq +:+ ":(" +:+ num (DeployConfig.clientPort config) +:+ "|" +:+ num (DeployConfig.serverPort config) +:+ "|80|443)" +:+ dq +:+ " || true

echo -e " +:+ dq +:+ "\n=== System Resources ===" +:+ dq +:+ "
df -h
free -h 2>/dev/null || top -l 1 | grep -E " +:+ dq +:+ "^(Processes|PhysMem)" +:+ dq +:+ "
".

Definition restartScript : string :=
  "#!/bin/bash
echo " +:+ dq +:+ "Restarting services..." +:+ dq +:+ "
pm2 restart all
echo " +:+ dq +:+ "Services restarted!" +:+ dq +:+ "
".

Definition createManagementScripts (config : DeployConfig.t)
    (project : NeexProject.t) : M unit :=
  Logger.step "Creating management scripts..." ;;
  SystemUtils.writeFile (NeexProject.rootPath project +:+ "/status.sh")
    (statusScript config) ;;
  SystemUtils.executeCommand "chmod" ["+x"; "status.sh"]
    (Some (NeexProject.rootPath project)) ;;
  SystemUtils.writeFile (NeexProject.rootPath project +:+ "/restart.sh")
    restartScript ;;
  SystemUtils.executeCommand "chmod" ["+x"; "restart.sh"]
    (Some (NeexProject.rootPath project)) ;;
  Logger.success "Management scripts created".

Definition performFinalChecks (config : DeployConfig.t)
    (project : NeexProject.t) : M unit :=
  Logger.step "Performing final checks..." ;;
  setTimeout 3000 ;;
  when (NeexProject.hasClient project)
    (clientAvailable <- SystemUtils.isPortAvailable (DeployConfig.clientPort config) ;;
     if (clientAvailable : bool) then
       Logger.warning ("Client port " +:+ num (DeployConfig.clientPort config)
                         +:+ " seems to be available (service might not be running)")
     else
       Logger.success ("Client is running on port " +:+ num (DeployConfig.clientPort config))) ;;
  when (NeexProject.hasServer project)
    (serverAvailable <- SystemUtils.isPortAvailable (DeployConfig.serverPort config) ;;
     if (serverAvailable : bool) then
       Logger.warning ("Server port " +:+ num (DeployConfig.serverPort config)
                         +:+ " seems to be available (service might not be running)")
     else
       Logger.success ("Server is running on port " +:+ num (DeployConfig.serverPort config))).

Definition printPostDeploymentInfo (config : DeployConfig.t)
    (project : NeexProject.t) : M unit :=
  console_log (nl +:+ repeat_str "=" 60) ;;
  console_log "🎉 DEPLOYMENT COMPLETED SUCCESSFULLY!" ;;
  console_log (repeat_str "=" 60) ;;
  console_log (nl +:+ "📋 Your application is now running:") ;;
  when (NeexProject.hasClient project)
    (console_log ("   Frontend: http://localhost:" +:+ num (DeployConfig.clientPort config))) ;;
  when (NeexProject.hasServer project)
    (console_log ("   Backend:  http://localhost:" +:+ num (DeployConfig.serverPort config))) ;;
  when (negb (String.eqb (DeployConfig.domain config) "localhost"))
    (console_log ("   Public:   http://" +:+ DeployConfig.domain config)) ;;
  console_log (nl +:+ "🔧 Management commands:") ;;
  console_log "   Check status: ./status.sh" ;;
  console_log "   Restart:      ./restart.sh" ;;
  console_log "   PM2 logs:     pm2 logs" ;;
  console_log "   PM2 monitor:  pm2 monit" ;;
  console_log (nl +:+ "📝 Next steps:") ;;
  console_log "   1. Update .env file with your actual values" ;;
  when (DeployConfig.nginxConfig config)
    (console_log "   2. Follow nginx-setup.md for Nginx configuration" ;;
     console_log "   3. Setup SSL certificate for production") ;;
  console_log "   4. Configure your firewall to allow HTTP/HTTPS traffic" ;;
  console_log (nl +:+ repeat_str "=" 60).

Definition deploy (config : DeployConfig.t) (project : NeexProject.t) : M unit :=
  Logger.info ("🚀 Starting deployment of " +:+ DeployConfig.projectName config) ;;
  try_catch
    (checkPrerequisites project ;;
     buildProject project ;;
     generateEnvironment config project ;;
     setupPM2 config project ;;
     when (DeployConfig.nginxConfig config) (setupNginx config project) ;;
     createManagementScripts config project ;;
     performFinalChecks config project ;;
     Logger.success "🎉 Deployment completed successfully!" ;;
     printPostDeploymentInfo config project)
    (fun error =>
       let errorMessage := message error in
       Logger.error ("Deployment failed: " +:+ errorMessage) ;;
       throw error).
End Deployer.

(** ** Reading the generated artifacts *)

(** The lines of a routing document that declare an upstream and its
    target, a location rule, or a proxy target, without their indentation. *)
Definition is_routing_line (l : string) : bool :=
  starts_with "upstream " l || starts_with "server localhost:" l
  || starts_with "location " l || starts_with "proxy_pass " l.

Definition routing_lines (doc : string) : list string :=
  List.filter is_routing_line (map trim_left (lines doc)).

(** The lines of a manifest that carry the name of an entry or the port in
    its environment mapping, without their indentation. *)
Definition is_entry_line (l : string) : bool :=
  starts_with (q "name" +:+ ":") l || starts_with (q "PORT" +:+ ":") l.

Definition entry_lines (doc : string) : list string :=
  List.filter is_entry_line (map trim_left (lines doc)).

(** Number of the first line of [doc] that reads [l] once its indentation
    is removed. *)
Definition line_index (l doc : string) : option nat :=
  find_index (fun x => String.eqb l (trim_left x)) (lines doc).

(** The name and the port of a manifest entry. *)
Definition entry_summary (a : PM2AppConfig.t) : string * N :=
  (PM2AppConfig.name a, PM2AppConfig.PORT (PM2AppConfig.env a)).

(** The messages logged at warning level. *)
Definition warnings (out : list Output) : list string :=
  omap (fun o => match o with Log LWarning msg => Some msg | _ => None end) out.

(** The lines printed with [console.log]. *)
Definition printed (out : list Output) : list string :=
  omap (fun o => match o with Line text => Some text | _ => None end) out.

(** The host operations a computation adds to the trace of [w]. *)
Definition issued {A} (m : M A) (w : World) : list Event :=
  drop (length (trace w)) (trace (snd (m w))).

(** What a computation adds to the console of [w]. *)
Definition shown {A} (m : M A) (w : World) : list Output :=
  drop (length (console w)) (console (snd (m w))).

(** The external commands that exited with an error. *)
Definition failed_commands (t : list Event) : list (string * list string) :=
  omap (fun ev => match ev with
                  | EvExec command args _ (Some _) => Some (command, args)
                  | _ => None
                  end) t.

(** A host operation that starts no external program. *)
Definition starts_no_program (ev : Event) : Prop :=
  match ev with
  | EvExec _ _ _ _ => False
  | _ => True
  end.

(** Console output that informs and never decides: a step heading, a
    warning or a success line. *)
Definition advisory (o : Output) : Prop :=
  exists msg, o = Log LStep msg \/ o = Log LWarning msg \/ o = Log LSuccess msg.

(** ** The pipeline as a state machine (section 4.4 of the specification)

    The step list is fixed; [SetupProxy] is on it only when the
    configuration asks for the proxy.  A step that throws ends the run in
    [Failed], except [SetupProxy], whose error becomes a warning and the
    machine moves on. *)

Inductive Step :=
| CheckPrerequisites
| Build
| MaterializeEnvironment
| SetupSupervisor
| SetupProxy
| GenerateManagementScripts
| VerifyDeployment.

Inductive Terminal :=
| Done
| Failed (e : Error).

Definition step_list (config : DeployConfig.t) : list Step :=
  [CheckPrerequisites; Build; MaterializeEnvironment; SetupSupervisor]
  ++ (if DeployConfig.nginxConfig config then [SetupProxy] else [])
  ++ [GenerateManagementScripts; VerifyDeployment].

(** What a step does, before the transition rule is applied to it: for
    [SetupProxy], the proxy controller without the caller's handler. *)
Definition step_body (s : Step) (config : DeployConfig.t) (project : NeexProject.t)
    : M unit :=
  match s with
  | CheckPrerequisites => Deployer.checkPrerequisites project
  | Build => Deployer.buildProject project
  | MaterializeEnvironment => Deployer.generateEnvironment config project
  | SetupSupervisor => Deployer.setupPM2 config project
  | SetupProxy =>
      Logger.step "Setting up Nginx..." ;;
      NginxGenerator.install ;;
      NginxGenerator.generate config project
  | GenerateManagementScripts => Deployer.createManagementScripts config project
  | VerifyDeployment => Deployer.performFinalChecks config project
  end.

Definition proxy_warning (e : Error) : Output :=
  Log LWarning ("Nginx setup requires manual intervention: " +:+ message e).

Fixpoint pipeline (steps : list Step) (config : DeployConfig.t)
    (project : NeexProject.t) (w : World) : Terminal * World :=
  match steps with
  | [] => (Done, w)
  | s :: rest =>
      match step_body s config project w with
      | (Returned _, w') => pipeline rest config project w'
      | (Thrown e, w') =>
          match s with
          | SetupProxy => pipeline rest config project (emit (proxy_warning e) w')
          | _ => (Failed e, w')
          end
      end
  end.

(** The terminal state as the caller of [deploy] sees it. *)
Definition conclude (config : DeployConfig.t) (project : NeexProject.t)
    (r : Terminal * World) : Outcome unit * World :=
  match r with
  | (Done, w) =>
      (Logger.success "🎉 Deployment completed successfully!" ;;
       Deployer.printPostDeploymentInfo config project) w
  | (Failed e, w) =>
      (Thrown e, emit (Log LError ("Deployment failed: " +:+ message e)) w)
  end.

Definition announce (config : DeployConfig.t) (w : World) : World :=
  emit (Log LInfo ("🚀 Starting deployment of " +:+ DeployConfig.projectName config)) w.

(** ** Scenarios *)

Definition blog : DeployConfig.t :=
  DeployConfig.mk "blog" "localhost" false None 3000 8000 npm production true true.

Definition both_tiers : NeexProject.t :=
  NeexProject.mk true true "/srv/blog/apps/client" "/srv/blog/apps/server"
    "/srv/blog" "npm".

Definition server_only : NeexProject.t :=
  NeexProject.mk false true "/srv/blog/apps/client" "/srv/blog/apps/server"
    "/srv/blog" "npm".

(** A host on which [which] resolves exactly the names in [known], the
    commands selected by [failing] exit with an error, every write succeeds
    and every probed port is held by some process. *)
Definition scenario_host (known : list string)
    (failing : string -> list string -> bool) : Host :=
  mkHost "linux"
    (fun _ command args _ =>
       if String.eqb command "which" then
         match args with
         | [name] =>
             if existsb (String.eqb name) known then None
             else Some (mkError ("Command failed with exit code 1: which " +:+ name))
         | _ => Some (mkError "Command failed with exit code 1: which")
         end
       else if failing command args then
         Some (mkError ("Command failed with exit code 1: " +:+ command))
       else None)
    (fun _ _ => None)
    (fun _ _ _ => None)
    (fun _ port => inr (port + 1)).

Definition fresh_world (h : Host) (files : gmap string string) : World :=
  mkWorld h files [] [].

Definition usual_host : Host :=
  scenario_host ["node"; "npm"; "pm2"; "nginx"] (fun _ _ => false).

Definition host_without_node : Host :=
  scenario_host ["npm"; "pm2"; "nginx"] (fun _ _ => false).

Definition host_without_nginx : Host :=
  scenario_host ["node"; "npm"; "pm2"] (fun _ _ => false).

Definition autostart_warning : string :=
  "Could not configure PM2 auto-startup. You may need to run this manually with sudo.".

Definition host_startup_refused : Host :=
  scenario_host ["node"; "npm"; "pm2"; "nginx"]
    (fun command args =>
       String.eqb command "pm2" && bool_decide (args = ["startup"])).

(** A project root that already holds an operator-provided [.env]. *)
Definition operator_env : string := "DATABASE_URL=postgres://prod.internal/blog
".

Definition files_with_env : gmap string string :=
  {[ "/srv/blog/.env" := operator_env ]}.

(** ** Footprints *)

(** [w'] comes from [w] through host operations satisfying [okE], console
    output satisfying [okO] and writes to files satisfying [okP], on the
    same host. *)
Definition within (okE : Event -> Prop) (okO : Output -> Prop)
    (okP : string -> Prop) (w w' : World) : Prop :=
  host w' = host w
  /\ (exists t, trace w' = trace w ++ t /\ Forall okE t)
  /\ (exists o, console w' = console w ++ o /\ Forall okO o)
  /\ (forall p, ~ okP p -> files w' !! p = files w !! p).

(** A computation that stays within the footprint, however it ends. *)
Definition confined (okE : Event -> Prop) (okO : Output -> Prop)
    (okP : string -> Prop) {A} (m : M A) : Prop :=
  forall w, within okE okO okP w (snd (m w)).

Definition anything {A} (x : A) : Prop := True.

(** Host operations that start none but the listed commands, a command
    being a program with its arguments. *)
Definition runs_only (commands : list (string * list string)) (ev : Event) : Prop :=
  match ev with
  | EvExec command args _ _ => In (command, args) commands
  | _ => True
  end.

(** Console output other than an error line. *)
Definition not_error (o : Output) : Prop :=
  match o with
  | Log LError _ => False
  | _ => True
  end.

(** The commands a deployment may start and the files it may write, with
    or without the proxy step. *)
Definition commands_of_deploy (proxy : bool) (config : DeployConfig.t)
    (project : NeexProject.t) : list (string * list string) :=
  [("which", ["node"]);
   ("which", [NeexProject.packageManager project]);
   (NeexProject.packageManager project, ["install"]);
   (NeexProject.packageManager project, ["run"; "build"]);
   ("which", ["test -f " +:+ NeexProject.rootPath project +:+ "/.env"]);
   ("which", ["pm2"]);
   ("npm", ["install"; "-g"; "pm2"]);
   ("pm2", ["delete"; "all"]);
   ("pm2", ["start"; "ecosystem.config.js"]);
   ("pm2", ["save"]);
   ("chmod", ["+x"; "status.sh"]);
   ("chmod", ["+x"; "restart.sh"])]
  ++ (if DeployConfig.autoStart config then [("pm2", ["startup"])] else [])
  ++ (if proxy then [("which", ["nginx"])] else []).

Definition files_of_deploy (proxy : bool) (config : DeployConfig.t)
    (project : NeexProject.t) : list string :=
  [NeexProject.rootPath project +:+ "/.env";
   NeexProject.rootPath project +:+ "/ecosystem.config.js";
   NeexProject.rootPath project +:+ "/status.sh";
   NeexProject.rootPath project +:+ "/restart.sh"]
  ++ (if proxy then
        ["/usr/local/etc/nginx/servers/" +:+ DeployConfig.projectName config +:+ ".conf";
         "/etc/nginx/sites-available/" +:+ DeployConfig.projectName config;
         NeexProject.rootPath project +:+ "/nginx-setup.md"]
      else []).

Definition deploy_commands (config : DeployConfig.t) (project : NeexProject.t)
    : list (string * list string) :=
  commands_of_deploy (DeployConfig.nginxConfig config) config project.

Definition deploy_files (config : DeployConfig.t) (project : NeexProject.t)
    : list string :=
  files_of_deploy (DeployConfig.nginxConfig config) config project.

(** A host operation other than the registration for start at boot. *)
Definition not_startup_registration (ev : Event) : Prop :=
  forall cwd r, ev <> EvExec "pm2" ["startup"] cwd r.

(** The two commands [start] always begins with. *)
Definition delete_all (project : NeexProject.t) (r : option Error) : Event :=
  EvExec "pm2" ["delete"; "all"] (Some (NeexProject.rootPath project)) r.

Definition load_manifest (project : NeexProject.t) (r : option Error) : Event :=
  EvExec "pm2" ["start"; "ecosystem.config.js"]
    (Some (NeexProject.rootPath project)) r.

(** A host on which [pm2 start] fails. *)
Definition host_load_refused : Host :=
  scenario_host ["node"; "npm"; "pm2"; "nginx"]
    (fun command args =>
       String.eqb command "pm2" && bool_decide (args = ["start"; "ecosystem.config.js"])).

Definition blog_manual_start : DeployConfig.t :=
  DeployConfig.mk "blog" "localhost" false None 3000 8000 npm production false false.

(** [m] is one external command whose failure it logs as an error and
    throws on, unchanged. *)
Definition passes_on (command : string) (args : list string) (m : M unit)
    (w : World) : Prop :=
  exists r : option Error,
    issued m w = [EvExec command args None r]
    /\ fst (m w) = match r with Some e => Thrown e | None => Returned tt end
    /\ match r with
       | Some e =>
           exists heading prefix,
             shown m w = [Log LStep heading; Log LError (prefix +:+ message e)]
       | None => Forall not_error (shown m w)
       end.

(** The path [getConfigPath] selects on a host. *)
Definition config_path_on (h : Host) (config : DeployConfig.t) : string :=
  if String.eqb (platform h) "darwin"
  then "/usr/local/etc/nginx/servers/" +:+ DeployConfig.projectName config +:+ ".conf"
  else "/etc/nginx/sites-available/" +:+ DeployConfig.projectName config.

(** The hints [NginxGenerator.install] logs when the proxy is missing. *)
Definition install_hints (h : Host) : list Output :=
  if String.eqb (platform h) "darwin" then
    [Log LInfo "macOS: brew install nginx"]
  else if String.eqb (platform h) "win32" then []
  else [Log LInfo "Ubuntu/Debian: sudo apt install nginx";
        Log LInfo "CentOS/RHEL: sudo yum install nginx"].

(** The ports probed, in order. *)
Definition probed_ports (t : list Event) : list N :=
  omap (fun ev => match ev with EvDetectPort port _ => Some port | _ => None end) t.

Definition blog_host_name : DeployConfig.t :=
  DeployConfig.mk "blog" "blog.example.org" false None 3000 8000 npm production true true.

(** The write of the manifest, done. *)
Definition manifest_written (config : DeployConfig.t) (project : NeexProject.t)
    : Event :=
  EvWriteFile (NeexProject.rootPath project +:+ "/ecosystem.config.js")
    (PM2Generator.generateEcosystemConfig config project) None.

(** The two commands of the build, in the root of the project. *)
Definition install_dependencies (project : NeexProject.t) (r : option Error) : Event :=
  EvExec (NeexProject.packageManager project) ["install"]
    (Some (NeexProject.rootPath project)) r.

Definition run_build (project : NeexProject.t) (r : option Error) : Event :=
  EvExec (NeexProject.packageManager project) ["run"; "build"]
    (Some (NeexProject.rootPath project)) r.

(** ** The prompt's project-name check (cli.ts)

    Strings are sequences of UTF-8 bytes.  [String.prototype.trim] removes
    the white space and line terminator code points of ECMAScript from both
    ends; [space_width] is the number of bytes of such a code point at the
    head of a text, 0 when there is none. *)

Module Cli.

Definition space_width (s : string) : nat :=
  match s with
  | EmptyString => 0%nat
  | String c r =>
      let n := N_of_ascii c in
      if ((9 <=? n) && (n <=? 13)) || (n =? 32) then 1%nat
      else if n =? 194 then
        (* U+00A0 *)
        match r with
        | String c1 _ => if N_of_ascii c1 =? 160 then 2%nat else 0%nat
        | EmptyString => 0%nat
        end
      else if (n =? 225) || (n =? 226) || (n =? 227) || (n =? 239) then
        match r with
        | String c1 (String c2 _) =>
            let n1 := N_of_ascii c1 in
            let n2 := N_of_ascii c2 in
            if
              (* U+1680 *)
              ((n =? 225) && (n1 =? 154) && (n2 =? 128))
              (* U+2000 to U+200A, U+2028, U+2029, U+202F *)
              || ((n =? 226) && (n1 =? 128)
                  && (((128 <=? n2) && (n2 <=? 138))
                      || (n2 =? 168) || (n2 =? 169) || (n2 =? 175)))
              (* U+205F *)
              || ((n =? 226) && (n1 =? 129) && (n2 =? 159))
              (* U+3000 *)
              || ((n =? 227) && (n1 =? 128) && (n2 =? 128))
              (* U+FEFF *)
              || ((n =? 239) && (n1 =? 187) && (n2 =? 191))
            then 3%nat else 0%nat
        | _ => 0%nat
        end
      else 0%nat
  end.

Fixpoint drop_bytes (k : nat) (s : string) : string :=
  match k, s with
  | S k', String _ r => drop_bytes k' r
  | _, _ => s
  end.

Fixpoint trim_start_upto (fuel : nat) (s : string) : string :=
  match fuel with
  | O => s
  | S fuel' =>
      match space_width s with
      | O => s
      | k => trim_start_upto fuel' (drop_bytes k s)
      end
  end.

Definition trimStart (s : string) : string := trim_start_upto (String.length s) s.

Fixpoint trimEnd (s : string) : string :=
  match s with
  | EmptyString => ""
  | String c r =>
      if String.eqb (trimStart s) "" then "" else String c (trimEnd r)
  end.

Definition trim (s : string) : string := trimEnd (trimStart s).

(** A character of the class [[a-zA-Z0-9-_]]. *)
Definition name_char (c : ascii) : bool :=
  let n := N_of_ascii c in
  ((97 <=? n) && (n <=? 122)) || ((65 <=? n) && (n <=? 90))
  || ((48 <=? n) && (n <=? 57)) || (n =? 45) || (n =? 95).

Fixpoint all_chars (ok : ascii -> bool) (s : string) : bool :=
  match s with
  | EmptyString => true
  | String c r => ok c && all_chars ok r
  end.

(** [/^[a-zA-Z0-9-_]+$/.test(input)]: without the [m] flag the anchors are
    the two ends of the input. *)
Definition name_pattern (input : string) : bool :=
  negb (String.eqb input "") && all_chars name_char input.

(** What a validator of a prompt answers: [true], or the message shown. *)
Inductive Validation :=
| Valid
| Invalid (message : string).

Definition validateProjectName (input : string) : Validation :=
  if String.eqb (trim input) "" then Invalid "Project name is required"
  else if negb (name_pattern input) then
    Invalid "Project name can only contain letters, numbers, hyphens, and underscores"
  else Valid.

End Cli.

(** Host operations that start none but the listed commands and write, or
    ensure the directory of, none but the listed files. *)
Definition touches_only (commands : list (string * list string))
    (paths : list string) (ev : Event) : Prop :=
  match ev with
  | EvExec command args _ _ => In (command, args) commands
  | EvEnsureDir path _ => In path paths
  | EvWriteFile path _ _ => In path paths
  | _ => True
  end.


(** A host operation that starts none of the listed programs. *)
Definition starts_none_of (programs : list string) (ev : Event) : Prop :=
  match ev with
  | EvExec command _ _ _ => ~ In command programs
  | _ => True
  end.

(** The package managers the detector can report (detector.ts). *)
Definition detected_package_managers : list string := ["npm"; "yarn"; "pnpm"; "bun"].

(** ** The artifacts as the specification describes them

    A frame that does not depend on the topology, and one block per enabled
    subsystem: an entry in the manifest, an upstream and a location rule in
    the routing document. *)

Inductive Subsystem := Client | Server.

Definition enabled (project : NeexProject.t) : list Subsystem :=
  (if NeexProject.hasClient project then [Client] else [])
  ++ (if NeexProject.hasServer project then [Server] else []).

Definition entry_name (config : DeployConfig.t) (s : Subsystem) : string :=
  DeployConfig.projectName config
    +:+ match s with Client => "-client" | Server => "-server" end.

Definition start_script (s : Subsystem) : string :=
  match s with Client => "run start:client" | Server => "run start:server" end.

Definition backend (s : Subsystem) : string :=
  match s with Client => "client_backend" | Server => "server_backend" end.

Definition port_of (config : DeployConfig.t) (s : Subsystem) : N :=
  match s with
  | Client => DeployConfig.clientPort config
  | Server => DeployConfig.serverPort config
  end.

(** The fourteen lines of the entry of a subsystem; the closing brace of
    every entry but the last is followed by a comma. *)
Definition manifest_entry (config : DeployConfig.t) (project : NeexProject.t)
    (s : Subsystem) (last : bool) : list string :=
  ["  {";
   "    " +:+ q "name" +:+ ": "
     +:+ dq +:+ json_escape_all (entry_name config s) +:+ dq +:+ ",";
   "    " +:+ q "script" +:+ ": "
     +:+ dq +:+ json_escape_all (pm_name (DeployConfig.packageManager config)) +:+ dq +:+ ",";
   "    " +:+ q "args" +:+ ": " +:+ q (start_script s) +:+ ",";
   "    " +:+ q "cwd" +:+ ": "
     +:+ dq +:+ json_escape_all (NeexProject.rootPath project) +:+ dq +:+ ",";
   "    " +:+ q "instances" +:+ ": 1,";
   "    " +:+ q "autorestart" +:+ ": true,";
   "    " +:+ q "watch" +:+ ": false,";
   "    " +:+ q "max_memory_restart" +:+ ": " +:+ q "1G" +:+ ",";
   "    " +:+ q "env" +:+ ": {";
   "      " +:+ q "NODE_ENV" +:+ ": "
     +:+ dq +:+ json_escape_all (env_name (DeployConfig.environment config)) +:+ dq +:+ ",";
   "      " +:+ q "PORT" +:+ ": " +:+ num (port_of config s);
   "    }";
   if last then "  }" else "  },"].

Fixpoint manifest_entries (config : DeployConfig.t) (project : NeexProject.t)
    (l : list Subsystem) : list string :=
  match l with
  | [] => []
  | [s] => manifest_entry config project s true
  | s :: rest =>
      manifest_entry config project s false ++ manifest_entries config project rest
  end.

Definition manifest_lines (config : DeployConfig.t) (project : NeexProject.t)
    : list string :=
  match enabled project with
  | [] => ["module.exports = {"; "  apps: []"; "};"]
  | l =>
      ["module.exports = {"; "  apps: ["]
      ++ manifest_entries config project l
      ++ ["]"; "};"]
  end.

Definition upstream_block (config : DeployConfig.t) (s : Subsystem) : list string :=
  ["    upstream " +:+ backend s +:+ " {";
   "        server localhost:" +:+ num (port_of config s) +:+ ";";
   "    }"].

Definition location_block (s : Subsystem) : list string :=
  [match s with
   | Client => "    # Frontend (Next.js)"
   | Server => "    # Backend API (Express)"
   end;
   match s with
   | Client => "    location / {"
   | Server => "    location /api/ {"
   end;
   match s with
   | Client => "        proxy_pass http://client_backend;"
   | Server => "        proxy_pass http://server_backend/;"
   end;
   "        proxy_http_version 1.1;";
   "        proxy_set_header Upgrade $http_upgrade;";
   "        proxy_set_header Connection 'upgrade';";
   "        proxy_set_header Host $host;";
   "        proxy_set_header X-Real-IP $remote_addr;";
   "        proxy_set_header X-Forwarded-For $proxy_add_x_forwarded_for;";
   "        proxy_set_header X-Forwarded-Proto $scheme;";
   "        proxy_cache_bypass $http_upgrade;";
   "    }"].

(** The routing document: the upstreams of the enabled subsystems, the
    server block with its headers, their location rules with the server's
    first, and the rule for static assets, which names the client as its
    proxy target when there is one and is left without target otherwise. *)
Definition routing_lines_expected (config : DeployConfig.t) (project : NeexProject.t)
    : list string :=
  [""]
  ++ concat (map (upstream_block config) (enabled project))
  ++ [""; "server {"; "    listen 80;";
      "    server_name " +:+ DeployConfig.domain config
        +:+ " www." +:+ DeployConfig.domain config +:+ ";";
      "    ";
      "    client_max_body_size 100M;";
      "    ";
      "    # Security headers";
      "    add_header X-Frame-Options " +:+ q "SAMEORIGIN" +:+ " always;";
      "    add_header X-XSS-Protection " +:+ q "1; mode=block" +:+ " always;";
      "    add_header X-Content-Type-Options " +:+ q "nosniff" +:+ " always;";
      "    add_header Referrer-Policy " +:+ q "no-referrer-when-downgrade" +:+ " always;";
      "    add_header Content-Security-Policy "
        +:+ q "default-src 'self' http: https: data: blob: 'unsafe-inline'" +:+ " always;";
      "    "]
  ++ concat (map location_block (rev (enabled project)))
  ++ ["    ";
      "    # Static files caching";
      "    location ~* \.(js|css|png|jpg|jpeg|gif|ico|svg|woff|woff2|ttf|eot)$ {";
      "        expires 1y;";
      "        add_header Cache-Control " +:+ q "public, immutable" +:+ ";";
      "        " +:+ (if NeexProject.hasClient project
                      then "proxy_pass http://client_backend;" else "");
      "    }";
      "    ";
      "    # Gzip compression";
      "    gzip on;";
      "    gzip_vary on;";
      "    gzip_min_length 1024;";
      "    gzip_proxied expired no-cache no-store private must-revalidate auth;";
      "    gzip_types text/plain text/css text/xml text/javascript application/x-javascript application/javascript application/xml+rss application/json;";
      "}"].

(** A line that stands for a value that is not there. *)
Definition is_placeholder (l : string) : bool :=
  existsb (String.eqb (trim_left l))
    ["null"; "null,"; "undefined"; "undefined,"; "{}"; "{},"; "[]"; "[],"].

(** What the two generators read of their arguments. *)
Definition manifest_inputs (config : DeployConfig.t) (project : NeexProject.t)
    : string * PackageManager * Environment * N * N * string * bool * bool :=
  (DeployConfig.projectName config, DeployConfig.packageManager config,
   DeployConfig.environment config, DeployConfig.clientPort config,
   DeployConfig.serverPort config, NeexProject.rootPath project,
   NeexProject.hasClient project, NeexProject.hasServer project).

Definition routing_inputs (config : DeployConfig.t) (project : NeexProject.t)
    : string * N * N * bool * bool :=
  (DeployConfig.domain config, DeployConfig.clientPort config,
   DeployConfig.serverPort config,
   NeexProject.hasClient project, NeexProject.hasServer project).

(** The same application on another checkout and with other choices for
    what the generators do not read. *)
Definition blog_elsewhere : NeexProject.t :=
  NeexProject.mk true true "/home/ci/blog/apps/client" "/home/ci/blog/apps/server"
    "/srv/blog" "yarn".

(** A call of [fs.ensureDir] or [fs.writeFile] on [path]. *)
Definition concerns (path : string) (ev : Event) : Prop :=
  match ev with
  | EvEnsureDir p _ => p = path
  | EvWriteFile p _ _ => p = path
  | _ => False
  end.

(** * Properties *)

(** ** Running computations *)

Lemma bind_ret {A B} (a : A) (k : A -> M B) (w : World) :
  bind (ret a) k w = k a w.
Proof. reflexivity. Qed.

Lemma bind_out {A} (o : Output) (k : unit -> M A) (w : World) :
  bind (Logger.out o) k w = k tt (emit o w).
Proof. reflexivity. Qed.

Lemma bind_bind {A B C} (m : M A) (f : A -> M B) (g : B -> M C) (w : World) :
  bind (bind m f) g w = bind m (fun x => bind (f x) g) w.
Proof. unfold bind. destruct (m w) as [[a|e] w']; reflexivity. Qed.

Lemma out_run (o : Output) (w : World) : Logger.out o w = (Returned tt, emit o w).
Proof. reflexivity. Qed.

Lemma emit_as_all (o : Output) (w : World) : emit o w = emit_all [o] w.
Proof. reflexivity. Qed.

Lemma emit_all_all (l1 l2 : list Output) (w : World) :
  emit_all l2 (emit_all l1 w) = emit_all (l1 ++ l2) w.
Proof. unfold emit_all. cbn. by rewrite app_assoc. Qed.

(** Straight-line console output, run to the end. *)
Ltac run_console :=
  repeat first [rewrite bind_bind | rewrite bind_out | rewrite bind_ret];
  rewrite ?out_run; rewrite ?emit_as_all; rewrite ?emit_all_all; cbn [app].

(** ** Lines of a text *)

Lemma lines_nonempty (s : string) : lines s <> [].
Proof.
  destruct s as [|c r]; cbn; [discriminate|].
  destruct (Ascii.eqb c lf); [discriminate|].
  destruct (lines r); discriminate.
Qed.

Lemma lines_single (s : string) : single_line s = true -> lines s = [s].
Proof.
  induction s as [|c r IH]; cbn; [reflexivity|].
  destruct (Ascii.eqb c lf); cbn; [discriminate|].
  intros H. rewrite (IH H). reflexivity.
Qed.

Lemma append_empty_r (s : string) : s +:+ "" = s.
Proof.
  induction s as [|c r IH]; [reflexivity|].
  change (String c r +:+ "") with (String c (r +:+ "")). by rewrite IH.
Qed.

Lemma append_assoc (a b c : string) : (a +:+ b) +:+ c = a +:+ (b +:+ c).
Proof.
  induction a as [|x r IH]; [reflexivity|].
  change ((String x r +:+ b) +:+ c) with (String x ((r +:+ b) +:+ c)).
  by rewrite IH.
Qed.

Lemma lines_app (a b : string) :
  lines (a +:+ b) =
    removelast (lines a)
    ++ (List.last (lines a) "" +:+ List.hd "" (lines b)) :: List.tl (lines b).
Proof.
  induction a as [|c r IH].
  - change ("" +:+ b) with b. cbn.
    destruct (lines b) eqn:E; [by apply lines_nonempty in E|reflexivity].
  - change (String c r +:+ b) with (String c (r +:+ b)). cbn [lines].
    rewrite IH.
    destruct (lines r) as [|l1 ls1] eqn:E; [by apply lines_nonempty in E|].
    destruct (Ascii.eqb c lf).
    + reflexivity.
    + destruct ls1; reflexivity.
Qed.

Lemma cat_pieces_fold (l : list string) :
  cat_pieces l = fold_right String.append "" l.
Proof.
  induction l as [|x [|y r] IH]; [reflexivity| |].
  - cbn. symmetry. apply append_empty_r.
  - change (cat_pieces (x :: y :: r)) with (x +:+ cat_pieces (y :: r)).
    rewrite IH. reflexivity.
Qed.

Lemma render_line_fold (l : list piece) :
  render_line l = fold_right String.append "" (map piece_text l).
Proof.
  unfold render_line. rewrite cat_pieces_fold.
  induction l as [|p r IH]; [reflexivity|].
  destruct p as [[|c s]|s]; cbn; rewrite IH; reflexivity.
Qed.

Lemma render_line_app (a b : list piece) :
  render_line (a ++ b) = render_line a +:+ render_line b.
Proof.
  rewrite !render_line_fold, map_app.
  induction (map piece_text a) as [|x r IH]; [reflexivity|].
  cbn. rewrite IH. symmetry. apply append_assoc.
Qed.

Lemma lines_of_nonempty (t : text) : lines_of t <> [].
Proof.
  destruct t as [s|s|a b]; cbn.
  - destruct (lines s) eqn:E; [by apply lines_nonempty in E|discriminate].
  - discriminate.
  - unfold glue_lines. destruct (removelast (lines_of a)); discriminate.
Qed.

Lemma map_removelast {A B} (f : A -> B) (l : list A) :
  map f (removelast l) = removelast (map f l).
Proof.
  induction l as [|x [|y r] IH]; [reflexivity..|].
  change (f x :: map f (removelast (y :: r)) = f x :: removelast (map f (y :: r))).
  by rewrite IH.
Qed.

Lemma map_last {A B} (f : A -> B) (l : list A) (d : A) :
  List.last (map f l) (f d) = f (List.last l d).
Proof.
  induction l as [|x [|y r] IH]; [reflexivity..|]. exact IH.
Qed.

Lemma lines_flatten (t : text) :
  values_single_line t = true -> lines (flatten t) = map render_line (lines_of t).
Proof.
  induction t as [s|s|a IHa b IHb]; cbn [flatten lines_of values_single_line].
  - intros _. rewrite map_map. induction (lines s) as [|l r IH]; [reflexivity|].
    cbn [map]. rewrite <- IH. f_equal. destruct l; reflexivity.
  - apply lines_single.
  - intros [Ha Hb]%andb_true_iff. rewrite lines_app, IHa, IHb by assumption.
    unfold glue_lines.
    pose proof (lines_of_nonempty b) as Nb.
    destruct (lines_of b) as [|hb tb]; [done|].
    rewrite map_app, map_removelast. cbn [map List.hd List.tl].
    rewrite render_line_app.
    change "" with (render_line []) at 1. rewrite map_last. reflexivity.
Qed.

Lemma single_line_app (a b : string) :
  single_line (a +:+ b) = single_line a && single_line b.
Proof.
  induction a as [|c r IH]; [reflexivity|].
  change (String c r +:+ b) with (String c (r +:+ b)). cbn [single_line].
  rewrite IH. apply andb_assoc.
Qed.

Lemma single_line_uint (d : Decimal.uint) :
  single_line (NilEmpty.string_of_uint d) = true.
Proof. induction d; cbn; auto. Qed.

Lemma single_line_num (n : N) : single_line (num n) = true.
Proof. apply single_line_uint. Qed.

Lemma single_line_json_escape (c : ascii) : single_line (json_escape c) = true.
Proof. destruct c as [[] [] [] [] [] [] [] []]; vm_compute; reflexivity. Qed.

Lemma single_line_json_escape_all (s : string) :
  single_line (json_escape_all s) = true.
Proof.
  induction s as [|c r IH]; [reflexivity|]. cbn [json_escape_all].
  rewrite single_line_app, single_line_json_escape, IH. reflexivity.
Qed.

(** Reading a template back: the text in the goal is seen as a [text] whose
    interpolated values are the variables, and its lines are computed. *)
Ltac as_text s :=
  lazymatch s with
  | String.append ?a ?b =>
      let ta := as_text a in
      let tb := as_text b in
      constr:(Cat ta tb)
  | _ =>
      match s with
      | _ => let _ := match goal with _ => is_var s end in constr:(Val s)
      | _ => constr:(Lit s)
      end
  end.

Ltac read_lines :=
  match goal with
  | |- context [lines ?s] =>
      let t := as_text s in
      change (lines s) with (lines (flatten t));
      rewrite (lines_flatten t)
        by (cbn [values_single_line]; repeat (apply andb_true_intro; split);
            (reflexivity || assumption))
  end.

(** ** The routing document, read back *)

Lemma routing_lines_generated (config : DeployConfig.t) (project : NeexProject.t) :
  single_line (DeployConfig.domain config) = true ->
  routing_lines (NginxGenerator.generateNginxConfig config project) =
    (if NeexProject.hasClient project then
       ["upstream client_backend {";
        "server localhost:" +:+ num (DeployConfig.clientPort config) +:+ ";"]
     else [])
    ++ (if NeexProject.hasServer project then
          ["upstream server_backend {";
           "server localhost:" +:+ num (DeployConfig.serverPort config) +:+ ";"]
        else [])
    ++ (if NeexProject.hasServer project then
          ["location /api/ {"; "proxy_pass http://server_backend/;"]
        else [])
    ++ (if NeexProject.hasClient project then
          ["location / {"; "proxy_pass http://client_backend;"]
        else [])
    ++ ["location ~* \.(js|css|png|jpg|jpeg|gif|ico|svg|woff|woff2|ttf|eot)$ {"]
    ++ (if NeexProject.hasClient project then
          ["proxy_pass http://client_backend;"]
        else []).
Proof.
  intros Hd.
  pose proof (single_line_num (DeployConfig.clientPort config)) as Hc.
  pose proof (single_line_num (DeployConfig.serverPort config)) as Hs.
  unfold routing_lines, NginxGenerator.generateNginxConfig.
  revert Hd Hc Hs.
  generalize (DeployConfig.domain config) (num (DeployConfig.clientPort config))
    (num (DeployConfig.serverPort config)).
  intros d pc ps Hd Hc Hs.
  destruct (NeexProject.hasClient project), (NeexProject.hasServer project);
    cbv beta iota zeta; read_lines; vm_compute; reflexivity.
Qed.

(** ** The manifest, as a list of entries and read back from its text *)

Lemma ecosystemApps_summary (config : DeployConfig.t) (project : NeexProject.t) :
  map entry_summary (PM2Generator.ecosystemApps config project) =
    (if NeexProject.hasClient project then
       [(DeployConfig.projectName config +:+ "-client", DeployConfig.clientPort config)]
     else [])
    ++ (if NeexProject.hasServer project then
          [(DeployConfig.projectName config +:+ "-server", DeployConfig.serverPort config)]
        else []).
Proof.
  unfold PM2Generator.ecosystemApps.
  destruct (NeexProject.hasClient project), (NeexProject.hasServer project);
    reflexivity.
Qed.

Lemma entry_lines_generated (config : DeployConfig.t) (project : NeexProject.t) :
  entry_lines (PM2Generator.generateEcosystemConfig config project) =
    (if NeexProject.hasClient project then
       [q "name" +:+ ": " +:+ dq
          +:+ json_escape_all (DeployConfig.projectName config +:+ "-client") +:+ dq +:+ ",";
        q "PORT" +:+ ": " +:+ num (DeployConfig.clientPort config)]
     else [])
    ++ (if NeexProject.hasServer project then
          [q "name" +:+ ": " +:+ dq
             +:+ json_escape_all (DeployConfig.projectName config +:+ "-server") +:+ dq +:+ ",";
           q "PORT" +:+ ": " +:+ num (DeployConfig.serverPort config)]
        else []).
Proof.
  pose proof (single_line_json_escape_all (DeployConfig.projectName config +:+ "-client")) as Hn1.
  pose proof (single_line_json_escape_all (DeployConfig.projectName config +:+ "-server")) as Hn2.
  pose proof (single_line_json_escape_all (NeexProject.rootPath project)) as Hr.
  pose proof (single_line_json_escape_all (pm_name (DeployConfig.packageManager config))) as Hm.
  pose proof (single_line_json_escape_all (env_name (DeployConfig.environment config))) as He.
  pose proof (single_line_num (DeployConfig.clientPort config)) as Hc.
  pose proof (single_line_num (DeployConfig.serverPort config)) as Hs.
  unfold entry_lines, PM2Generator.generateEcosystemConfig,
    PM2Generator.ecosystemApps.
  destruct (NeexProject.hasClient project), (NeexProject.hasServer project);
    cbv [app map PM2AppConfig.toJSON JSON_stringify2 stringify_at join
         PM2AppConfig.name PM2AppConfig.script PM2AppConfig.args PM2AppConfig.cwd
         PM2AppConfig.instances PM2AppConfig.autorestart PM2AppConfig.watch
         PM2AppConfig.max_memory_restart PM2AppConfig.env PM2AppConfig.NODE_ENV
         PM2AppConfig.PORT json_quote q];
    revert Hn1 Hn2 Hr Hm He Hc Hs;
    generalize (json_escape_all (DeployConfig.projectName config +:+ "-client"))
      (json_escape_all (DeployConfig.projectName config +:+ "-server"))
      (json_escape_all (NeexProject.rootPath project))
      (json_escape_all (pm_name (DeployConfig.packageManager config)))
      (json_escape_all (env_name (DeployConfig.environment config)))
      (num (DeployConfig.clientPort config)) (num (DeployConfig.serverPort config));
    intros n1 n2 r m e pc ps Hn1 Hn2 Hr Hm He Hc Hs;
    read_lines; vm_compute; reflexivity.
Qed.
Lemma manifest_lines_generated (config : DeployConfig.t) (project : NeexProject.t) :
  lines (PM2Generator.generateEcosystemConfig config project)
    = manifest_lines config project.
Proof.
  pose proof (single_line_json_escape_all (DeployConfig.projectName config +:+ "-client")) as Hn1.
  pose proof (single_line_json_escape_all (DeployConfig.projectName config +:+ "-server")) as Hn2.
  pose proof (single_line_json_escape_all (NeexProject.rootPath project)) as Hr.
  pose proof (single_line_json_escape_all (pm_name (DeployConfig.packageManager config))) as Hm.
  pose proof (single_line_json_escape_all (env_name (DeployConfig.environment config))) as He.
  pose proof (single_line_num (DeployConfig.clientPort config)) as Hc.
  pose proof (single_line_num (DeployConfig.serverPort config)) as Hs.
  unfold manifest_lines, enabled, PM2Generator.generateEcosystemConfig,
    PM2Generator.ecosystemApps.
  destruct (NeexProject.hasClient project), (NeexProject.hasServer project);
    cbv [app map PM2AppConfig.toJSON JSON_stringify2 stringify_at join
         PM2AppConfig.name PM2AppConfig.script PM2AppConfig.args PM2AppConfig.cwd
         PM2AppConfig.instances PM2AppConfig.autorestart PM2AppConfig.watch
         PM2AppConfig.max_memory_restart PM2AppConfig.env PM2AppConfig.NODE_ENV
         PM2AppConfig.PORT json_quote q manifest_entries manifest_entry entry_name start_script port_of];
    revert Hn1 Hn2 Hr Hm He Hc Hs;
    generalize (json_escape_all (DeployConfig.projectName config +:+ "-client"))
      (json_escape_all (DeployConfig.projectName config +:+ "-server"))
      (json_escape_all (NeexProject.rootPath project))
      (json_escape_all (pm_name (DeployConfig.packageManager config)))
      (json_escape_all (env_name (DeployConfig.environment config)))
      (num (DeployConfig.clientPort config)) (num (DeployConfig.serverPort config));
    intros n1 n2 r m e pc ps Hn1 Hn2 Hr Hm He Hc Hs;
    read_lines; vm_compute; reflexivity.
Qed.

Lemma routing_document_lines_generated (config : DeployConfig.t)
    (project : NeexProject.t) :
  single_line (DeployConfig.domain config) = true ->
  lines (NginxGenerator.generateNginxConfig config project)
    = routing_lines_expected config project.
Proof.
  intros Hd.
  pose proof (single_line_num (DeployConfig.clientPort config)) as Hc.
  pose proof (single_line_num (DeployConfig.serverPort config)) as Hs.
  unfold routing_lines_expected, enabled, NginxGenerator.generateNginxConfig.
  destruct (NeexProject.hasClient project), (NeexProject.hasServer project);
    cbv beta iota zeta;
    cbv [app map concat rev rev_append upstream_block location_block backend port_of q];
    revert Hd Hc Hs;
    generalize (DeployConfig.domain config)
      (num (DeployConfig.clientPort config)) (num (DeployConfig.serverPort config));
    intros d pc ps Hd Hc Hs;
    read_lines; vm_compute; reflexivity.
Qed.

Lemma manifest_holds_no_placeholder (config : DeployConfig.t)
    (project : NeexProject.t) :
  Forall (fun l => is_placeholder l = false) (manifest_lines config project).
Proof.
  unfold manifest_lines, enabled.
  destruct (NeexProject.hasClient project), (NeexProject.hasServer project);
    cbv [app manifest_entries manifest_entry entry_name start_script port_of];
    generalize (json_escape_all (DeployConfig.projectName config +:+ "-client"))
      (json_escape_all (DeployConfig.projectName config +:+ "-server"))
      (json_escape_all (NeexProject.rootPath project))
      (json_escape_all (pm_name (DeployConfig.packageManager config)))
      (json_escape_all (env_name (DeployConfig.environment config)))
      (num (DeployConfig.clientPort config)) (num (DeployConfig.serverPort config));
    intros n1 n2 r m e pc ps;
    repeat constructor.
Qed.

Lemma routing_document_holds_no_placeholder (config : DeployConfig.t)
    (project : NeexProject.t) :
  Forall (fun l => is_placeholder l = false) (routing_lines_expected config project).
Proof.
  unfold routing_lines_expected, enabled.
  destruct (NeexProject.hasClient project), (NeexProject.hasServer project);
    cbv [app map concat rev rev_append upstream_block location_block backend port_of];
    generalize (DeployConfig.domain config)
      (num (DeployConfig.clientPort config)) (num (DeployConfig.serverPort config));
    intros d pc ps;
    repeat constructor.
Qed.

(** C2. For every configuration whose domain is a single line of text, the
    manifest holds exactly one entry per enabled subsystem, named
    <project>-client or <project>-server and carrying that subsystem's port
    in its environment mapping, both as a list of entries and in the lines
    of the generated text; and the routing document declares upstreams,
    location rules and proxy targets for the enabled subsystems only (next
    to the static-asset rule), a disabled subsystem leaving no line.  Every
    line of the two texts is accounted for: the manifest is its frame and
    the fourteen lines of each enabled subsystem's entry, the routing
    document is its frame, the upstream and the location rule of each
    enabled subsystem and the static-asset rule, which loses its proxy
    target when the client is disabled; and no line of either text, its
    indentation removed, reads null, undefined or an empty object or
    array. *)
Theorem C2_artifacts_cover_enabled_subsystems
    (config : DeployConfig.t) (project : NeexProject.t) :
  single_line (DeployConfig.domain config) = true ->
  map entry_summary (PM2Generator.ecosystemApps config project) =
    (if NeexProject.hasClient project then
       [(DeployConfig.projectName config +:+ "-client", DeployConfig.clientPort config)]
     else [])
    ++ (if NeexProject.hasServer project then
          [(DeployConfig.projectName config +:+ "-server", DeployConfig.serverPort config)]
        else [])
  /\ entry_lines (PM2Generator.generateEcosystemConfig config project) =
       (if NeexProject.hasClient project then
          [q "name" +:+ ": " +:+ dq
             +:+ json_escape_all (DeployConfig.projectName config +:+ "-client") +:+ dq +:+ ",";
           q "PORT" +:+ ": " +:+ num (DeployConfig.clientPort config)]
        else [])
       ++ (if NeexProject.hasServer project then
             [q "name" +:+ ": " +:+ dq
                +:+ json_escape_all (DeployConfig.projectName config +:+ "-server") +:+ dq +:+ ",";
              q "PORT" +:+ ": " +:+ num (DeployConfig.serverPort config)]
           else [])
  /\ routing_lines (NginxGenerator.generateNginxConfig config project) =
       (if NeexProject.hasClient project then
          ["upstream client_backend {";
           "server localhost:" +:+ num (DeployConfig.clientPort config) +:+ ";"]
        else [])
       ++ (if NeexProject.hasServer project then
             ["upstream server_backend {";
              "server localhost:" +:+ num (DeployConfig.serverPort config) +:+ ";"]
           else [])
       ++ (if NeexProject.hasServer project then
             ["location /api/ {"; "proxy_pass http://server_backend/;"]
           else [])
       ++ (if NeexProject.hasClient project then
             ["location / {"; "proxy_pass http://client_backend;"]
           else [])
       ++ ["location ~* \.(js|css|png|jpg|jpeg|gif|ico|svg|woff|woff2|ttf|eot)$ {"]
       ++ (if NeexProject.hasClient project then
             ["proxy_pass http://client_backend;"]
           else [])
  /\ lines (PM2Generator.generateEcosystemConfig config project)
       = manifest_lines config project
  /\ lines (NginxGenerator.generateNginxConfig config project)
       = routing_lines_expected config project
  /\ Forall (fun l => is_placeholder l = false)
       (lines (PM2Generator.generateEcosystemConfig config project))
  /\ Forall (fun l => is_placeholder l = false)
       (lines (NginxGenerator.generateNginxConfig config project)).
Proof.
  intros Hd. split; [|split; [|split; [|split; [|split; [|split]]]]].
  - apply ecosystemApps_summary.
  - apply entry_lines_generated.
  - apply routing_lines_generated, Hd.
  - apply manifest_lines_generated.
  - apply routing_document_lines_generated, Hd.
  - rewrite manifest_lines_generated. apply manifest_holds_no_placeholder.
  - rewrite (routing_document_lines_generated _ _ Hd).
    apply routing_document_holds_no_placeholder.
Qed.

Lemma C2_witness :
  map entry_summary (PM2Generator.ecosystemApps blog server_only) = [("blog-server", 8000)]
  /\ entry_lines (PM2Generator.generateEcosystemConfig blog server_only) =
       [q "name" +:+ ": " +:+ q "blog-server" +:+ ","; q "PORT" +:+ ": 8000"]
  /\ routing_lines (NginxGenerator.generateNginxConfig blog server_only) =
       ["upstream server_backend {"; "server localhost:8000;";
        "location /api/ {"; "proxy_pass http://server_backend/;";
        "location ~* \.(js|css|png|jpg|jpeg|gif|ico|svg|woff|woff2|ttf|eot)$ {"]
  /\ lines (PM2Generator.generateEcosystemConfig blog server_only)
       = manifest_lines blog server_only
  /\ lines (NginxGenerator.generateNginxConfig blog server_only)
       = routing_lines_expected blog server_only
  /\ Forall (fun l => is_placeholder l = false)
       (lines (PM2Generator.generateEcosystemConfig blog server_only))
  /\ Forall (fun l => is_placeholder l = false)
       (lines (NginxGenerator.generateNginxConfig blog server_only)).
Proof.
  apply (C2_artifacts_cover_enabled_subsystems blog server_only). reflexivity.
Defined.

(** C3. With both subsystems enabled, the first line reading
    [location /api/ {] comes before the first line reading [location / {]
    in the routing document. *)
Theorem C3_api_location_precedes_root
    (config : DeployConfig.t) (project : NeexProject.t) :
  NeexProject.hasClient project = true ->
  NeexProject.hasServer project = true ->
  single_line (DeployConfig.domain config) = true ->
  exists i j : nat,
    line_index "location /api/ {" (NginxGenerator.generateNginxConfig config project) = Some i
    /\ line_index "location / {" (NginxGenerator.generateNginxConfig config project) = Some j
    /\ (i < j)%nat.
Proof.
  intros Hcl Hsv Hd.
  pose proof (single_line_num (DeployConfig.clientPort config)) as Hc.
  pose proof (single_line_num (DeployConfig.serverPort config)) as Hs.
  unfold line_index, NginxGenerator.generateNginxConfig.
  rewrite Hcl, Hsv.
  revert Hd Hc Hs.
  generalize (DeployConfig.domain config) (num (DeployConfig.clientPort config))
    (num (DeployConfig.serverPort config)).
  intros d pc ps Hd Hc Hs.
  cbv beta iota zeta. read_lines.
  exists 22%nat, 34%nat. split; [|split]; [vm_compute; reflexivity ..|lia].
Qed.

Lemma C3_witness :
  exists i j : nat,
    line_index "location /api/ {" (NginxGenerator.generateNginxConfig blog both_tiers) = Some i
    /\ line_index "location / {" (NginxGenerator.generateNginxConfig blog both_tiers) = Some j
    /\ (i < j)%nat.
Proof.
  apply (C3_api_location_precedes_root blog both_tiers); reflexivity.
Defined.

(** ** The pipeline *)

Lemma setupNginx_as_step (config : DeployConfig.t) (project : NeexProject.t)
    (w : World) :
  Deployer.setupNginx config project w =
    match step_body SetupProxy config project w with
    | (Returned a, w') => (Returned a, w')
    | (Thrown e, w') => (Returned tt, emit (proxy_warning e) w')
    end.
Proof.
  unfold Deployer.setupNginx, step_body, proxy_warning, Logger.step,
    Logger.warning, Logger.out, bind, try_catch.
  destruct (NginxGenerator.install _) as [[[]|e] w1]; [|reflexivity].
  destruct (NginxGenerator.generate config project w1) as [[[]|e] w2];
    reflexivity.
Qed.

(** The closing report cannot throw. *)
Lemma report_returns (config : DeployConfig.t) (project : NeexProject.t)
    (w : World) :
  exists w',
    (Logger.success "🎉 Deployment completed successfully!" ;;
     Deployer.printPostDeploymentInfo config project) w = (Returned tt, w').
Proof.
  unfold Deployer.printPostDeploymentInfo, console_log, Logger.success, Logger.out.
  destruct (NeexProject.hasClient project), (NeexProject.hasServer project),
    (negb (String.eqb (DeployConfig.domain config) "localhost")),
    (DeployConfig.nginxConfig config);
    eexists; reflexivity.
Qed.

(** One step of [deploy]'s [try] block: either it throws, and both sides
    stop there, or it returns and the proof goes on. *)
Ltac next_step m :=
  unfold bind at 1; destruct m as [[[]|?e] ?w]; [|reflexivity].

Lemma deploy_as_pipeline (config : DeployConfig.t) (project : NeexProject.t)
    (w : World) :
  Deployer.deploy config project w =
    conclude config project
      (pipeline (step_list config) config project (announce config w)).
Proof.
  unfold Deployer.deploy, step_list, announce.
  unfold bind at 1. unfold Logger.info at 1. unfold Logger.out at 1.
  generalize (emit (Log LInfo ("🚀 Starting deployment of "
                                 +:+ DeployConfig.projectName config)) w).
  intros w0. unfold try_catch.
  assert (Hfinish : forall w7,
    match
      (Logger.success "🎉 Deployment completed successfully!" ;;
       Deployer.printPostDeploymentInfo config project) w7
    with
    | (Returned a, w') => (Returned a, w')
    | (Thrown e, w') =>
        (Logger.error ("Deployment failed: " +:+ message e) ;; throw e) w'
    end = conclude config project (Done, w7)).
  { intros w7. unfold conclude.
    destruct (report_returns config project w7) as [w8 ->]. reflexivity. }
  destruct (DeployConfig.nginxConfig config);
    cbn [app pipeline when];
    change (step_body CheckPrerequisites config project)
      with (Deployer.checkPrerequisites project);
    change (step_body Build config project) with (Deployer.buildProject project);
    change (step_body MaterializeEnvironment config project)
      with (Deployer.generateEnvironment config project);
    change (step_body SetupSupervisor config project)
      with (Deployer.setupPM2 config project);
    change (step_body GenerateManagementScripts config project)
      with (Deployer.createManagementScripts config project);
    change (step_body VerifyDeployment config project)
      with (Deployer.performFinalChecks config project);
    next_step (Deployer.checkPrerequisites project w0);
    next_step (Deployer.buildProject project w1);
    next_step (Deployer.generateEnvironment config project w2);
    next_step (Deployer.setupPM2 config project w3);
    unfold bind at 1.
  - rewrite setupNginx_as_step.
    destruct (step_body SetupProxy config project w4) as [[[]|e5] w5];
      unfold bind at 1;
      (match goal with
       | |- context [Deployer.createManagementScripts config project ?x] =>
           destruct (Deployer.createManagementScripts config project x)
             as [[[]|e6] w6]; [|reflexivity]
       end);
      next_step (Deployer.performFinalChecks config project w6);
      apply Hfinish.
  - cbn [ret].
    next_step (Deployer.createManagementScripts config project w4).
    next_step (Deployer.performFinalChecks config project w5).
    apply Hfinish.
Qed.

Lemma pipeline_failed_at (config : DeployConfig.t) (project : NeexProject.t)
    (steps : list Step) (w w' : World) (e : Error) :
  pipeline steps config project w = (Failed e, w') ->
  exists (before : list Step) (s : Step) (after : list Step) (wk : World),
    steps = before ++ s :: after
    /\ s <> SetupProxy
    /\ pipeline before config project w = (Done, wk)
    /\ step_body s config project wk = (Thrown e, w').
Proof.
  revert w. induction steps as [|s rest IH]; intros w; cbn [pipeline].
  - discriminate.
  - destruct (step_body s config project w) as [[[]|e1] w1] eqn:E.
    + intros H. destruct (IH _ H) as (before & s' & after & wk & -> & Hs & Hb & Ht).
      exists (s :: before), s', after, wk. cbn [app pipeline]. rewrite E. auto.
    + assert (Hstop : s <> SetupProxy -> (Failed e1, w1) = (Failed e, w') ->
        exists before s' after wk,
          s :: rest = before ++ s' :: after /\ s' <> SetupProxy
          /\ pipeline before config project w = (Done, wk)
          /\ step_body s' config project wk = (Thrown e, w')).
      { intros Hs H. inversion H; subst. exists [], s, rest, w. auto. }
      destruct s; try (apply Hstop; discriminate).
      intros H. destruct (IH _ H) as (before & s' & after & wk & -> & Hs & Hb & Ht).
      exists (SetupProxy :: before), s', after, wk. cbn [app pipeline].
      rewrite E. auto.
Qed.

Lemma pipeline_app (config : DeployConfig.t) (project : NeexProject.t)
    (a b : list Step) (w : World) :
  pipeline (a ++ b) config project w =
    match pipeline a config project w with
    | (Done, w') => pipeline b config project w'
    | (Failed e, w') => (Failed e, w')
    end.
Proof.
  revert w. induction a as [|s r IH]; intros w; [reflexivity|].
  cbn [app pipeline].
  destruct (step_body s config project w) as [[[]|e] w']; [apply IH|].
  destruct s; try reflexivity; apply IH.
Qed.

Lemma pipeline_halts_at (config : DeployConfig.t) (project : NeexProject.t)
    (before after : list Step) (s : Step) (w wk w' : World) (e : Error) :
  s <> SetupProxy ->
  pipeline before config project w = (Done, wk) ->
  step_body s config project wk = (Thrown e, w') ->
  pipeline (before ++ s :: after) config project w = (Failed e, w').
Proof.
  intros Hs Hb Ht. rewrite pipeline_app, Hb. cbn [pipeline]. rewrite Ht.
  destruct s; try reflexivity. congruence.
Qed.

(** C1. [deploy] is the state machine of the specification: the steps run
    in the fixed order CheckPrerequisites, Build, MaterializeEnvironment,
    SetupSupervisor, SetupProxy (on the list exactly when the proxy flag is
    set), GenerateManagementScripts, VerifyDeployment.  When the steps
    before a step other than SetupProxy have completed and that step throws,
    [deploy] throws the same error from the very world in which the step
    threw, with the failure logged and no later step run; every failed run
    is of that kind; and an error thrown inside SetupProxy is caught and
    logged as a warning, the step returning normally. *)
Theorem C1_pipeline_order_and_failure_policy
    (config : DeployConfig.t) (project : NeexProject.t) (w : World) :
  step_list config =
    List.filter
      (fun s => match s with
                | SetupProxy => DeployConfig.nginxConfig config
                | _ => true
                end)
      [CheckPrerequisites; Build; MaterializeEnvironment; SetupSupervisor;
       SetupProxy; GenerateManagementScripts; VerifyDeployment]
  /\ Deployer.deploy config project w =
       conclude config project
         (pipeline (step_list config) config project (announce config w))
  /\ (forall (before after : list Step) (s : Step) (wk w' : World) (e : Error),
        step_list config = before ++ s :: after ->
        s <> SetupProxy ->
        pipeline before config project (announce config w) = (Done, wk) ->
        step_body s config project wk = (Thrown e, w') ->
        Deployer.deploy config project w =
          (Thrown e, emit (Log LError ("Deployment failed: " +:+ message e)) w'))
  /\ (forall (e : Error) (w' : World),
        pipeline (step_list config) config project (announce config w) = (Failed e, w') ->
        exists (before : list Step) (s : Step) (after : list Step) (wk : World),
          step_list config = before ++ s :: after
          /\ s <> SetupProxy
          /\ pipeline before config project (announce config w) = (Done, wk)
          /\ step_body s config project wk = (Thrown e, w'))
  /\ (forall (w0 w1 : World) (e : Error),
        step_body SetupProxy config project w0 = (Thrown e, w1) ->
        Deployer.setupNginx config project w0 =
          (Returned tt, emit (proxy_warning e) w1)).
Proof.
  split; [|split; [|split; [|split]]].
  - unfold step_list. destruct (DeployConfig.nginxConfig config); reflexivity.
  - apply deploy_as_pipeline.
  - intros before after s wk w' e Hl Hs Hb Ht.
    rewrite deploy_as_pipeline, Hl.
    rewrite (pipeline_halts_at _ _ _ _ _ _ _ _ _ Hs Hb Ht). reflexivity.
  - intros e w' H. apply (pipeline_failed_at _ _ _ _ _ _ H).
  - intros w0 w1 e H. rewrite setupNginx_as_step, H. reflexivity.
Qed.

Lemma C1_witness :
  Deployer.deploy blog both_tiers (fresh_world host_without_node ∅) =
    (Thrown (mkError "Node.js is not installed"),
     emit (Log LError "Deployment failed: Node.js is not installed")
       (snd (Deployer.checkPrerequisites both_tiers
               (announce blog (fresh_world host_without_node ∅))))).
Proof.
  destruct (C1_pipeline_order_and_failure_policy blog both_tiers
              (fresh_world host_without_node ∅)) as (_ & _ & Hhalt & _).
  apply (Hhalt [] [Build; MaterializeEnvironment; SetupSupervisor; SetupProxy;
                   GenerateManagementScripts; VerifyDeployment]
           CheckPrerequisites (announce blog (fresh_world host_without_node ∅)));
    [reflexivity|discriminate|reflexivity|vm_compute; reflexivity].
Defined.

(** ** The port probe *)

Lemma isPortAvailable_run (port : N) (w : World) :
  SystemUtils.isPortAvailable port w =
    (Returned (match detectPort_outcome (host w) (trace w) port with
               | inr answer => N.eqb answer port
               | inl _ => false
               end),
     record (EvDetectPort port (detectPort_outcome (host w) (trace w) port)) w).
Proof.
  unfold SystemUtils.isPortAvailable, try_catch, bind, detectPort, ret.
  destruct (detectPort_outcome (host w) (trace w) port); reflexivity.
Qed.

Ltac probe :=
  rewrite isPortAvailable_run; cbv beta iota;
  match goal with
  | |- context [detectPort_outcome ?h ?t ?p] =>
      destruct (detectPort_outcome h t p) as [?|?]
  end;
  [|match goal with
    | |- context [N.eqb ?a ?b] => destruct (N.eqb a b)
    end];
  cbv beta iota.

Lemma performFinalChecks_run (config : DeployConfig.t) (project : NeexProject.t)
    (w : World) :
  exists (t : list Event) (o : list Output),
    Deployer.performFinalChecks config project w =
      (Returned tt, mkWorld (host w) (files w) (trace w ++ EvTimeout 3000 :: t)
                      (console w ++ o))
    /\ Forall advisory o.
Proof.
  unfold Deployer.performFinalChecks, bind, when, Logger.step, Logger.warning,
    Logger.success, Logger.out, setTimeout, ret.
  destruct (NeexProject.hasClient project), (NeexProject.hasServer project);
    repeat probe;
    unfold emit, record;
    cbn [host files trace console];
    rewrite <- ?app_assoc; cbn [app];
    eexists _, _; (split; [reflexivity|]);
    repeat constructor; eexists; eauto.
Qed.

(** C8. The probe never throws.  It reports the port as held (not
    available) exactly when the free-port probe failed or answered with
    another port than the one asked for; the verification step always
    returns normally, leaves the files alone and shows nothing but a
    heading, warnings and success lines. *)
Theorem C8_port_probe_is_advisory
    (config : DeployConfig.t) (project : NeexProject.t) (port : N) (w : World) :
  (exists (available : bool) (w' : World),
      SystemUtils.isPortAvailable port w = (Returned available, w')
      /\ files w' = files w
      /\ (available = false <->
            (exists e, detectPort_outcome (host w) (trace w) port = inl e)
            \/ (exists other, detectPort_outcome (host w) (trace w) port = inr other
                              /\ other <> port)))
  /\ (exists w' : World,
        Deployer.performFinalChecks config project w = (Returned tt, w')
        /\ files w' = files w
        /\ Forall advisory (shown (Deployer.performFinalChecks config project) w)).
Proof.
  split.
  - rewrite isPortAvailable_run. eexists _, _. split; [reflexivity|].
    split; [reflexivity|].
    destruct (detectPort_outcome (host w) (trace w) port) as [e|other].
    + split; [eauto|reflexivity].
    + rewrite N.eqb_neq. split.
      * intros H. right. eauto.
      * intros [[e H]|(o & H & Hne)]; [discriminate|]. congruence.
  - destruct (performFinalChecks_run config project w) as (t & o & E & Ho).
    eexists. split; [exact E|]. split; [reflexivity|].
    unfold shown. rewrite E. cbn [snd console].
    rewrite drop_app_length. exact Ho.
Qed.

(** ** The closing report *)

Ltac pick_line := cbn [In]; repeat first [left; reflexivity | right].

Ltac no_such_line H :=
  exfalso; vm_compute in H;
  repeat match type of H with
    | _ \/ _ => destruct H as [H|H]
    | _ /\ _ => destruct H as [? H]
    | ex _ => destruct H as [? H]
    end; solve [discriminate | contradiction].

Lemma printPostDeploymentInfo_run (config : DeployConfig.t)
    (project : NeexProject.t) (w : World) :
  exists added : list Output,
    Deployer.printPostDeploymentInfo config project w =
      (Returned tt, mkWorld (host w) (files w) (trace w) (console w ++ added))
    /\ added = map Line (printed added)
    /\ (In ("   Frontend: http://localhost:" +:+ num (DeployConfig.clientPort config))
           (printed added)
        <-> NeexProject.hasClient project = true)
    /\ (In ("   Backend:  http://localhost:" +:+ num (DeployConfig.serverPort config))
           (printed added)
        <-> NeexProject.hasServer project = true)
    /\ (DeployConfig.domain config <> "localhost" ->
        In ("   Public:   http://" +:+ DeployConfig.domain config) (printed added))
    /\ (DeployConfig.domain config = "localhost" ->
        forall l, In l (printed added) -> starts_with "   Public:" l = false).
Proof.
  unfold Deployer.printPostDeploymentInfo, console_log.
  destruct (String.eqb_spec (DeployConfig.domain config) "localhost") as [Hd|Hd];
    cbn [negb];
    generalize (DeployConfig.domain config) Hd
      (num (DeployConfig.clientPort config)) (num (DeployConfig.serverPort config));
    clear Hd; intros d Hd pc ps;
    destruct (NeexProject.hasClient project), (NeexProject.hasServer project),
      (DeployConfig.nginxConfig config);
    cbn [when]; run_console;
    (eexists; split; [reflexivity|]);
    (split; [reflexivity|]);
    cbn [printed omap list_omap];
    (split; [split; [intros H; first [reflexivity | no_such_line H]
                    |intros H; first [discriminate H | pick_line]]|]);
    (split; [split; [intros H; first [reflexivity | no_such_line H]
                    |intros H; first [discriminate H | pick_line]]|]);
    (split; [intros H; first [contradiction | pick_line]|]);
    intros H; first [contradiction | intros l Hl].
  all: cbn [In] in Hl;
    repeat match type of Hl with
      | _ \/ _ => destruct Hl as [Hl|Hl]
      | False => contradiction
      end; subst l; vm_compute; reflexivity.
Qed.

Lemma deploy_success_ends_with_report (config : DeployConfig.t)
    (project : NeexProject.t) (w w' : World) :
  Deployer.deploy config project w = (Returned tt, w') ->
  exists w7 : World,
    pipeline (step_list config) config project (announce config w) = (Done, w7)
    /\ Deployer.printPostDeploymentInfo config project
         (emit (Log LSuccess "🎉 Deployment completed successfully!") w7)
       = (Returned tt, w').
Proof.
  rewrite deploy_as_pipeline.
  destruct (pipeline _ _ _ _) as [[|e] w7]; cbn [conclude]; [|discriminate].
  unfold Logger.success. rewrite bind_out. eauto.
Qed.

(** C9. A deployment that completes ends by printing the report; the
    report has the line of the frontend URL exactly when the client
    subsystem is enabled, the line of the backend URL exactly when the
    server subsystem is enabled, and a line starting with [Public:] exactly
    when the domain is not [localhost], which then gives the public URL. *)
Theorem C9_report_lists_urls
    (config : DeployConfig.t) (project : NeexProject.t) (w w' : World) :
  Deployer.deploy config project w = (Returned tt, w') ->
  exists (w0 : World) (report : list string),
    Deployer.printPostDeploymentInfo config project w0 = (Returned tt, w')
    /\ console w' = console w0 ++ map Line report
    /\ (In ("   Frontend: http://localhost:" +:+ num (DeployConfig.clientPort config)) report
        <-> NeexProject.hasClient project = true)
    /\ (In ("   Backend:  http://localhost:" +:+ num (DeployConfig.serverPort config)) report
        <-> NeexProject.hasServer project = true)
    /\ ((exists l, In l report /\ starts_with "   Public:" l = true)
        <-> DeployConfig.domain config <> "localhost")
    /\ (DeployConfig.domain config <> "localhost" ->
        In ("   Public:   http://" +:+ DeployConfig.domain config) report).
Proof.
  intros H. apply deploy_success_ends_with_report in H as (w7 & _ & H).
  destruct (printPostDeploymentInfo_run config project
              (emit (Log LSuccess "🎉 Deployment completed successfully!") w7))
    as (added & E & Hlines & Hf & Hb & Hp & Hl).
  exists (emit (Log LSuccess "🎉 Deployment completed successfully!") w7),
    (printed added).
  split; [exact H|].
  rewrite E in H. inversion H; subst w'. cbn [console].
  rewrite <- Hlines.
  repeat split; try tauto.
  - intros (l & Hin & Hs) Hd. rewrite (Hl Hd l Hin) in Hs. discriminate.
  - intros Hd. exists ("   Public:   http://" +:+ DeployConfig.domain config).
    split; [auto|reflexivity].
Qed.

Lemma C9_witness :
  exists (w0 : World) (report : list string),
    Deployer.printPostDeploymentInfo blog both_tiers w0
      = (Returned tt, snd (Deployer.deploy blog both_tiers (fresh_world usual_host ∅)))
    /\ console (snd (Deployer.deploy blog both_tiers (fresh_world usual_host ∅)))
       = console w0 ++ map Line report
    /\ (In "   Frontend: http://localhost:3000" report <-> true = true)
    /\ (In "   Backend:  http://localhost:8000" report <-> true = true)
    /\ ((exists l, In l report /\ starts_with "   Public:" l = true)
        <-> "localhost" <> "localhost")
    /\ ("localhost" <> "localhost" -> In "   Public:   http://localhost" report).
Proof.
  apply (C9_report_lists_urls blog both_tiers (fresh_world usual_host ∅)).
  vm_compute. reflexivity.
Defined.

(** ** The environment file *)

(** Whether the file is there plays no part: [checkCommand] asks [which]
    for a program named by the whole test command, and when [which] finds
    none the file is written over. *)
Lemma generateEnvironment_writes (config : DeployConfig.t)
    (project : NeexProject.t) (w : World) (e : Error) :
  exec_outcome (host w) (trace w) "which"
    ["test -f " +:+ Deployer.envPath project] None = Some e ->
  fst (SystemUtils.writeFile (Deployer.envPath project) (Deployer.envContent config)
         (record (EvExec "which" ["test -f " +:+ Deployer.envPath project] None (Some e)) w))
    = Returned tt ->
  exists w',
    Deployer.generateEnvironment config project w = (Returned tt, w')
    /\ files w' !! Deployer.envPath project = Some (Deployer.envContent config).
Proof.
  intros Hwhich Hwrite.
  unfold Deployer.generateEnvironment, SystemUtils.checkCommand.
  unfold bind at 1. unfold try_catch, bind at 1, execa. rewrite Hwhich.
  cbn [ret negb].
  revert Hwrite. generalize (record (EvExec "which" ["test -f " +:+ Deployer.envPath project] None (Some e)) w).
  intros w1 Hwrite.
  unfold bind at 1.
  unfold SystemUtils.writeFile, bind, fs_ensureDir, fs_writeFile in *.
  destruct (ensureDir_outcome _ _ _); [discriminate|].
  destruct (writeFile_outcome _ _ _ _); [discriminate|].
  unfold Logger.success, Logger.warning, Logger.out.
  eexists. split; [reflexivity|].
  cbn. apply lookup_insert_eq.
Qed.

Lemma generateEnvironment_skips (config : DeployConfig.t)
    (project : NeexProject.t) (w : World) :
  exec_outcome (host w) (trace w) "which"
    ["test -f " +:+ Deployer.envPath project] None = None ->
  exists w',
    Deployer.generateEnvironment config project w = (Returned tt, w')
    /\ files w' = files w.
Proof.
  intros Hwhich.
  unfold Deployer.generateEnvironment, SystemUtils.checkCommand.
  unfold bind at 1. unfold try_catch, bind at 1, execa. rewrite Hwhich.
  cbn [ret negb]. unfold Logger.success, Logger.out.
  eexists. split; reflexivity.
Qed.

(** C4, on the code: at a project root that holds an operator's [.env],
    on a host where [which] resolves program names only,
    MaterializeEnvironment reports success and the file now holds the
    template, the operator's content being lost. *)
Theorem C4_existing_env_is_overwritten :
  files (fresh_world usual_host files_with_env) !! Deployer.envPath both_tiers
    = Some operator_env
  /\ exists w',
       Deployer.generateEnvironment blog both_tiers
         (fresh_world usual_host files_with_env) = (Returned tt, w')
       /\ files w' !! Deployer.envPath both_tiers = Some (Deployer.envContent blog)
       /\ Deployer.envContent blog <> operator_env
       /\ In (Log LSuccess ".env file created") (console w').
Proof.
  split; [vm_compute; reflexivity|].
  destruct (generateEnvironment_writes blog both_tiers
              (fresh_world usual_host files_with_env)
              (mkError "Command failed with exit code 1: which test -f /srv/blog/.env"))
    as (w' & E & Hf); [vm_compute; reflexivity..|].
  exists w'. split; [exact E|]. split; [exact Hf|].
  split; [vm_compute; discriminate|].
  assert (console w' = [Log LSuccess ".env file created";
                        Log LWarning "Please update .env with your actual values"])
    as ->.
  { change w' with (snd (Returned tt, w')). rewrite <- E. vm_compute. reflexivity. }
  left. reflexivity.
Qed.

(** ** The management scripts *)

Lemma append_inj_r (a b c : string) : a +:+ b = a +:+ c -> b = c.
Proof.
  induction a as [|x r IH]; [auto|].
  change (String x (r +:+ b) = String x (r +:+ c) -> b = c).
  intros H. apply IH. congruence.
Qed.

Ltac world_steps :=
  cbv beta iota zeta delta [record emit store host files trace console].

Lemma createManagementScripts_run (config : DeployConfig.t)
    (project : NeexProject.t) (w w' : World) :
  Deployer.createManagementScripts config project w = (Returned tt, w') ->
  files w' =
    <[NeexProject.rootPath project +:+ "/restart.sh" := Deployer.restartScript]>
      (<[NeexProject.rootPath project +:+ "/status.sh" := Deployer.statusScript config]>
         (files w))
  /\ issued (Deployer.createManagementScripts config project) w =
       [EvEnsureDir (NeexProject.rootPath project +:+ "/status.sh") None;
        EvWriteFile (NeexProject.rootPath project +:+ "/status.sh")
          (Deployer.statusScript config) None;
        EvExec "chmod" ["+x"; "status.sh"] (Some (NeexProject.rootPath project)) None;
        EvEnsureDir (NeexProject.rootPath project +:+ "/restart.sh") None;
        EvWriteFile (NeexProject.rootPath project +:+ "/restart.sh")
          Deployer.restartScript None;
        EvExec "chmod" ["+x"; "restart.sh"] (Some (NeexProject.rootPath project)) None]
  /\ console w' =
       console w ++ [Log LStep "Creating management scripts...";
                     Log LSuccess "Management scripts created"].
Proof.
  unfold issued. destruct w as [h f t c].
  unfold Deployer.createManagementScripts, SystemUtils.writeFile,
    SystemUtils.executeCommand, Logger.step, Logger.success, Logger.out,
    bind, fs_ensureDir, fs_writeFile, execa.
  generalize (Deployer.statusScript config) Deployer.restartScript.
  intros status restart.
  world_steps.
  repeat match goal with
    | |- context [match ?o with Some _ => _ | None => _ end] =>
        destruct o; world_steps; [discriminate|]
    end.
  intros H. inversion H; subst w'. cbn [files snd trace console].
  split; [reflexivity|].
  rewrite <- !app_assoc. cbn [app]. split; [apply drop_app_length|reflexivity].
Qed.

Lemma createManagementScripts_begins (config : DeployConfig.t)
    (project : NeexProject.t) (w : World) :
  exists rest : list Event,
    issued (Deployer.createManagementScripts config project) w =
      EvEnsureDir (NeexProject.rootPath project +:+ "/status.sh")
        (ensureDir_outcome (host w) (trace w)
           (NeexProject.rootPath project +:+ "/status.sh")) :: rest
    /\ (ensureDir_outcome (host w) (trace w)
          (NeexProject.rootPath project +:+ "/status.sh") = None ->
        exists failure rest',
          rest = EvWriteFile (NeexProject.rootPath project +:+ "/status.sh")
                   (Deployer.statusScript config) failure :: rest').
Proof.
  unfold issued. destruct w as [h f t c].
  unfold Deployer.createManagementScripts, SystemUtils.writeFile,
    SystemUtils.executeCommand, Logger.step, Logger.success, Logger.out,
    bind, fs_ensureDir, fs_writeFile, execa.
  generalize (Deployer.statusScript config) Deployer.restartScript.
  intros status restart.
  world_steps.
  repeat match goal with
    | |- context [match ?o with Some _ => _ | None => _ end] =>
        destruct o; world_steps
    end;
    cbn [snd trace]; rewrite <- ?app_assoc; cbn [app]; rewrite drop_app_length;
    (eexists; split; [reflexivity|]);
    intros H; try discriminate H; eauto.
Qed.

(** C10. Whatever the files at the project root, the management-scripts
    step starts by ensuring the directory of status.sh and, that done,
    writes status.sh, without asking whether it exists; and a run of the
    step that returns has written status.sh and restart.sh with the
    generated scripts over whatever was there, through exactly six host
    operations, none of which reads a file. *)
Theorem C10_management_scripts_written_unconditionally
    (config : DeployConfig.t) (project : NeexProject.t) (w : World) :
  (exists rest : list Event,
      issued (Deployer.createManagementScripts config project) w =
        EvEnsureDir (NeexProject.rootPath project +:+ "/status.sh")
          (ensureDir_outcome (host w) (trace w)
             (NeexProject.rootPath project +:+ "/status.sh")) :: rest
      /\ (ensureDir_outcome (host w) (trace w)
            (NeexProject.rootPath project +:+ "/status.sh") = None ->
          exists failure rest',
            rest = EvWriteFile (NeexProject.rootPath project +:+ "/status.sh")
                     (Deployer.statusScript config) failure :: rest'))
  /\ (forall w' : World,
        Deployer.createManagementScripts config project w = (Returned tt, w') ->
        files w' !! (NeexProject.rootPath project +:+ "/status.sh")
          = Some (Deployer.statusScript config)
        /\ files w' !! (NeexProject.rootPath project +:+ "/restart.sh")
            = Some Deployer.restartScript
        /\ (forall other : string,
              other <> NeexProject.rootPath project +:+ "/status.sh" ->
              other <> NeexProject.rootPath project +:+ "/restart.sh" ->
              files w' !! other = files w !! other)
        /\ issued (Deployer.createManagementScripts config project) w =
             [EvEnsureDir (NeexProject.rootPath project +:+ "/status.sh") None;
              EvWriteFile (NeexProject.rootPath project +:+ "/status.sh")
                (Deployer.statusScript config) None;
              EvExec "chmod" ["+x"; "status.sh"]
                (Some (NeexProject.rootPath project)) None;
              EvEnsureDir (NeexProject.rootPath project +:+ "/restart.sh") None;
              EvWriteFile (NeexProject.rootPath project +:+ "/restart.sh")
                Deployer.restartScript None;
              EvExec "chmod" ["+x"; "restart.sh"]
                (Some (NeexProject.rootPath project)) None]).
Proof.
  split; [apply createManagementScripts_begins|].
  intros w' H.
  destruct (createManagementScripts_run _ _ _ _ H) as (Hf & Hi & _).
  assert (Hne : NeexProject.rootPath project +:+ "/restart.sh"
                <> NeexProject.rootPath project +:+ "/status.sh").
  { intros E. apply append_inj_r in E. discriminate. }
  rewrite Hf. repeat split.
  - rewrite lookup_insert_ne by exact Hne. apply lookup_insert_eq.
  - apply lookup_insert_eq.
  - intros other H1 H2. rewrite !lookup_insert_ne by congruence. reflexivity.
  - exact Hi.
Qed.

Lemma C10_witness :
  files (snd (Deployer.createManagementScripts blog both_tiers
                (fresh_world usual_host {[ "/srv/blog/status.sh" := "echo mine" ]})))
    !! "/srv/blog/status.sh" = Some (Deployer.statusScript blog).
Proof.
  apply (C10_management_scripts_written_unconditionally blog both_tiers
           (fresh_world usual_host {[ "/srv/blog/status.sh" := "echo mine" ]})).
  vm_compute. reflexivity.
Defined.


(** ** Proxy setup is best effort *)

Lemma absent_nginx_throws (config : DeployConfig.t) (project : NeexProject.t)
    (w : World) (e0 : Error) :
  exec_outcome (host w) (trace w) "which" ["nginx"] None = Some e0 ->
  exists w1,
    step_body SetupProxy config project w =
      (Thrown (mkError "Nginx installation required"), w1).
Proof.
  intros H. cbn [step_body]. unfold Logger.step. rewrite bind_out.
  unfold bind at 1. unfold NginxGenerator.install, SystemUtils.checkCommand.
  unfold bind at 1. unfold try_catch, bind at 1, execa.
  change (trace (emit (Log LStep "Setting up Nginx...") w)) with (trace w).
  change (host (emit (Log LStep "Setting up Nginx...") w)) with (host w).
  rewrite H. cbn [ret negb].
  unfold Logger.warning. rewrite bind_out.
  unfold bind at 1. unfold bind at 1. unfold SystemUtils.getOS.
  match goal with
  | |- context [if ?a then darwin else _] => destruct a
  end; [|match goal with
         | |- context [if ?a then windows else _] => destruct a
         end];
    unfold Logger.info; rewrite ?bind_out, ?out_run; cbn [ret throw];
    eexists; reflexivity.
Qed.

Lemma createManagementScripts_grows (config : DeployConfig.t)
    (project : NeexProject.t) (w : World) :
  trace (snd (Deployer.createManagementScripts config project w)) =
    trace w ++ issued (Deployer.createManagementScripts config project) w
  /\ exists more : list Output,
       console (snd (Deployer.createManagementScripts config project w)) =
         console w ++ Log LStep "Creating management scripts..." :: more.
Proof.
  unfold issued. destruct w as [h f t c].
  unfold Deployer.createManagementScripts, SystemUtils.writeFile,
    SystemUtils.executeCommand, Logger.step, Logger.success, Logger.out,
    bind, fs_ensureDir, fs_writeFile, execa.
  generalize (Deployer.statusScript config) Deployer.restartScript.
  intros status restart.
  world_steps.
  repeat match goal with
    | |- context [match ?o with Some _ => _ | None => _ end] =>
        destruct o; world_steps
    end;
    cbn [snd trace console]; rewrite <- ?app_assoc; cbn [app];
    rewrite drop_app_length; (split; [reflexivity|]); eexists; reflexivity.
Qed.

(** C5. A proxy binary that [which] does not find makes the proxy
    controller throw.  Whenever the proxy controller throws, whatever the
    error, in a run whose earlier steps completed, the error is put on the
    console as a warning and the management-scripts step runs next: its
    heading follows the warning and its host operations are the next of the
    trace.  When the scripts can be written, the deployment returns
    normally: the trace continues with the six operations of the scripts
    step and then the verification, beginning with its settle delay, the
    two scripts are on disk, and the success line is printed. *)
Theorem C5_proxy_failure_is_downgraded
    (config : DeployConfig.t) (project : NeexProject.t) :
  (forall (w : World) (e0 : Error),
      exec_outcome (host w) (trace w) "which" ["nginx"] None = Some e0 ->
      exists w1,
        step_body SetupProxy config project w =
          (Thrown (mkError "Nginx installation required"), w1))
  /\ (forall (w w4 w5 : World) (e : Error),
        DeployConfig.nginxConfig config = true ->
        pipeline [CheckPrerequisites; Build; MaterializeEnvironment; SetupSupervisor]
          config project (announce config w) = (Done, w4) ->
        step_body SetupProxy config project w4 = (Thrown e, w5) ->
        (exists rest : list Event,
            trace (snd (Deployer.deploy config project w)) =
              trace w5
              ++ issued (Deployer.createManagementScripts config project)
                   (emit (proxy_warning e) w5)
              ++ rest)
        /\ (exists after : list Output,
              console (snd (Deployer.deploy config project w)) =
                console w5
                ++ proxy_warning e :: Log LStep "Creating management scripts..."
                   :: after)
        /\ (forall w6 : World,
              Deployer.createManagementScripts config project
                (emit (proxy_warning e) w5) = (Returned tt, w6) ->
              exists (w' : World) (probes : list Event),
                Deployer.deploy config project w = (Returned tt, w')
                /\ In (proxy_warning e) (console w')
                /\ In (EvTimeout 3000) (trace w')
                /\ In (Log LSuccess "🎉 Deployment completed successfully!") (console w')
                /\ trace w' =
                     trace w5
                     ++ [EvEnsureDir (NeexProject.rootPath project +:+ "/status.sh") None;
                         EvWriteFile (NeexProject.rootPath project +:+ "/status.sh")
                           (Deployer.statusScript config) None;
                         EvExec "chmod" ["+x"; "status.sh"]
                           (Some (NeexProject.rootPath project)) None;
                         EvEnsureDir (NeexProject.rootPath project +:+ "/restart.sh") None;
                         EvWriteFile (NeexProject.rootPath project +:+ "/restart.sh")
                           Deployer.restartScript None;
                         EvExec "chmod" ["+x"; "restart.sh"]
                           (Some (NeexProject.rootPath project)) None]
                     ++ EvTimeout 3000 :: probes
                /\ files w' !! (NeexProject.rootPath project +:+ "/status.sh")
                     = Some (Deployer.statusScript config)
                /\ files w' !! (NeexProject.rootPath project +:+ "/restart.sh")
                     = Some Deployer.restartScript)).
Proof.
  split; [apply absent_nginx_throws|].
  intros w w4 w5 e Hn H4 H5.
  assert (Hrun : Deployer.deploy config project w =
                 conclude config project
                   (pipeline [GenerateManagementScripts; VerifyDeployment]
                      config project (emit (proxy_warning e) w5))).
  { rewrite deploy_as_pipeline. unfold step_list. rewrite Hn.
    rewrite pipeline_app, H4. cbn [app]. cbn [pipeline]. rewrite H5. reflexivity. }
  rewrite Hrun. cbn [pipeline].
  change (step_body GenerateManagementScripts config project)
    with (Deployer.createManagementScripts config project).
  change (step_body VerifyDeployment config project)
    with (Deployer.performFinalChecks config project).
  destruct (createManagementScripts_grows config project (emit (proxy_warning e) w5))
    as (Ht & more & Hc).
  destruct (Deployer.createManagementScripts config project (emit (proxy_warning e) w5))
    as [[[]|e6] w6] eqn:E6; cbn [snd] in Ht, Hc.
  - destruct (createManagementScripts_run _ _ _ _ E6) as (Hf6 & Hi6 & _).
    destruct (performFinalChecks_run config project w6) as (t & o & H7 & _).
    destruct (printPostDeploymentInfo_run config project
                (emit (Log LSuccess "🎉 Deployment completed successfully!")
                   (mkWorld (host w6) (files w6) (trace w6 ++ EvTimeout 3000 :: t)
                      (console w6 ++ o))))
      as (added & H8 & _).
    rewrite H7. cbn [conclude]. unfold Logger.success. rewrite bind_out, H8.
    cbn [snd trace console files emit] in *.
    split; [|split].
    + exists (EvTimeout 3000 :: t). rewrite Ht, <- app_assoc. reflexivity.
    + eexists. rewrite Hc, <- !app_assoc. cbn [app]. reflexivity.
    + intros w6' Hw6. inversion Hw6; subst w6'.
      exists (mkWorld (host w6) (files w6) (trace w6 ++ EvTimeout 3000 :: t)
                ((console w6 ++ o)
                 ++ [Log LSuccess "🎉 Deployment completed successfully!"] ++ added)), t.
      cbn [trace console files].
      assert (Hne : NeexProject.rootPath project +:+ "/restart.sh"
                    <> NeexProject.rootPath project +:+ "/status.sh").
      { intros E. apply append_inj_r in E. discriminate. }
      repeat split.
      * rewrite <- app_assoc. reflexivity.
      * rewrite Hc, !in_app_iff. cbn [In]. tauto.
      * rewrite in_app_iff. cbn [In]. tauto.
      * rewrite !in_app_iff. cbn [In]. tauto.
      * rewrite Ht, Hi6, <- app_assoc. reflexivity.
      * rewrite Hf6, lookup_insert_ne by exact Hne. apply lookup_insert_eq.
      * rewrite Hf6. apply lookup_insert_eq.
  - cbn [conclude]. cbn [snd trace console emit] in *.
    split; [|split].
    + exists []. rewrite Ht, app_nil_r. reflexivity.
    + eexists. rewrite Hc, <- !app_assoc. cbn [app]. reflexivity.
    + intros w6' Hw6. discriminate Hw6.
Qed.

Lemma C5_witness :
  (exists w1,
      step_body SetupProxy blog both_tiers (fresh_world host_without_nginx ∅) =
        (Thrown (mkError "Nginx installation required"), w1))
  /\ (exists (w' : World) (before probes : list Event),
        Deployer.deploy blog both_tiers (fresh_world host_without_nginx ∅)
          = (Returned tt, w')
        /\ In (proxy_warning (mkError "Nginx installation required")) (console w')
        /\ In (Log LSuccess "🎉 Deployment completed successfully!") (console w')
        /\ trace w' =
             before
             ++ [EvEnsureDir "/srv/blog/status.sh" None;
                 EvWriteFile "/srv/blog/status.sh" (Deployer.statusScript blog) None;
                 EvExec "chmod" ["+x"; "status.sh"] (Some "/srv/blog") None;
                 EvEnsureDir "/srv/blog/restart.sh" None;
                 EvWriteFile "/srv/blog/restart.sh" Deployer.restartScript None;
                 EvExec "chmod" ["+x"; "restart.sh"] (Some "/srv/blog") None]
             ++ EvTimeout 3000 :: probes
        /\ files w' !! "/srv/blog/status.sh" = Some (Deployer.statusScript blog)
        /\ files w' !! "/srv/blog/restart.sh" = Some Deployer.restartScript).
Proof.
  destruct (C5_proxy_failure_is_downgraded blog both_tiers) as [Habsent Hrun].
  split.
  - apply (Habsent (fresh_world host_without_nginx ∅)
             (mkError "Command failed with exit code 1: which nginx")).
    vm_compute. reflexivity.
  - pose (w4 := snd (pipeline
                       [CheckPrerequisites; Build; MaterializeEnvironment; SetupSupervisor]
                       blog both_tiers (announce blog (fresh_world host_without_nginx ∅)))).
    pose (w5 := snd (step_body SetupProxy blog both_tiers w4)).
    pose (w6 := snd (Deployer.createManagementScripts blog both_tiers
                       (emit (proxy_warning (mkError "Nginx installation required")) w5))).
    destruct (Hrun (fresh_world host_without_nginx ∅) w4 w5
                (mkError "Nginx installation required"))
      as (_ & _ & Hdone); [vm_compute; reflexivity..|].
    destruct (Hdone w6) as (w' & probes & Hd & Hw & _ & Hs & Ht & Hf1 & Hf2);
      [vm_compute; reflexivity|].
    exists w', (trace w5), probes.
    repeat split; assumption.
Defined.

(** ** Starting the supervisor *)

Lemma start_with_refused_autostart (config : DeployConfig.t)
    (project : NeexProject.t) (w w1 w2 w3 w4 : World) (e : Error) :
  DeployConfig.autoStart config = true ->
  try_catch
    (SystemUtils.executeCommand "pm2" ["delete"; "all"]
       (Some (NeexProject.rootPath project)))
    (fun _ => ret tt)
    (emit (Log LStep "Starting PM2 applications...") w) = (Returned tt, w1) ->
  execa "pm2" ["start"; "ecosystem.config.js"]
    (Some (NeexProject.rootPath project)) w1 = (Returned tt, w2) ->
  execa "pm2" ["save"] None w2 = (Returned tt, w3) ->
  execa "pm2" ["startup"] None w3 = (Thrown e, w4) ->
  PM2Generator.start config project w =
    (Returned tt,
     emit (Log LSuccess "PM2 applications started")
       (emit (Log LWarning autostart_warning) w4)).
Proof.
  intros Ha H1 H2 H3 H4.
  unfold PM2Generator.start, Logger.step. rewrite bind_out.
  unfold try_catch at 1. unfold bind at 1. rewrite H1.
  unfold bind at 1. unfold SystemUtils.executeCommand at 1. rewrite H2.
  unfold bind at 1. unfold SystemUtils.executeCommand at 1. rewrite H3.
  rewrite Ha. cbn [when]. unfold bind at 1. unfold try_catch at 1.
  unfold bind at 1. unfold SystemUtils.executeCommand at 1. rewrite H4.
  reflexivity.
Qed.

(** Every host primitive only adds to the trace; [execa] in particular
    leaves the console as it is. *)
Lemma execa_console (command : string) (args : list string) (cwd : option string)
    (w : World) :
  console (snd (execa command args cwd w)) = console w.
Proof. unfold execa. destruct (exec_outcome _ _ _ _ _); reflexivity. Qed.

(** Counted over a whole run, the warnings are not one: on a first
    deployment where everything but the autostart registration succeeds
    (the only other command to exit with an error is the [which] that
    looks for the [.env]), the deployment is reported successful and two
    warnings are on the console, the reminder that comes with a newly
    created [.env] and the one of the failed registration. *)
Lemma C6_counterexample :
  fst (Deployer.deploy blog both_tiers (fresh_world host_startup_refused ∅))
    = Returned tt
  /\ failed_commands (trace (snd (Deployer.deploy blog both_tiers
                                    (fresh_world host_startup_refused ∅))))
     = [("which", ["test -f /srv/blog/.env"]); ("pm2", ["startup"])]
  /\ warnings (console (snd (Deployer.deploy blog both_tiers
                               (fresh_world host_startup_refused ∅))))
     = ["Please update .env with your actual values"; autostart_warning]
  /\ length (warnings (console (snd (Deployer.deploy blog both_tiers
                                       (fresh_world host_startup_refused ∅)))))
     <> 1%nat.
Proof. vm_compute. repeat split; discriminate. Qed.

(** The second text of [start] in the same file has no handler: there the
    failed registration is thrown to the caller. *)
Lemma second_text_start_throws :
  exists w',
    PM2GeneratorSecondText.start blog both_tiers (fresh_world host_startup_refused ∅)
      = (Thrown (mkError "Command failed with exit code 1: pm2"), w').
Proof. eexists. vm_compute. reflexivity. Qed.

(** ** Generation and what reaches the host *)

Lemma pm2_generate_issued (config : DeployConfig.t) (project : NeexProject.t)
    (w : World) :
  exists (r1 : option Error) (tail : list Event),
    issued (PM2Generator.generate config project) w =
      EvEnsureDir (NeexProject.rootPath project +:+ "/ecosystem.config.js") r1 :: tail
    /\ (tail = []
        \/ exists r2,
             tail = [EvWriteFile (NeexProject.rootPath project +:+ "/ecosystem.config.js")
                       (PM2Generator.generateEcosystemConfig config project) r2]).
Proof.
  unfold issued. destruct w as [h f t c].
  unfold PM2Generator.generate, SystemUtils.writeFile, Logger.success, Logger.out,
    bind, fs_ensureDir, fs_writeFile.
  generalize (PM2Generator.generateEcosystemConfig config project). intros doc.
  world_steps.
  repeat match goal with
    | |- context [match ?o with Some _ => _ | None => _ end] =>
        destruct o; world_steps
    end;
    cbn [snd trace]; rewrite <- ?app_assoc; cbn [app]; rewrite drop_app_length;
    eexists _, _; (split; [reflexivity|]); eauto.
Qed.

Lemma nginx_generate_issued (config : DeployConfig.t) (project : NeexProject.t)
    (w : World) :
  exists (path : string) (r1 : option Error) (tail : list Event),
    issued (NginxGenerator.generate config project) w = EvEnsureDir path r1 :: tail
    /\ (tail = []
        \/ exists r2 tail',
             tail = EvWriteFile path
                      (NginxGenerator.generateNginxConfig config project) r2 :: tail'
             /\ forall ev, In ev tail' ->
                  exists r content,
                    ev = EvEnsureDir (NeexProject.rootPath project +:+ "/nginx-setup.md") r
                    \/ ev = EvWriteFile (NeexProject.rootPath project +:+ "/nginx-setup.md")
                              content r).
Proof.
  unfold issued. destruct w as [h f t c].
  unfold NginxGenerator.generate, NginxGenerator.generateSetupInstructions,
    NginxGenerator.getConfigPath, SystemUtils.getOS,
    SystemUtils.writeFile, Logger.success, Logger.info, Logger.out,
    bind, fs_ensureDir, fs_writeFile, ret.
  generalize (NginxGenerator.generateNginxConfig config project). intros doc.
  world_steps.
  repeat match goal with
    | |- context [match ?o with Some _ => _ | None => _ end] =>
        destruct o; world_steps
    | |- context [if String.eqb ?a ?b then _ else _] =>
        destruct (String.eqb a b); world_steps
    end;
    cbn [snd trace]; rewrite <- ?app_assoc; cbn [app]; rewrite drop_app_length;
    eexists _, _, _; (split; [reflexivity|]);
    first [left; reflexivity
          |right; eexists _, _; split; [reflexivity|];
           cbn [In]; intros ev Hev;
           repeat match type of Hev with
             | _ \/ _ => destruct Hev as [Hev|Hev]
             | False => contradiction
             end; subst ev;
           first [exists None, ""; left; reflexivity
                 |eexists _, ""; left; reflexivity
                 |eexists _, _; right; reflexivity]].
Qed.

Lemma manifest_reads (config config' : DeployConfig.t)
    (project project' : NeexProject.t) :
  manifest_inputs config project = manifest_inputs config' project' ->
  PM2Generator.generateEcosystemConfig config project
    = PM2Generator.generateEcosystemConfig config' project'.
Proof.
  unfold manifest_inputs. intros H.
  injection H as H1 H2 H3 H4 H5 H6 H7 H8.
  unfold PM2Generator.generateEcosystemConfig, PM2Generator.ecosystemApps.
  rewrite H1, H2, H3, H4, H5, H6, H7, H8. reflexivity.
Qed.

Lemma routing_document_reads (config config' : DeployConfig.t)
    (project project' : NeexProject.t) :
  routing_inputs config project = routing_inputs config' project' ->
  NginxGenerator.generateNginxConfig config project
    = NginxGenerator.generateNginxConfig config' project'.
Proof.
  unfold routing_inputs. intros H.
  injection H as H1 H2 H3 H4 H5.
  unfold NginxGenerator.generateNginxConfig.
  rewrite H1, H2, H3, H4, H5. reflexivity.
Qed.

Lemma pm2_generate_as_write (config : DeployConfig.t) (project : NeexProject.t)
    (w : World) :
  issued (PM2Generator.generate config project) w =
    issued (SystemUtils.writeFile
              (NeexProject.rootPath project +:+ "/ecosystem.config.js")
              (PM2Generator.generateEcosystemConfig config project)) w.
Proof.
  unfold issued, PM2Generator.generate. cbv zeta. unfold bind at 1.
  destruct (SystemUtils.writeFile _ _ w) as [[[]|e] w1]; [|reflexivity].
  unfold Logger.success. rewrite out_run. reflexivity.
Qed.

Lemma nginx_generate_as_writes (config : DeployConfig.t) (project : NeexProject.t)
    (w : World) :
  exists rest : list Event,
    issued (NginxGenerator.generate config project) w =
      issued (SystemUtils.writeFile (config_path_on (host w) config)
                (NginxGenerator.generateNginxConfig config project)) w
      ++ rest
    /\ Forall (concerns (NeexProject.rootPath project +:+ "/nginx-setup.md")) rest.
Proof.
  unfold issued, config_path_on. destruct w as [h f t c].
  unfold NginxGenerator.generate, NginxGenerator.generateSetupInstructions,
    NginxGenerator.getConfigPath, SystemUtils.getOS,
    SystemUtils.writeFile, Logger.success, Logger.info, Logger.out,
    bind, fs_ensureDir, fs_writeFile, ret.
  generalize (NginxGenerator.generateNginxConfig config project). intros doc.
  world_steps.
  destruct (String.eqb (platform h) "darwin") eqn:Hd;
    [|destruct (String.eqb (platform h) "win32") eqn:Hw];
    world_steps;
    repeat (rewrite ?Hd, ?Hw;
            match goal with
            | |- context [match ?o with Some _ => _ | None => _ end] =>
                destruct o; world_steps
            end);
    rewrite ?Hd, ?Hw; world_steps;
    cbn [snd trace]; rewrite <- ?app_assoc; cbn [app]; rewrite ?drop_app_length;
    eexists; (split; [cbn [app]; reflexivity|]);
    repeat constructor.
Qed.

(** C7. The two generators are functions of the configuration and the
    topology, and read only part of them: inputs that agree on the project
    name, the package manager, the environment, the two ports, the root
    path and the two subsystem flags give byte-identical manifests, and
    inputs that agree on the domain, the two ports and the two flags give
    byte-identical routing documents, identical inputs in particular.  The
    bytes are the ones these inputs determine: the lines of
    [manifest_lines] and, for a domain of one line, of
    [routing_lines_expected].  Generating touches neither the file system
    nor any program: in whatever two worlds [generate] runs, every manifest
    and every routing document it writes is the generated text, and all
    that reaches the host is the call of [writeFile] on that text (followed,
    for the routing document, by the one on the instructions), no external
    program being started. *)
Theorem C7_generation_is_deterministic
    (config config' : DeployConfig.t) (project project' : NeexProject.t)
    (w1 w2 : World) :
  (manifest_inputs config project = manifest_inputs config' project' ->
   PM2Generator.generateEcosystemConfig config project
     = PM2Generator.generateEcosystemConfig config' project')
  /\ (routing_inputs config project = routing_inputs config' project' ->
      NginxGenerator.generateNginxConfig config project
        = NginxGenerator.generateNginxConfig config' project')
  /\ lines (PM2Generator.generateEcosystemConfig config project)
       = manifest_lines config project
  /\ (single_line (DeployConfig.domain config) = true ->
      lines (NginxGenerator.generateNginxConfig config project)
        = routing_lines_expected config project)
  /\ (forall path1 path2 content1 content2 r1 r2,
        In (EvWriteFile path1 content1 r1)
           (issued (PM2Generator.generate config project) w1) ->
        In (EvWriteFile path2 content2 r2)
           (issued (PM2Generator.generate config project) w2) ->
        content1 = content2
        /\ content1 = PM2Generator.generateEcosystemConfig config project)
  /\ (forall path1 path2 content1 content2 r1 r2,
        In (EvWriteFile path1 content1 r1)
           (issued (NginxGenerator.generate config project) w1) ->
        In (EvWriteFile path2 content2 r2)
           (issued (NginxGenerator.generate config project) w2) ->
        path1 <> NeexProject.rootPath project +:+ "/nginx-setup.md" ->
        path2 <> NeexProject.rootPath project +:+ "/nginx-setup.md" ->
        content1 = content2
        /\ content1 = NginxGenerator.generateNginxConfig config project)
  /\ issued (PM2Generator.generate config project) w1 =
       issued (SystemUtils.writeFile
                 (NeexProject.rootPath project +:+ "/ecosystem.config.js")
                 (PM2Generator.generateEcosystemConfig config project)) w1
  /\ (exists rest : list Event,
        issued (NginxGenerator.generate config project) w1 =
          issued (SystemUtils.writeFile (config_path_on (host w1) config)
                    (NginxGenerator.generateNginxConfig config project)) w1
          ++ rest
        /\ Forall (concerns (NeexProject.rootPath project +:+ "/nginx-setup.md")) rest)
  /\ Forall starts_no_program (issued (PM2Generator.generate config project) w1)
  /\ Forall starts_no_program (issued (NginxGenerator.generate config project) w1).
Proof.
  assert (Hm : forall w path content r,
             In (EvWriteFile path content r)
                (issued (PM2Generator.generate config project) w) ->
             content = PM2Generator.generateEcosystemConfig config project).
  { intros w path content r.
    destruct (pm2_generate_issued config project w) as (r1 & tail & -> & [->|[r2 ->]]);
      cbn [In]; intros H;
      repeat match type of H with
        | _ \/ _ => destruct H as [H|H]
        | False => contradiction
        end; congruence. }
  assert (Hn : forall w path content r,
             In (EvWriteFile path content r)
                (issued (NginxGenerator.generate config project) w) ->
             path <> NeexProject.rootPath project +:+ "/nginx-setup.md" ->
             content = NginxGenerator.generateNginxConfig config project).
  { intros w path content r.
    destruct (nginx_generate_issued config project w)
      as (p & r1 & tail & -> & [->|(r2 & tail' & -> & Ht)]);
      cbn [In]; intros H Hp;
      repeat match type of H with
        | _ \/ _ => destruct H as [H|H]
        | False => contradiction
        end; try congruence.
    destruct (Ht _ H) as (r' & c' & [E|E]); congruence. }
  split; [apply manifest_reads|].
  split; [apply routing_document_reads|].
  split; [apply manifest_lines_generated|].
  split; [apply routing_document_lines_generated|].
  split; [|split; [|split; [|split; [|split]]]].
  - intros p1 p2 c1 c2 r1 r2 H1 H2.
    rewrite (Hm _ _ _ _ H1), (Hm _ _ _ _ H2). auto.
  - intros p1 p2 c1 c2 r1 r2 H1 H2 N1 N2.
    rewrite (Hn _ _ _ _ H1 N1), (Hn _ _ _ _ H2 N2). auto.
  - apply pm2_generate_as_write.
  - apply nginx_generate_as_writes.
  - destruct (pm2_generate_issued config project w1)
      as (r1 & tail & -> & [->|[r2 ->]]); repeat constructor.
  - destruct (nginx_generate_issued config project w1)
      as (p & r1 & tail & -> & [->|(r2 & tail' & -> & Ht)]); repeat constructor.
    apply Forall_forall. intros ev Hev.
    destruct (Ht _ (proj1 (list_elem_of_In _ _) Hev)) as (r' & c' & [->| ->]);
      exact I.
Qed.

Lemma C7_witness :
  PM2Generator.generateEcosystemConfig blog both_tiers
    = PM2Generator.generateEcosystemConfig blog_manual_start blog_elsewhere
  /\ NginxGenerator.generateNginxConfig blog both_tiers
       = NginxGenerator.generateNginxConfig blog_manual_start blog_elsewhere
  /\ lines (PM2Generator.generateEcosystemConfig blog both_tiers)
       = manifest_lines blog both_tiers
  /\ lines (NginxGenerator.generateNginxConfig blog both_tiers)
       = routing_lines_expected blog both_tiers
  /\ length (lines (PM2Generator.generateEcosystemConfig blog both_tiers)) = 32%nat
  /\ issued (PM2Generator.generate blog both_tiers)
       (fresh_world host_without_nginx files_with_env)
     = [EvEnsureDir "/srv/blog/ecosystem.config.js" None;
        EvWriteFile "/srv/blog/ecosystem.config.js"
          (PM2Generator.generateEcosystemConfig blog_manual_start blog_elsewhere) None].
Proof.
  destruct (C7_generation_is_deterministic blog blog_manual_start
              both_tiers blog_elsewhere
              (fresh_world host_without_nginx files_with_env)
              (fresh_world usual_host ∅))
    as (H1 & H2 & H3 & H4 & _ & _ & H7 & _).
  specialize (H1 eq_refl). specialize (H2 eq_refl). specialize (H4 eq_refl).
  split; [exact H1|]. split; [exact H2|]. split; [exact H3|]. split; [exact H4|].
  split; [rewrite H3; reflexivity|].
  rewrite H7, <- H1. vm_compute. reflexivity.
Defined.

(** * Properties of the methods, one at a time *)

(** ** Footprints of computations *)

Section Footprint.
Variable okE : Event -> Prop.
Variable okO : Output -> Prop.
Variable okP : string -> Prop.

Lemma within_refl (w : World) : within okE okO okP w w.
Proof.
  repeat split; try (exists []; split; [symmetry; apply app_nil_r|constructor]).
Qed.

Lemma within_trans (w1 w2 w3 : World) :
  within okE okO okP w1 w2 -> within okE okO okP w2 w3 ->
  within okE okO okP w1 w3.
Proof.
  intros (Hh & (t & Ht & Pt) & (o & Ho & Po) & Hf)
         (Hh' & (t' & Ht' & Pt') & (o' & Ho' & Po') & Hf').
  split; [congruence|]. split; [|split].
  - exists (t ++ t'). rewrite Ht', Ht, app_assoc. split; [reflexivity|].
    apply Forall_app; auto.
  - exists (o ++ o'). rewrite Ho', Ho, app_assoc. split; [reflexivity|].
    apply Forall_app; auto.
  - intros p Hp. rewrite (Hf' p Hp). apply Hf, Hp.
Qed.

Lemma within_record (ev : Event) (w : World) :
  okE ev -> within okE okO okP w (record ev w).
Proof.
  intros H. repeat split.
  - exists [ev]. split; [reflexivity|]. constructor; [exact H|constructor].
  - exists []. split; [symmetry; apply app_nil_r|constructor].
Qed.

Lemma within_emit (o : Output) (w : World) :
  okO o -> within okE okO okP w (emit o w).
Proof.
  intros H. repeat split.
  - exists []. split; [symmetry; apply app_nil_r|constructor].
  - exists [o]. split; [reflexivity|]. constructor; [exact H|constructor].
Qed.

Lemma within_after_emit (o : Output) (w w' : World) :
  within okE okO okP (emit o w) w' -> okO o -> within okE okO okP w w'.
Proof. intros H Ho. eapply within_trans; [apply within_emit, Ho|exact H]. Qed.

Lemma within_then_emit (o : Output) (w w' : World) :
  within okE okO okP w w' -> okO o -> within okE okO okP w (emit o w').
Proof. intros H Ho. eapply within_trans; [exact H|apply within_emit, Ho]. Qed.

Lemma within_store (path content : string) (w : World) :
  okP path -> within okE okO okP w (store path content w).
Proof.
  intros H. repeat split; try (exists []; split; [symmetry; apply app_nil_r|constructor]).
  intros p Hp. cbn. apply lookup_insert_ne. congruence.
Qed.

Lemma confined_ret {A} (a : A) : confined okE okO okP (ret a).
Proof. intros w. apply within_refl. Qed.

Lemma confined_throw {A} (e : Error) : confined okE okO okP (@throw A e).
Proof. intros w. apply within_refl. Qed.

Lemma confined_bind {A B} (m : M A) (k : A -> M B) :
  confined okE okO okP m -> (forall a, confined okE okO okP (k a)) ->
  confined okE okO okP (bind m k).
Proof.
  intros Hm Hk w. specialize (Hm w). unfold bind.
  destruct (m w) as [[a|e] w1]; [|exact Hm].
  eapply within_trans; [exact Hm|apply Hk].
Qed.

Lemma confined_try_catch {A} (m : M A) (h : Error -> M A) :
  confined okE okO okP m -> (forall e, confined okE okO okP (h e)) ->
  confined okE okO okP (try_catch m h).
Proof.
  intros Hm Hh w. specialize (Hm w). unfold try_catch.
  destruct (m w) as [[a|e] w1]; [exact Hm|].
  eapply within_trans; [exact Hm|apply Hh].
Qed.

Lemma confined_when (b : bool) (m : M unit) :
  (b = true -> confined okE okO okP m) -> confined okE okO okP (when b m).
Proof. destruct b; [auto|intros _; apply confined_ret]. Qed.

Lemma confined_out (o : Output) : okO o -> confined okE okO okP (Logger.out o).
Proof. intros H w. apply within_emit, H. Qed.

Lemma confined_execa (command : string) (args : list string) (cwd : option string) :
  (forall r, okE (EvExec command args cwd r)) ->
  confined okE okO okP (execa command args cwd).
Proof.
  intros H w. unfold execa.
  destruct (exec_outcome _ _ _ _ _); apply within_record, H.
Qed.

Lemma confined_ensureDir (ofFile : string) :
  (forall r, okE (EvEnsureDir ofFile r)) ->
  confined okE okO okP (fs_ensureDir ofFile).
Proof.
  intros H w. unfold fs_ensureDir.
  destruct (ensureDir_outcome _ _ _); apply within_record, H.
Qed.

Lemma confined_fs_writeFile (path content : string) :
  (forall r, okE (EvWriteFile path content r)) -> okP path ->
  confined okE okO okP (fs_writeFile path content).
Proof.
  intros H Hp w. unfold fs_writeFile.
  destruct (writeFile_outcome _ _ _ _); cbn [snd].
  - apply within_record, H.
  - eapply within_trans; [apply within_record, H|apply within_store, Hp].
Qed.

Lemma confined_detectPort (port : N) :
  (forall r, okE (EvDetectPort port r)) ->
  confined okE okO okP (detectPort port).
Proof.
  intros H w. unfold detectPort.
  destruct (detectPort_outcome _ _ _); apply within_record, H.
Qed.

Lemma confined_setTimeout (ms : N) :
  okE (EvTimeout ms) -> confined okE okO okP (setTimeout ms).
Proof. intros H w. apply within_record, H. Qed.

Lemma confined_getOS : confined okE okO okP SystemUtils.getOS.
Proof. intros w. apply within_refl. Qed.

End Footprint.

Lemma within_weaken (okE okE' : Event -> Prop) (okO okO' : Output -> Prop)
    (okP okP' : string -> Prop) (w w' : World) :
  (forall ev, okE ev -> okE' ev) -> (forall o, okO o -> okO' o) ->
  (forall p, okP p -> okP' p) ->
  within okE okO okP w w' -> within okE' okO' okP' w w'.
Proof.
  intros HE HO HP (Hh & (t & Ht & Pt) & (o & Ho & Po) & Hf).
  split; [exact Hh|]. split; [|split].
  - exists t. split; [exact Ht|]. eapply Forall_impl; eauto.
  - exists o. split; [exact Ho|]. eapply Forall_impl; eauto.
  - intros p Hp. apply Hf. intros H. apply Hp, HP, H.
Qed.

(** Decomposing a method into its primitives, one footprint lemma at a
    time; what is left are the conditions on single operations. *)
Create HintDb footprint.

Ltac confine :=
  repeat first
    [ solve [auto 2 with footprint nocore]
    | apply confined_ret
    | apply confined_throw
    | apply confined_getOS
    | apply confined_bind; [|intros ?]
    | apply confined_try_catch; [|intros ?]
    | apply confined_when; intros ?
    | apply confined_out
    | apply confined_execa; intros ?
    | apply confined_ensureDir; intros ?
    | apply confined_fs_writeFile; [intros ?|]
    | apply confined_detectPort; intros ?
    | apply confined_setTimeout
    | match goal with
      | |- confined _ _ _ (if ?b then _ else _) => destruct b
      | |- confined _ _ _ (match ?x with _ => _ end) => destruct x
      end ].

Lemma confined_bind_val {A B} okE okO okP (m : M A) (k : A -> M B) :
  confined okE okO okP m ->
  (forall a, (exists w w', m w = (Returned a, w')) -> confined okE okO okP (k a)) ->
  confined okE okO okP (bind m k).
Proof.
  intros Hm Hk w. specialize (Hm w). unfold bind.
  destruct (m w) as [[a|e] w1] eqn:E; [|exact Hm].
  eapply within_trans; [exact Hm|]. apply Hk. eauto.
Qed.

Lemma confined_weaken {A} (okE okE' : Event -> Prop) (okO okO' : Output -> Prop)
    (okP okP' : string -> Prop) (m : M A) :
  (forall ev, okE ev -> okE' ev) -> (forall o, okO o -> okO' o) ->
  (forall p, okP p -> okP' p) ->
  confined okE okO okP m -> confined okE' okO' okP' m.
Proof. intros HE HO HP H w. eapply within_weaken; eauto. Qed.

Lemma getConfigPath_values (config : DeployConfig.t) (w w' : World) (path : string) :
  NginxGenerator.getConfigPath config w = (Returned path, w') ->
  w' = w
  /\ path = if String.eqb (platform (host w)) "darwin"
            then "/usr/local/etc/nginx/servers/" +:+ DeployConfig.projectName config +:+ ".conf"
            else "/etc/nginx/sites-available/" +:+ DeployConfig.projectName config.
Proof.
  unfold NginxGenerator.getConfigPath, SystemUtils.getOS, bind, ret.
  destruct (String.eqb (platform (host w)) "darwin");
    [|destruct (String.eqb (platform (host w)) "win32")];
    intros H; inversion H; auto.
Qed.

(** Conditions on single operations. *)
Ltac footprint_side :=
  try solve
    [ exact I
    | cbn; exact I
    | match goal with H : forall o, not_error o -> _ |- _ => apply H; exact I end
    | cbn [touches_only]; unfold commands_of_deploy, files_of_deploy;
      repeat match goal with H : _ = true |- _ => rewrite H end;
      rewrite !in_app_iff; cbn [In]; auto 30 ].

Section DeployFootprint.
Variable config : DeployConfig.t.
Variable project : NeexProject.t.
Variable proxy : bool.
Variable okO : Output -> Prop.
Hypothesis quiet : forall o, not_error o -> okO o.

Let okE := touches_only (commands_of_deploy proxy config project)
             (files_of_deploy proxy config project).
Let okP := fun path => In path (files_of_deploy proxy config project).

Lemma getConfigPath_footprint :
  confined okE okO okP (NginxGenerator.getConfigPath config).
Proof. unfold NginxGenerator.getConfigPath. confine. Qed.

Lemma nginx_generate_footprint :
  proxy = true ->
  confined okE okO okP (NginxGenerator.generate config project).
Proof.
  intros Hproxy.
  unfold NginxGenerator.generate.
  apply confined_bind_val; [apply getConfigPath_footprint|].
  intros path (w & w' & [_ ->]%getConfigPath_values).
  assert (okP (if String.eqb (platform (host w)) "darwin"
               then "/usr/local/etc/nginx/servers/" +:+ DeployConfig.projectName config +:+ ".conf"
               else "/etc/nginx/sites-available/" +:+ DeployConfig.projectName config))
    as Hpath.
  { destruct (String.eqb _ _); cbv beta delta [okP]; footprint_side. }
  unfold SystemUtils.writeFile, Logger.success, Logger.info,
    NginxGenerator.generateSetupInstructions.
  pose proof getConfigPath_footprint as Hcp.
  confine; try exact Hpath; try exact Hcp;
    cbv beta delta [okE okP]; footprint_side.
Qed.

#[local] Hint Resolve getConfigPath_footprint nginx_generate_footprint : footprint.

Lemma step_body_footprint (s : Step) :
  s <> SetupSupervisor ->
  (s = SetupProxy -> proxy = true) ->
  confined okE okO okP (step_body s config project).
Proof.
  intros Hs Hproxy.
  destruct s; try congruence; cbn [step_body];
    try specialize (Hproxy eq_refl).
  - unfold Deployer.checkPrerequisites, SystemUtils.checkCommand, Logger.step,
      Logger.success.
    confine; cbv beta delta [okE okP]; footprint_side.
  - unfold Deployer.buildProject, SystemUtils.executeCommand, Logger.step,
      Logger.success, Logger.startSpinner, Logger.updateSpinner, Logger.stopSpinner.
    confine; cbv beta delta [okE okP]; footprint_side.
  - unfold Deployer.generateEnvironment, SystemUtils.checkCommand,
      SystemUtils.writeFile, Deployer.envPath, Logger.success, Logger.warning.
    confine; cbv beta delta [okE okP]; footprint_side.
  - unfold NginxGenerator.install, SystemUtils.checkCommand,
      Logger.step, Logger.success, Logger.warning, Logger.info.
    confine; cbv beta delta [okE okP]; footprint_side.
  - unfold Deployer.createManagementScripts, SystemUtils.executeCommand,
      SystemUtils.writeFile, Logger.step, Logger.success.
    confine; cbv beta delta [okE okP]; footprint_side.
  - unfold Deployer.performFinalChecks, SystemUtils.isPortAvailable,
      Logger.step, Logger.success, Logger.warning.
    confine; cbv beta delta [okE okP]; footprint_side.
Qed.

End DeployFootprint.

Lemma supervisor_or_not (s : Step) : s = SetupSupervisor \/ s <> SetupSupervisor.
Proof. destruct s; first [left; reflexivity | right; discriminate]. Qed.

Lemma anything_after_not_error (o : Output) : not_error o -> anything o.
Proof. intros _. exact I. Qed.

Section SupervisorFootprint.
Variable config : DeployConfig.t.
Variable project : NeexProject.t.
Variable proxy : bool.

Let okE := touches_only (commands_of_deploy proxy config project)
             (files_of_deploy proxy config project).
Let okP := fun path => In path (files_of_deploy proxy config project).

Lemma pm2_install_footprint (okO : Output -> Prop) :
  (forall o, not_error o -> okO o) ->
  confined okE okO okP PM2Generator.install.
Proof.
  intros quiet.
  unfold PM2Generator.install, SystemUtils.checkCommand, SystemUtils.installPackage,
    Logger.step, Logger.success.
  confine; cbv beta delta [okE okP]; footprint_side.
Qed.

Lemma pm2_generate_footprint (okO : Output -> Prop) :
  (forall o, not_error o -> okO o) ->
  confined okE okO okP (PM2Generator.generate config project).
Proof.
  intros quiet.
  unfold PM2Generator.generate, SystemUtils.writeFile, Logger.success.
  confine; cbv beta delta [okE okP]; footprint_side.
Qed.

Lemma pm2_start_footprint :
  confined okE anything okP (PM2Generator.start config project).
Proof.
  unfold PM2Generator.start, SystemUtils.executeCommand, Logger.step,
    Logger.success, Logger.warning, Logger.error.
  confine; cbv beta delta [okE okP]; footprint_side.
Qed.

(** [start] logs an error only on its way to throwing. *)
Lemma pm2_start_returned (w w' : World) :
  PM2Generator.start config project w = (Returned tt, w') ->
  within okE not_error okP w w'.
Proof.
  unfold PM2Generator.start, Logger.step. rewrite bind_out.
  unfold try_catch at 1.
  match goal with
  | |- context [match ?body ?w0 with _ => _ end] =>
      assert (Hbody : confined okE not_error okP body);
      [|specialize (Hbody w0); destruct (body w0) as [[[]|e] w1]]
  end.
  - unfold SystemUtils.executeCommand, Logger.success, Logger.warning.
    confine; cbv beta delta [okE okP]; footprint_side.
  - intros H. inversion H; subst w'.
    eapply within_after_emit; [exact Hbody|exact I].
  - unfold Logger.error. rewrite bind_out. discriminate.
Qed.

Lemma setupPM2_footprint :
  confined okE anything okP (Deployer.setupPM2 config project).
Proof.
  pose proof (pm2_install_footprint anything anything_after_not_error).
  pose proof (pm2_generate_footprint anything anything_after_not_error).
  pose proof pm2_start_footprint.
  unfold Deployer.setupPM2, Logger.step. confine. exact I.
Qed.

Lemma setupPM2_returned (w w' : World) :
  Deployer.setupPM2 config project w = (Returned tt, w') ->
  within okE not_error okP w w'.
Proof.
  unfold Deployer.setupPM2, Logger.step. rewrite bind_out. unfold bind.
  pose proof (pm2_install_footprint not_error (fun _ H => H)
                (emit (Log LStep "Setting up PM2...") w)) as Hi.
  destruct (PM2Generator.install _) as [[[]|e] w1]; [|discriminate].
  pose proof (pm2_generate_footprint not_error (fun _ H => H) w1) as Hg.
  destruct (PM2Generator.generate config project w1) as [[[]|e] w2];
    [|discriminate].
  intros Hs%pm2_start_returned.
  eapply within_after_emit;
    [eapply within_trans; [exact Hi|eapply within_trans; [exact Hg|exact Hs]]
    |exact I].
Qed.

Lemma pipeline_footprint (steps : list Step) :
  (In SetupProxy steps -> proxy = true) ->
  forall w, within okE anything okP w (snd (pipeline steps config project w)).
Proof.
  induction steps as [|s rest IH]; intros Hproxy w; cbn [pipeline].
  - apply within_refl.
  - assert (Hs : within okE anything okP w (snd (step_body s config project w))).
    { destruct (supervisor_or_not s) as [->|Hne].
      - apply setupPM2_footprint.
      - apply (step_body_footprint config project proxy anything anything_after_not_error s Hne).
        intros ->. apply Hproxy. left. reflexivity. }
    specialize (IH (fun H => Hproxy (or_intror H))).
    destruct (step_body s config project w) as [[[]|e] w1]; cbn [snd] in Hs.
    + eapply within_trans; [exact Hs|apply IH].
    + destruct s; try exact Hs.
      eapply within_trans; [exact Hs|].
      eapply within_after_emit; [apply IH|exact I].
Qed.

Lemma pipeline_done_quiet (steps : list Step) :
  (In SetupProxy steps -> proxy = true) ->
  forall w w', pipeline steps config project w = (Done, w') ->
               within okE not_error okP w w'.
Proof.
  induction steps as [|s rest IH]; intros Hproxy w w'; cbn [pipeline].
  - intros H. inversion H. apply within_refl.
  - specialize (IH (fun H => Hproxy (or_intror H))).
    assert (Hstep : s <> SetupSupervisor ->
                    confined okE not_error okP (step_body s config project)).
    { intros Hne.
      apply (step_body_footprint config project proxy not_error (fun _ H => H) s Hne).
      intros ->. apply Hproxy. left. reflexivity. }
    destruct (step_body s config project w) as [[[]|e] w1] eqn:E.
    + intros H. eapply within_trans; [|apply (IH _ _ H)].
      destruct (supervisor_or_not s) as [->|Hne].
      * apply setupPM2_returned, E.
      * pose proof (Hstep Hne w) as Hs.
        rewrite E in Hs. exact Hs.
    + destruct s; try discriminate.
      intros H.
      pose proof (Hstep ltac:(discriminate) w) as Hs.
      rewrite E in Hs.
      eapply within_trans; [exact Hs|].
      eapply within_after_emit; [apply (IH _ _ H)|exact I].
Qed.

Lemma report_footprint (w : World) :
  within okE not_error okP w
    (snd ((Logger.success "🎉 Deployment completed successfully!" ;;
           Deployer.printPostDeploymentInfo config project) w)).
Proof.
  revert w. change (confined okE not_error okP
    (Logger.success "🎉 Deployment completed successfully!" ;;
     Deployer.printPostDeploymentInfo config project)).
  unfold Deployer.printPostDeploymentInfo, console_log, Logger.success.
  confine; exact I.
Qed.

End SupervisorFootprint.

Section DeployFootprints.
Variable config : DeployConfig.t.
Variable project : NeexProject.t.

Let okE := touches_only (deploy_commands config project)
             (deploy_files config project).
Let okP := fun path => In path (deploy_files config project).

Lemma proxy_step_needs_flag :
  In SetupProxy (step_list config) -> DeployConfig.nginxConfig config = true.
Proof.
  unfold step_list. destruct (DeployConfig.nginxConfig config); [reflexivity|].
  cbn. intuition discriminate.
Qed.

Lemma deploy_footprint (w : World) :
  within okE anything okP w (snd (Deployer.deploy config project w)).
Proof.
  rewrite deploy_as_pipeline.
  pose proof (pipeline_footprint config project (DeployConfig.nginxConfig config)
                (step_list config) proxy_step_needs_flag (announce config w)) as Hp.
  destruct (pipeline _ _ _ _) as [[|e] w7]; cbn [conclude snd] in *.
  - eapply within_after_emit;
      [eapply within_trans;
         [exact Hp
         |apply (within_weaken okE okE not_error anything okP okP);
            [auto|intros; exact I|auto
            |apply (report_footprint config project
                      (DeployConfig.nginxConfig config))]]
      |exact I].
  - eapply within_after_emit;
      [apply within_then_emit; [exact Hp|exact I]|exact I].
Qed.

Lemma deploy_returned_quiet (w w' : World) :
  Deployer.deploy config project w = (Returned tt, w') ->
  within okE not_error okP w w'.
Proof.
  rewrite deploy_as_pipeline.
  destruct (pipeline _ _ _ _) as [[|e] w7] eqn:E; cbn [conclude]; [|discriminate].
  intros H.
  pose proof (report_footprint config project (DeployConfig.nginxConfig config) w7)
    as Hr.
  rewrite H in Hr.
  eapply within_after_emit;
    [eapply within_trans;
       [apply (pipeline_done_quiet config project (DeployConfig.nginxConfig config)
                 _ proxy_step_needs_flag _ _ E)
       |exact Hr]
    |exact I].
Qed.

End DeployFootprints.

(** ** The autostart registration, in a whole deployment *)

Lemma warnings_app (a b : list Output) : warnings (a ++ b) = warnings a ++ warnings b.
Proof. apply omap_app. Qed.

Lemma warnings_lines (l : list string) : warnings (map Line l) = [].
Proof. induction l as [|x r IH]; [reflexivity|exact IH]. Qed.

Lemma pipeline_console_grows (config : DeployConfig.t) (project : NeexProject.t)
    (steps : list Step) (w : World) :
  (In SetupProxy steps -> DeployConfig.nginxConfig config = true) ->
  exists later : list Output,
    console (snd (pipeline steps config project w)) = console w ++ later.
Proof.
  intros H.
  destruct (pipeline_footprint config project (DeployConfig.nginxConfig config)
              steps H w) as (_ & _ & (o & Ho & _) & _).
  exists o. exact Ho.
Qed.

(** C6, as the code has it.  In the [start] of lines 93-120, with
    [autoStart] set, when the manifest loads and the process list is saved
    but [pm2 startup] fails, [start] returns normally and shows the failure
    as one warning, the only one it shows; the supervisor step returns with
    it; and when the steps before and after complete, the deployment
    returns normally, its console holding the three lines of [start], the
    warning between the heading and the success line.  The warnings of the
    run are those of the steps before, this one, and those of the steps
    after: one is due to the failed registration, and the others are as
    many as the other steps record.  In the [start] of lines 231-242 there
    is no handler: the same failure is thrown to the caller. *)
Theorem C6_autostart_failure_is_one_warning_of_start
    (config : DeployConfig.t) (project : NeexProject.t) :
  (forall (w w3 ws w1 w2 w2' w4 : World) (e : Error),
      DeployConfig.autoStart config = true ->
      pipeline [CheckPrerequisites; Build; MaterializeEnvironment]
        config project (announce config w) = (Done, w3) ->
      (Logger.step "Setting up PM2..." ;;
       PM2Generator.install ;;
       PM2Generator.generate config project) w3 = (Returned tt, ws) ->
      try_catch
        (SystemUtils.executeCommand "pm2" ["delete"; "all"]
           (Some (NeexProject.rootPath project)))
        (fun _ => ret tt)
        (emit (Log LStep "Starting PM2 applications...") ws) = (Returned tt, w1) ->
      execa "pm2" ["start"; "ecosystem.config.js"]
        (Some (NeexProject.rootPath project)) w1 = (Returned tt, w2) ->
      execa "pm2" ["save"] None w2 = (Returned tt, w2') ->
      execa "pm2" ["startup"] None w2' = (Thrown e, w4) ->
      PM2Generator.start config project ws =
        (Returned tt,
         emit (Log LSuccess "PM2 applications started")
           (emit (Log LWarning autostart_warning) w4))
      /\ warnings (shown (PM2Generator.start config project) ws) = [autostart_warning]
      /\ Deployer.setupPM2 config project w3 =
           (Returned tt,
            emit (Log LSuccess "PM2 applications started")
              (emit (Log LWarning autostart_warning) w4))
      /\ (forall w7 : World,
            pipeline
              ((if DeployConfig.nginxConfig config then [SetupProxy] else [])
               ++ [GenerateManagementScripts; VerifyDeployment])
              config project
              (emit (Log LSuccess "PM2 applications started")
                 (emit (Log LWarning autostart_warning) w4)) = (Done, w7) ->
            exists (w' : World) (later : list Output),
              Deployer.deploy config project w = (Returned tt, w')
              /\ console w' =
                   console ws
                   ++ [Log LStep "Starting PM2 applications...";
                       Log LWarning autostart_warning;
                       Log LSuccess "PM2 applications started"]
                   ++ later
              /\ warnings (console w') =
                   warnings (console ws) ++ autostart_warning :: warnings later))
  /\ (forall (w w2 w2' w4 : World) (e : Error),
        DeployConfig.autoStart config = true ->
        execa "pm2" ["start"; "ecosystem.config.js"]
          (Some (NeexProject.rootPath project))
          (emit (Log LStep "Starting PM2 applications...") w) = (Returned tt, w2) ->
        execa "pm2" ["save"] None w2 = (Returned tt, w2') ->
        execa "pm2" ["startup"] None w2' = (Thrown e, w4) ->
        PM2GeneratorSecondText.start config project w = (Thrown e, w4)).
Proof.
  split.
  - intros w w3 ws w1 w2 w2' w4 e Ha H3 Hs H1 H2 H2' H4.
    pose proof (start_with_refused_autostart _ _ _ _ _ _ _ _ Ha H1 H2 H2' H4) as E.
    assert (Hc : console w4 = console ws ++ [Log LStep "Starting PM2 applications..."]).
    { change w4 with (snd (Thrown (A:=unit) e, w4)). rewrite <- H4, execa_console.
      change w2' with (snd (Returned tt, w2')). rewrite <- H2', execa_console.
      change w2 with (snd (Returned tt, w2)). rewrite <- H2, execa_console.
      change w1 with (snd (Returned tt, w1)). rewrite <- H1.
      unfold try_catch, SystemUtils.executeCommand.
      pose proof (execa_console "pm2" ["delete"; "all"]
                    (Some (NeexProject.rootPath project))
                    (emit (Log LStep "Starting PM2 applications...") ws)) as Hd.
      revert Hd.
      destruct (execa "pm2" ["delete"; "all"] (Some (NeexProject.rootPath project))
                  (emit (Log LStep "Starting PM2 applications...") ws))
        as [[[]|e0] w0]; cbn; intros ->; reflexivity. }
    assert (HS : Deployer.setupPM2 config project w3 =
                 (Returned tt,
                  emit (Log LSuccess "PM2 applications started")
                    (emit (Log LWarning autostart_warning) w4))).
    { unfold Deployer.setupPM2.
      revert Hs. unfold Logger.step. rewrite !bind_out. unfold bind.
      destruct (PM2Generator.install _) as [[[]|e1] w01]; [|discriminate].
      destruct (PM2Generator.generate config project w01) as [[[]|e2] w02];
        [|discriminate].
      intros Hs. inversion Hs; subst. exact E. }
    split; [exact E|]. split; [|split; [exact HS|]].
    + unfold shown. rewrite E. cbn [snd emit console].
      rewrite Hc, <- !app_assoc. cbn [app].
      rewrite drop_app_length. reflexivity.
    + intros w7 H7.
      destruct (pipeline_console_grows config project
                  ((if DeployConfig.nginxConfig config then [SetupProxy] else [])
                   ++ [GenerateManagementScripts; VerifyDeployment])
                  (emit (Log LSuccess "PM2 applications started")
                     (emit (Log LWarning autostart_warning) w4)))
        as [later0 H0].
      { destruct (DeployConfig.nginxConfig config); cbn [app In];
          [reflexivity|intuition discriminate]. }
      rewrite H7 in H0. cbn [snd console emit] in H0.
      destruct (printPostDeploymentInfo_run config project
                  (emit (Log LSuccess "🎉 Deployment completed successfully!") w7))
        as (added & H8 & Hlines & _).
      eexists _, (later0 ++ [Log LSuccess "🎉 Deployment completed successfully!"]
                  ++ added).
      split; [|split].
      * rewrite deploy_as_pipeline. unfold step_list.
        change [CheckPrerequisites; Build; MaterializeEnvironment; SetupSupervisor]
          with ([CheckPrerequisites; Build; MaterializeEnvironment] ++ [SetupSupervisor]).
        rewrite <- app_assoc, pipeline_app, H3, pipeline_app.
        cbn [pipeline step_body]. rewrite HS, H7.
        cbn [conclude]. unfold Logger.success. rewrite bind_out. exact H8.
      * cbn [console emit]. rewrite H0, Hc, <- !app_assoc. reflexivity.
      * cbn [console emit]. rewrite H0, Hc, !warnings_app, Hlines, warnings_lines.
        cbn. rewrite app_nil_r, <- !app_assoc. reflexivity.
  - intros w w2 w2' w4 e Ha H2 H2' H4.
    unfold PM2GeneratorSecondText.start, Logger.step. rewrite bind_out.
    unfold bind at 1. unfold SystemUtils.executeCommand at 1. rewrite H2.
    unfold bind at 1. unfold SystemUtils.executeCommand at 1. rewrite H2'.
    rewrite Ha. cbn [when]. unfold bind at 1.
    unfold SystemUtils.executeCommand at 1. rewrite H4. reflexivity.
Qed.

Lemma C6_witness :
  (exists (w' : World) (later : list Output),
      Deployer.deploy blog both_tiers (fresh_world host_startup_refused ∅)
        = (Returned tt, w')
      /\ warnings (console w') =
           ["Please update .env with your actual values"]
           ++ autostart_warning :: warnings later)
  /\ (exists w4 : World,
        PM2GeneratorSecondText.start blog both_tiers (fresh_world host_startup_refused ∅)
          = (Thrown (mkError "Command failed with exit code 1: pm2"), w4)).
Proof.
  destruct (C6_autostart_failure_is_one_warning_of_start blog both_tiers)
    as [Hfirst Hsecond].
  pose (w := fresh_world host_startup_refused ∅).
  split.
  - pose (w3 := snd (pipeline [CheckPrerequisites; Build; MaterializeEnvironment]
                       blog both_tiers (announce blog w))).
    pose (ws := snd ((Logger.step "Setting up PM2..." ;;
                      PM2Generator.install ;;
                      PM2Generator.generate blog both_tiers) w3)).
    pose (w1 := snd (execa "pm2" ["delete"; "all"] (Some "/srv/blog")
                       (emit (Log LStep "Starting PM2 applications...") ws))).
    pose (w2 := snd (execa "pm2" ["start"; "ecosystem.config.js"] (Some "/srv/blog") w1)).
    pose (w2' := snd (execa "pm2" ["save"] None w2)).
    pose (w4 := snd (execa "pm2" ["startup"] None w2')).
    pose (w7 := snd (pipeline [SetupProxy; GenerateManagementScripts; VerifyDeployment]
                       blog both_tiers
                       (emit (Log LSuccess "PM2 applications started")
                          (emit (Log LWarning autostart_warning) w4)))).
    destruct (Hfirst w w3 ws w1 w2 w2' w4
                (mkError "Command failed with exit code 1: pm2"))
      as (_ & _ & _ & Hrun); [vm_compute; reflexivity..|].
    destruct (Hrun w7) as (w' & later & Hd & _ & Hw); [vm_compute; reflexivity|].
    exists w', later. split; [exact Hd|].
    rewrite Hw. reflexivity.
  - pose (w2 := snd (execa "pm2" ["start"; "ecosystem.config.js"] (Some "/srv/blog")
                       (emit (Log LStep "Starting PM2 applications...") w))).
    pose (w2' := snd (execa "pm2" ["save"] None w2)).
    pose (w4 := snd (execa "pm2" ["startup"] None w2')).
    exists w4.
    apply (Hsecond w w2 w2' w4 (mkError "Command failed with exit code 1: pm2"));
      vm_compute; reflexivity.
Defined.

(** ** The system utilities *)

Lemma within_issued okE okO okP {A} (m : M A) (w : World) :
  within okE okO okP w (snd (m w)) -> Forall okE (issued m w).
Proof.
  intros (_ & (t & Ht & Pt) & _). unfold issued. rewrite Ht, drop_app_length.
  exact Pt.
Qed.

Lemma within_shown okE okO okP {A} (m : M A) (w : World) :
  within okE okO okP w (snd (m w)) -> Forall okO (shown m w).
Proof.
  intros (_ & _ & (o & Ho & Po) & _). unfold shown. rewrite Ho, drop_app_length.
  exact Po.
Qed.

(** X1. [checkCommand] issues one [which <command>] and nothing else, answers
    true when it succeeds and false when it fails, and never throws; files
    and console are left as they were. *)
Theorem checkCommand_asks_which_and_never_throws (command : string) (w : World) :
  SystemUtils.checkCommand command w =
    (Returned (match exec_outcome (host w) (trace w) "which" [command] None with
               | None => true
               | Some _ => false
               end),
     record (EvExec "which" [command] None
               (exec_outcome (host w) (trace w) "which" [command] None)) w).
Proof.
  unfold SystemUtils.checkCommand, try_catch, bind, execa, ret.
  destruct (exec_outcome _ _ _ _ _); reflexivity.
Qed.

Lemma writeFile_run (path content : string) (w : World) :
  SystemUtils.writeFile path content w =
    match ensureDir_outcome (host w) (trace w) path with
    | Some e => (Thrown e, record (EvEnsureDir path (Some e)) w)
    | None =>
        match writeFile_outcome (host w) (trace w ++ [EvEnsureDir path None])
                path content with
        | Some e =>
            (Thrown e,
             record (EvWriteFile path content (Some e))
               (record (EvEnsureDir path None) w))
        | None =>
            (Returned tt,
             store path content
               (record (EvWriteFile path content None)
                  (record (EvEnsureDir path None) w)))
        end
    end.
Proof.
  unfold SystemUtils.writeFile, bind, fs_ensureDir, fs_writeFile.
  destruct (ensureDir_outcome _ _ _); [reflexivity|].
  cbn [host trace record].
  destruct (writeFile_outcome _ _ _ _); reflexivity.
Qed.

(** X2. [writeFile] ensures the directory, then writes.  When it returns,
    both operations succeeded, in this order, and the file holds the content
    given.  When it throws, the error is that of the operation that failed
    and nothing was attempted after it: a directory that cannot be ensured
    means no write is attempted.  It prints nothing. *)
Theorem writeFile_ensures_directory_then_writes (path content : string) (w : World) :
  match fst (SystemUtils.writeFile path content w) with
  | Returned _ =>
      files (snd (SystemUtils.writeFile path content w))
        = <[path := content]> (files w)
      /\ issued (SystemUtils.writeFile path content) w
         = [EvEnsureDir path None; EvWriteFile path content None]
  | Thrown e =>
      issued (SystemUtils.writeFile path content) w
        = [EvEnsureDir path (Some e)]
      \/ issued (SystemUtils.writeFile path content) w
         = [EvEnsureDir path None; EvWriteFile path content (Some e)]
  end
  /\ console (snd (SystemUtils.writeFile path content w)) = console w.
Proof.
  unfold issued. rewrite writeFile_run.
  destruct (ensureDir_outcome _ _ _);
    [|destruct (writeFile_outcome _ _ _ _)];
    cbn [fst snd files trace console record store];
    rewrite <- ?app_assoc, ?drop_app_length; cbn [app]; auto.
Qed.

(** ** The supervisor controller *)

(** Running a method on every answer the host can give. *)
Ltac run_cases :=
  world_steps;
  repeat match goal with
    | |- context [match ?o with Some _ => _ | None => _ end] =>
        destruct o eqn:?; world_steps
    | |- context [if ?b then _ else _] => destruct b eqn:?; world_steps
    end;
  cbn [fst snd trace console files]; rewrite <- ?app_assoc; cbn [app];
  rewrite ?drop_app_length.

Ltac unfold_start :=
  unfold PM2Generator.start, SystemUtils.executeCommand, Logger.step,
    Logger.success, Logger.warning, Logger.error, Logger.out, when,
    try_catch, bind, execa, ret, throw.

(** X3. [start] begins by deleting the running processes and then loads the
    manifest, whatever the deletion answered: a failed deletion is ignored.
    It throws exactly when the load of the manifest or the saving of the
    process list fails, with the error of that command. *)
Theorem start_always_loads_the_manifest
    (config : DeployConfig.t) (project : NeexProject.t) (w : World) :
  exists (r0 r1 : option Error) (rest : list Event),
    issued (PM2Generator.start config project) w =
      delete_all project r0 :: load_manifest project r1 :: rest
    /\ r0 = exec_outcome (host w) (trace w) "pm2" ["delete"; "all"]
              (Some (NeexProject.rootPath project))
    /\ fst (PM2Generator.start config project w) =
         match r1 with
         | Some e => Thrown e
         | None =>
             match rest with
             | EvExec "pm2" ["save"] None (Some e) :: _ => Thrown e
             | _ => Returned tt
             end
         end.
Proof.
  unfold issued, delete_all, load_manifest. destruct w as [h f t c].
  unfold_start. run_cases; eexists _, _, _; repeat split; reflexivity.
Qed.

(** X4. When the manifest does not load, [start] issues no further command,
    throws the error of the load, and shows one error line carrying its
    message after the heading. *)
Theorem start_load_failure_is_fatal
    (config : DeployConfig.t) (project : NeexProject.t) (w : World)
    (r0 : option Error) (e : Error) (rest : list Event) :
  issued (PM2Generator.start config project) w =
    delete_all project r0 :: load_manifest project (Some e) :: rest ->
  rest = []
  /\ fst (PM2Generator.start config project w) = Thrown e
  /\ shown (PM2Generator.start config project) w =
       [Log LStep "Starting PM2 applications...";
        Log LError ("Failed to start PM2 applications: " +:+ message e)].
Proof.
  unfold issued, shown, delete_all, load_manifest. destruct w as [h f t c].
  unfold_start. run_cases; intros H; inversion H; subst; repeat split; reflexivity.
Qed.

Lemma start_load_failure_witness :
  fst (PM2Generator.start blog both_tiers (fresh_world host_load_refused ∅))
    = Thrown (mkError "Command failed with exit code 1: pm2").
Proof.
  apply (start_load_failure_is_fatal blog both_tiers
           (fresh_world host_load_refused ∅) None
           (mkError "Command failed with exit code 1: pm2") []).
  vm_compute. reflexivity.
Defined.

(** X5. With [autoStart] off, [start] never issues [pm2 startup]. *)
Theorem start_registers_at_boot_only_when_asked
    (config : DeployConfig.t) (project : NeexProject.t) (w : World) :
  DeployConfig.autoStart config = false ->
  Forall not_startup_registration (issued (PM2Generator.start config project) w).
Proof.
  intros Ha. unfold issued. destruct w as [h f t c].
  unfold_start. rewrite Ha. run_cases;
    repeat constructor; intros cwd r H; discriminate H.
Qed.

Lemma start_registers_at_boot_witness :
  Forall not_startup_registration
    (issued (PM2Generator.start blog_manual_start both_tiers)
       (fresh_world usual_host ∅)).
Proof.
  apply (start_registers_at_boot_only_when_asked blog_manual_start both_tiers
           (fresh_world usual_host ∅)).
  reflexivity.
Defined.


(** X6. [PM2Generator.install] looks [pm2] up first.  When it is found,
    nothing is installed.  When it is missing, [npm install -g pm2] is the
    only further command; its failure is thrown as it is, and success is
    reported only when it succeeded. *)
Theorem pm2_install_only_when_missing (w : World) :
  match exec_outcome (host w) (trace w) "which" ["pm2"] None with
  | None =>
      PM2Generator.install w =
        (Returned tt,
         emit (Log LSuccess "PM2 already installed")
           (record (EvExec "which" ["pm2"] None None) w))
  | Some e0 =>
      exists r : option Error,
        issued PM2Generator.install w =
          [EvExec "which" ["pm2"] None (Some e0);
           EvExec "npm" ["install"; "-g"; "pm2"] None r]
        /\ fst (PM2Generator.install w) =
             match r with Some e => Thrown e | None => Returned tt end
        /\ shown PM2Generator.install w =
             Log LStep "Installing PM2 globally..."
             :: match r with
                | Some _ => []
                | None => [Log LSuccess "PM2 installed"]
                end
  end.
Proof.
  unfold issued, shown. destruct w as [h f t c].
  unfold PM2Generator.install, SystemUtils.checkCommand, SystemUtils.installPackage,
    Logger.step, Logger.success, Logger.out, try_catch, bind, execa, ret.
  world_steps.
  destruct (exec_outcome h t "which" ["pm2"] None); world_steps; [|reflexivity].
  cbn [negb]. world_steps.
  match goal with
  | |- context [exec_outcome ?a ?b "npm" ?d ?e] =>
      exists (exec_outcome a b "npm" d e); destruct (exec_outcome a b "npm" d e)
  end;
    world_steps; cbn [fst snd trace console]; rewrite <- ?app_assoc; cbn [app];
    rewrite ?drop_app_length; repeat split; reflexivity.
Qed.

(** X7. [stop], [restart] and [delete] each issue one [pm2] command on all
    processes.  A failure is shown as one error line carrying its message
    and thrown on unchanged; a success shows no error line. *)
Theorem pm2_wrappers_log_and_rethrow (w : World) :
  passes_on "pm2" ["stop"; "all"] PM2Generator.stop w
  /\ passes_on "pm2" ["restart"; "all"] PM2Generator.restart w
  /\ passes_on "pm2" ["delete"; "all"] PM2Generator.delete w.
Proof.
  unfold passes_on, issued, shown. destruct w as [h f t c].
  unfold PM2Generator.stop, PM2Generator.restart, PM2Generator.delete,
    SystemUtils.executeCommand, Logger.step, Logger.success, Logger.error,
    Logger.out, try_catch, bind, execa, throw.
  world_steps.
  repeat split;
    match goal with
    | |- context [exec_outcome ?a ?b ?c ?d ?e] =>
        exists (exec_outcome a b c d e); destruct (exec_outcome a b c d e)
    end;
    world_steps; cbn [fst snd trace console]; rewrite <- ?app_assoc; cbn [app];
    rewrite ?drop_app_length;
    (split; [reflexivity|split; [reflexivity|]]);
    first [eexists _, _; reflexivity | repeat constructor].
Qed.

(** ** The proxy controller *)

Ltac unfold_nginx_generate :=
  unfold NginxGenerator.generate, NginxGenerator.generateSetupInstructions,
    NginxGenerator.getConfigPath, SystemUtils.getOS, SystemUtils.writeFile,
    Logger.success, Logger.info, Logger.out, bind, fs_ensureDir, fs_writeFile, ret.

(** X8. [NginxGenerator.install] never installs: its one command is
    [which nginx], and it writes no file.  When nginx is found it reports
    so; when it is missing it shows the hints of the platform and throws
    [Nginx installation required]. *)
Theorem nginx_install_only_looks (w : World) :
  issued NginxGenerator.install w =
    [EvExec "which" ["nginx"] None
       (exec_outcome (host w) (trace w) "which" ["nginx"] None)]
  /\ files (snd (NginxGenerator.install w)) = files w
  /\ match exec_outcome (host w) (trace w) "which" ["nginx"] None with
     | None =>
         fst (NginxGenerator.install w) = Returned tt
         /\ shown NginxGenerator.install w = [Log LSuccess "Nginx already installed"]
     | Some _ =>
         fst (NginxGenerator.install w)
           = Thrown (mkError "Nginx installation required")
         /\ shown NginxGenerator.install w =
              Log LWarning "Nginx is not installed. Please install it manually:"
              :: install_hints (host w)
     end.
Proof.
  unfold issued, shown, install_hints. destruct w as [h f t c].
  unfold NginxGenerator.install, SystemUtils.checkCommand, SystemUtils.getOS,
    Logger.success, Logger.warning, Logger.info, Logger.out,
    try_catch, bind, execa, ret, throw.
  world_steps.
  destruct (exec_outcome h t "which" ["nginx"] None); world_steps; cbn [negb];
    world_steps;
    [destruct (String.eqb (platform h) "darwin");
       [|destruct (String.eqb (platform h) "win32")]|];
    world_steps; cbn [fst snd trace console files];
    rewrite <- ?app_assoc; cbn [app]; rewrite ?drop_app_length;
    repeat split; reflexivity.
Qed.

Lemma getConfigPath_run (config : DeployConfig.t) (w : World) :
  NginxGenerator.getConfigPath config w = (Returned (config_path_on (host w) config), w).
Proof.
  unfold NginxGenerator.getConfigPath, SystemUtils.getOS, config_path_on, bind, ret.
  destruct (String.eqb (platform (host w)) "darwin");
    [|destruct (String.eqb (platform (host w)) "win32")]; reflexivity.
Qed.

Lemma generateSetupInstructions_run (config : DeployConfig.t) (h : Host) :
  exists instructions : string,
    forall w, host w = h ->
      NginxGenerator.generateSetupInstructions config w = (Returned instructions, w).
Proof.
  unfold NginxGenerator.generateSetupInstructions.
  eexists. intros w Hw. unfold bind at 1. unfold SystemUtils.getOS at 1.
  unfold bind at 1. rewrite getConfigPath_run, Hw. reflexivity.
Qed.

(** X9. [NginxGenerator.generate] writes the routing document at the path of
    the platform, then the instructions at [<root>/nginx-setup.md].  When it
    returns, both files hold these texts.  When it throws, either nothing
    was written and nothing shown, or the routing document alone was written
    and announced: a failure of the second write does not undo the first. *)
Theorem nginx_generate_writes_in_order
    (config : DeployConfig.t) (project : NeexProject.t) (w : World) :
  exists instructions : string,
    fst (NginxGenerator.generateSetupInstructions config w) = Returned instructions
    /\ match fst (NginxGenerator.generate config project w) with
       | Returned _ =>
           files (snd (NginxGenerator.generate config project w)) =
             <[NeexProject.rootPath project +:+ "/nginx-setup.md" := instructions]>
               (<[config_path_on (host w) config :=
                    NginxGenerator.generateNginxConfig config project]> (files w))
       | Thrown _ =>
           (files (snd (NginxGenerator.generate config project w)) = files w
            /\ shown (NginxGenerator.generate config project) w = [])
           \/ (files (snd (NginxGenerator.generate config project w)) =
                 <[config_path_on (host w) config :=
                     NginxGenerator.generateNginxConfig config project]> (files w)
               /\ shown (NginxGenerator.generate config project) w =
                    [Log LSuccess ("Nginx configuration generated at "
                                     +:+ config_path_on (host w) config)])
       end.
Proof.
  destruct (generateSetupInstructions_run config (host w)) as [instructions Hi].
  exists instructions. split; [rewrite (Hi w eq_refl); reflexivity|].
  unfold shown, NginxGenerator.generate, Logger.success, Logger.info.
  generalize (NginxGenerator.generateNginxConfig config project). intros doc.
  unfold bind. rewrite getConfigPath_run. cbv beta iota.
  generalize (config_path_on (host w) config). intros path.
  rewrite writeFile_run.
  destruct (ensureDir_outcome (host w) (trace w) path);
    [left; cbn [fst snd files console record]; rewrite drop_all; auto|].
  destruct (writeFile_outcome (host w) _ path doc);
    [left; cbn [fst snd files console record]; rewrite drop_all; auto|].
  rewrite out_run. cbv beta iota. rewrite Hi by reflexivity. cbv beta iota.
  rewrite writeFile_run.
  cbn [host trace files console emit store record].
  destruct (ensureDir_outcome _ _ _);
    [right; cbn [fst snd files console record emit store]; rewrite drop_app_length; auto|].
  destruct (writeFile_outcome _ _ _ _);
    [right; cbn [fst snd files console record emit store]; rewrite drop_app_length; auto|].
  reflexivity.
Qed.


(** X10. Off macOS, for a project name and a domain of one line each, the
    instructions tell the operator to copy
    [/etc/nginx/sites-available/<name>] onto itself: the source of the [cp]
    line is the path the routing document was written to, which is also its
    destination. *)
Theorem setup_instructions_copy_onto_itself (config : DeployConfig.t) (w : World) :
  String.eqb (platform (host w)) "darwin" = false ->
  single_line (DeployConfig.projectName config) = true ->
  single_line (DeployConfig.domain config) = true ->
  exists instructions : string,
    NginxGenerator.generateSetupInstructions config w = (Returned instructions, w)
    /\ In ("sudo cp /etc/nginx/sites-available/" +:+ DeployConfig.projectName config
             +:+ " /etc/nginx/sites-available/" +:+ DeployConfig.projectName config)
          (lines instructions).
Proof.
  intros Hos Hn Hd.
  unfold NginxGenerator.generateSetupInstructions, NginxGenerator.getConfigPath,
    SystemUtils.getOS, bind, ret.
  rewrite Hos.
  destruct (String.eqb (platform (host w)) "win32");
    (eexists; split; [reflexivity|]);
    revert Hn Hd;
    generalize (DeployConfig.projectName config) (DeployConfig.domain config);
    intros name domain Hn Hd;
    read_lines; vm_compute; repeat first [left; reflexivity | right].
Qed.

Lemma setup_instructions_copy_witness :
  In "sudo cp /etc/nginx/sites-available/blog /etc/nginx/sites-available/blog"
     (lines (match fst (NginxGenerator.generateSetupInstructions blog_host_name
                          (fresh_world usual_host ∅)) with
             | Returned instructions => instructions
             | Thrown _ => ""
             end)).
Proof.
  destruct (setup_instructions_copy_onto_itself blog_host_name
              (fresh_world usual_host ∅)) as (instructions & E & H);
    [reflexivity..|].
  rewrite E. exact H.
Defined.

(** ** The steps of the pipeline *)

(** X11. [checkPrerequisites] writes nothing.  It looks [node] up and, when it
    is missing, throws [Node.js is not installed] without looking further;
    otherwise it looks the package manager of the project up and throws
    [<manager> is not installed] exactly when that lookup fails. *)
Theorem checkPrerequisites_looks_up_node_then_package_manager
    (project : NeexProject.t) (w : World) :
  files (snd (Deployer.checkPrerequisites project w)) = files w
  /\ match exec_outcome (host w) (trace w) "which" ["node"] None with
     | Some e0 =>
         fst (Deployer.checkPrerequisites project w)
           = Thrown (mkError "Node.js is not installed")
         /\ issued (Deployer.checkPrerequisites project) w
            = [EvExec "which" ["node"] None (Some e0)]
     | None =>
         exists r : option Error,
           issued (Deployer.checkPrerequisites project) w
             = [EvExec "which" ["node"] None None;
                EvExec "which" [NeexProject.packageManager project] None r]
           /\ fst (Deployer.checkPrerequisites project w) =
                match r with
                | Some _ =>
                    Thrown (mkError (NeexProject.packageManager project
                                       +:+ " is not installed"))
                | None => Returned tt
                end
     end.
Proof.
  unfold issued. destruct w as [h f t c].
  unfold Deployer.checkPrerequisites, SystemUtils.checkCommand, Logger.step,
    Logger.success, Logger.out, when, try_catch, bind, execa, ret, throw.
  world_steps.
  destruct (exec_outcome h t "which" ["node"] None); world_steps; cbn [negb];
    world_steps.
  - cbn [fst snd trace files]. rewrite drop_app_length. auto.
  - match goal with
    | |- context [exec_outcome ?a ?b "which" [NeexProject.packageManager project] ?e] =>
        destruct (exec_outcome a b "which" [NeexProject.packageManager project] e) eqn:E
    end; world_steps; cbn [negb]; world_steps;
      cbn [fst snd trace files]; rewrite <- ?app_assoc; cbn [app];
      rewrite ?drop_app_length; (split; [reflexivity|]);
      eexists; split; reflexivity.
Qed.

(** X12. [buildProject] runs [install], then [run build], with the package
    manager in the root of the project.  The spinner is stopped and success
    reported only when both succeed.  When one fails, its error is thrown,
    the command after it is not run and the spinner is left running. *)
Theorem buildProject_stops_spinner_only_on_success
    (project : NeexProject.t) (w : World) :
  match fst (Deployer.buildProject project w) with
  | Returned _ =>
      issued (Deployer.buildProject project) w =
        [install_dependencies project None; run_build project None]
      /\ shown (Deployer.buildProject project) w =
           [Log LStep "Building project...";
            SpinnerStart "Installing dependencies...";
            SpinnerText "Building applications...";
            SpinnerStop true;
            Log LSuccess "Project built successfully"]
  | Thrown e =>
      (issued (Deployer.buildProject project) w = [install_dependencies project (Some e)]
       /\ shown (Deployer.buildProject project) w =
            [Log LStep "Building project...";
             SpinnerStart "Installing dependencies..."])
      \/ (issued (Deployer.buildProject project) w =
            [install_dependencies project None; run_build project (Some e)]
          /\ shown (Deployer.buildProject project) w =
               [Log LStep "Building project...";
                SpinnerStart "Installing dependencies...";
                SpinnerText "Building applications..."])
  end.
Proof.
  unfold issued, shown, install_dependencies, run_build. destruct w as [h f t c].
  unfold Deployer.buildProject, SystemUtils.executeCommand, Logger.step,
    Logger.success, Logger.startSpinner, Logger.updateSpinner, Logger.stopSpinner,
    Logger.out, bind, execa.
  run_cases; auto.
Qed.

(** X13. [performFinalChecks] waits three seconds first; the ports it probes
    are those of the enabled subsystems, the client before the server, each
    once; and it shows one line per operation, the heading standing for the
    wait. *)
Theorem performFinalChecks_probes_enabled_subsystems
    (config : DeployConfig.t) (project : NeexProject.t) (w : World) :
  exists rest : list Event,
    issued (Deployer.performFinalChecks config project) w = EvTimeout 3000 :: rest
    /\ probed_ports (issued (Deployer.performFinalChecks config project) w) =
         (if NeexProject.hasClient project then [DeployConfig.clientPort config] else [])
         ++ (if NeexProject.hasServer project then [DeployConfig.serverPort config] else [])
    /\ length (shown (Deployer.performFinalChecks config project) w) =
         S (length rest).
Proof.
  unfold issued, shown. destruct w as [h f t c].
  unfold Deployer.performFinalChecks, SystemUtils.isPortAvailable, Logger.step,
    Logger.success, Logger.warning, Logger.out, setTimeout, detectPort, when,
    try_catch, bind, ret.
  world_steps.
  destruct (NeexProject.hasClient project), (NeexProject.hasServer project);
    world_steps;
    repeat match goal with
      | |- context [match ?o with inl _ => _ | inr _ => _ end] =>
          destruct o eqn:?; world_steps
      | |- context [if ?b then _ else _] => destruct b eqn:?; world_steps
      end;
    cbn [fst snd trace console]; rewrite <- ?app_assoc; cbn [app];
    rewrite ?drop_app_length; eexists; repeat split; reflexivity.
Qed.


(** X14. In [setupPM2], whenever the supervisor is asked to load the manifest,
    the manifest generated for this configuration has been written before,
    and that write succeeded. *)
Theorem setupPM2_writes_manifest_before_loading
    (config : DeployConfig.t) (project : NeexProject.t) (w : World)
    (j : nat) (r : option Error) :
  issued (Deployer.setupPM2 config project) w !! j = Some (load_manifest project r) ->
  exists i : nat,
    issued (Deployer.setupPM2 config project) w !! i
      = Some (manifest_written config project)
    /\ (i < j)%nat.
Proof.
  unfold issued, load_manifest, manifest_written. destruct w as [h f t c].
  unfold Deployer.setupPM2, PM2Generator.install, PM2Generator.generate,
    SystemUtils.checkCommand, SystemUtils.installPackage, SystemUtils.writeFile.
  unfold_start. unfold fs_ensureDir, fs_writeFile.
  generalize (PM2Generator.generateEcosystemConfig config project). intros doc.
  world_steps.
  repeat match goal with
    | |- context [match ?o with Some _ => _ | None => _ end] =>
        destruct o eqn:?; world_steps; cbn [negb]; world_steps
    | |- context [if ?b then _ else _] => destruct b eqn:?; world_steps
    end;
    cbn [fst snd trace]; rewrite <- ?app_assoc; cbn [app];
    rewrite ?drop_app_length;
    intros H;
    repeat (destruct j as [|j]; cbn in H; try discriminate H);
    first [exists 1%nat; split; [reflexivity|lia]
          |exists 2%nat; split; [reflexivity|lia]
          |exists 3%nat; split; [reflexivity|lia]].
Qed.

Lemma setupPM2_order_witness :
  exists i : nat,
    issued (Deployer.setupPM2 blog both_tiers) (fresh_world usual_host ∅) !! i
      = Some (manifest_written blog both_tiers)
    /\ (i < 4)%nat.
Proof.
  apply (setupPM2_writes_manifest_before_loading blog both_tiers
           (fresh_world usual_host ∅) 4 None).
  vm_compute. reflexivity.
Defined.

(** ** What a deployment never does *)

Lemma touches_only_runs (commands : list (string * list string))
    (paths : list string) (ev : Event) :
  touches_only commands paths ev -> runs_only commands ev.
Proof. destruct ev; cbn; auto. Qed.


Lemma listed_commands_start_none (config : DeployConfig.t)
    (project : NeexProject.t) (ev : Event) :
  In (NeexProject.packageManager project) detected_package_managers ->
  runs_only (deploy_commands config project) ev ->
  starts_none_of ["nginx"; "sudo"; "certbot"] ev.
Proof.
  intros Hpm. destruct ev as [command args cwd r| | | |]; cbn [runs_only starts_none_of];
    [|intros _; exact I..].
  unfold deploy_commands, commands_of_deploy. rewrite !in_app_iff.
  assert (Hp : ~ In (NeexProject.packageManager project) ["nginx"; "sudo"; "certbot"]).
  { revert Hpm. generalize (NeexProject.packageManager project). intros pm.
    cbn [detected_package_managers In].
    intros [<-|[<-|[<-|[<-|[]]]]] [H|[H|[H|[]]]]; discriminate H. }
  intros [H|[H|H]].
  - cbn [In] in H.
    repeat match type of H with
      | _ \/ _ => destruct H as [H|H]
      | False => contradiction
      end; inversion H; subst command; try exact Hp;
      cbn [In]; intros [E|[E|[E|[]]]]; discriminate E.
  - destruct (DeployConfig.autoStart config); cbn [In] in H;
      [destruct H as [H|[]]; inversion H; subst command;
       cbn [In]; intros [E|[E|[E|[]]]]; discriminate E|contradiction].
  - destruct (DeployConfig.nginxConfig config); cbn [In] in H;
      [destruct H as [H|[]]; inversion H; subst command;
       cbn [In]; intros [E|[E|[E|[]]]]; discriminate E|contradiction].
Qed.

(** X15. Whatever the host answers, a deployment starts no command outside
    [deploy_commands]: lookups with [which], [install] and [run build] with
    the package manager of the project, the installation of pm2, four pm2
    commands and [chmod +x] on the two scripts; [pm2 startup] only with
    [autoStart] and [which nginx] only with [nginxConfig].  The package
    manager being any string the project names, the programs started are
    [which], [npm], [pm2], [chmod] and that one: for a project whose package
    manager is one the detector reports, neither nginx nor sudo nor certbot
    is ever started. *)
Theorem deploy_starts_listed_commands_only
    (config : DeployConfig.t) (project : NeexProject.t) (w : World) :
  Forall (runs_only (deploy_commands config project))
    (issued (Deployer.deploy config project) w)
  /\ (In (NeexProject.packageManager project) detected_package_managers ->
      Forall (starts_none_of ["nginx"; "sudo"; "certbot"])
        (issued (Deployer.deploy config project) w)).
Proof.
  pose proof (within_issued _ _ _ _ _ (deploy_footprint config project w)) as H.
  split.
  - eapply Forall_impl; [exact H|]. apply touches_only_runs.
  - intros Hpm. eapply Forall_impl; [exact H|].
    intros ev Hev. apply (listed_commands_start_none config project ev Hpm).
    apply (touches_only_runs _ _ _ Hev).
Qed.

Lemma deploy_starts_listed_commands_witness :
  Forall (starts_none_of ["nginx"; "sudo"; "certbot"])
    (issued (Deployer.deploy blog both_tiers) (fresh_world usual_host ∅)).
Proof.
  apply (deploy_starts_listed_commands_only blog both_tiers (fresh_world usual_host ∅)).
  vm_compute. auto.
Defined.


(** X17. A deployment that returns has shown no error line.  A deployment that
    throws has shown, as its last line, the error line
    [Deployment failed: <message>] with the message of the error thrown. *)
Theorem deploy_shows_an_error_exactly_when_it_throws
    (config : DeployConfig.t) (project : NeexProject.t) (w : World) :
  match fst (Deployer.deploy config project w) with
  | Returned _ => Forall not_error (shown (Deployer.deploy config project) w)
  | Thrown e =>
      exists before,
        console (snd (Deployer.deploy config project w)) =
          before ++ [Log LError ("Deployment failed: " +:+ message e)]
  end.
Proof.
  destruct (Deployer.deploy config project w) as [[[]|e] w'] eqn:E; cbn [fst snd].
  - pose proof (deploy_returned_quiet config project w w' E) as H.
    change w' with (snd (Returned tt, w')) in H. rewrite <- E in H.
    eapply within_shown, H.
  - revert E. rewrite deploy_as_pipeline.
    destruct (pipeline _ _ _ _) as [[|e'] w7]; cbn [conclude].
    + destruct (report_returns config project w7) as [w8 ->]. discriminate.
    + intros H. inversion H; subst. eexists. reflexivity.
Qed.

(** ** Values cannot break the manifest *)

(** X18. Whatever the strings of the configuration and of the project hold,
    line feeds included, the manifest has 3 lines without entry and
    4 + 14 n lines with n entries: values are escaped and can neither add
    nor remove a line. *)
Theorem manifest_line_count (config : DeployConfig.t) (project : NeexProject.t) :
  length (lines (PM2Generator.generateEcosystemConfig config project)) =
    match length (PM2Generator.ecosystemApps config project) with
    | O => 3%nat
    | S n => (4 + 14 * S n)%nat
    end.
Proof.
  pose proof (single_line_json_escape_all (DeployConfig.projectName config +:+ "-client")) as Hn1.
  pose proof (single_line_json_escape_all (DeployConfig.projectName config +:+ "-server")) as Hn2.
  pose proof (single_line_json_escape_all (NeexProject.rootPath project)) as Hr.
  pose proof (single_line_json_escape_all (pm_name (DeployConfig.packageManager config))) as Hm.
  pose proof (single_line_json_escape_all (env_name (DeployConfig.environment config))) as He.
  pose proof (single_line_num (DeployConfig.clientPort config)) as Hc.
  pose proof (single_line_num (DeployConfig.serverPort config)) as Hs.
  unfold PM2Generator.generateEcosystemConfig, PM2Generator.ecosystemApps.
  destruct (NeexProject.hasClient project), (NeexProject.hasServer project);
    cbv [app map PM2AppConfig.toJSON JSON_stringify2 stringify_at join
         PM2AppConfig.name PM2AppConfig.script PM2AppConfig.args PM2AppConfig.cwd
         PM2AppConfig.instances PM2AppConfig.autorestart PM2AppConfig.watch
         PM2AppConfig.max_memory_restart PM2AppConfig.env PM2AppConfig.NODE_ENV
         PM2AppConfig.PORT json_quote q length];
    revert Hn1 Hn2 Hr Hm He Hc Hs;
    generalize (json_escape_all (DeployConfig.projectName config +:+ "-client"))
      (json_escape_all (DeployConfig.projectName config +:+ "-server"))
      (json_escape_all (NeexProject.rootPath project))
      (json_escape_all (pm_name (DeployConfig.packageManager config)))
      (json_escape_all (env_name (DeployConfig.environment config)))
      (num (DeployConfig.clientPort config)) (num (DeployConfig.serverPort config));
    intros n1 n2 r m e pc ps Hn1 Hn2 Hr Hm He Hc Hs;
    read_lines; vm_compute; reflexivity.
Qed.

(** ** When the proxy is missing *)

Lemma proxy_step_when_absent (config : DeployConfig.t) (project : NeexProject.t)
    (w : World) (e0 : Error) :
  exec_outcome (host w) (trace w) "which" ["nginx"] None = Some e0 ->
  exists w1,
    step_body SetupProxy config project w =
      (Thrown (mkError "Nginx installation required"), w1)
    /\ files w1 = files w.
Proof.
  intros H. cbn [step_body]. unfold Logger.step. rewrite bind_out.
  unfold bind at 1. unfold NginxGenerator.install, SystemUtils.checkCommand.
  unfold bind at 1. unfold try_catch, bind at 1, execa.
  change (trace (emit (Log LStep "Setting up Nginx...") w)) with (trace w).
  change (host (emit (Log LStep "Setting up Nginx...") w)) with (host w).
  rewrite H. cbn [ret negb].
  unfold Logger.warning. rewrite bind_out.
  unfold bind at 1. unfold bind at 1. unfold SystemUtils.getOS.
  match goal with
  | |- context [if ?a then darwin else _] => destruct a
  end; [|match goal with
         | |- context [if ?a then windows else _] => destruct a
         end];
    unfold Logger.info; rewrite ?bind_out, ?out_run; cbn [ret throw];
    eexists; split; reflexivity.
Qed.

Lemma report_mentions_instructions (config : DeployConfig.t)
    (project : NeexProject.t) (w : World) :
  DeployConfig.nginxConfig config = true ->
  exists w',
    Deployer.printPostDeploymentInfo config project w = (Returned tt, w')
    /\ files w' = files w
    /\ In (Line "   2. Follow nginx-setup.md for Nginx configuration") (console w').
Proof.
  intros Hn. unfold Deployer.printPostDeploymentInfo, console_log. rewrite Hn.
  destruct (NeexProject.hasClient project), (NeexProject.hasServer project),
    (negb (String.eqb (DeployConfig.domain config) "localhost"));
    cbn [when]; run_console;
    (eexists; split; [reflexivity|]); (split; [reflexivity|]);
    cbn [console emit_all]; apply in_or_app; right;
    repeat first [left; reflexivity | right].
Qed.

Lemma instructions_not_among_other_files (config : DeployConfig.t)
    (project : NeexProject.t) :
  ~ In (NeexProject.rootPath project +:+ "/nginx-setup.md")
       (files_of_deploy false config project).
Proof.
  cbn. intros H.
  repeat match type of H with
    | _ \/ _ => destruct H as [H|H]
    | False => contradiction
    end; apply append_inj_r in H; discriminate H.
Qed.

(** X19. With [nginxConfig] on and nginx missing from the host, a deployment
    that returns has told the operator to follow [nginx-setup.md], yet has
    not written it: the file is as it was before the deployment. *)
Theorem deploy_points_to_instructions_it_did_not_write
    (config : DeployConfig.t) (project : NeexProject.t)
    (w w4 w' : World) (e0 : Error) :
  DeployConfig.nginxConfig config = true ->
  pipeline [CheckPrerequisites; Build; MaterializeEnvironment; SetupSupervisor]
    config project (announce config w) = (Done, w4) ->
  exec_outcome (host w4) (trace w4) "which" ["nginx"] None = Some e0 ->
  Deployer.deploy config project w = (Returned tt, w') ->
  In (Line "   2. Follow nginx-setup.md for Nginx configuration") (console w')
  /\ files w' !! (NeexProject.rootPath project +:+ "/nginx-setup.md")
     = files w !! (NeexProject.rootPath project +:+ "/nginx-setup.md").
Proof.
  intros Hn H4 Hw Hd.
  pose proof (instructions_not_among_other_files config project) as Hout.
  assert (Hframe : forall s wa,
             s <> SetupSupervisor -> s <> SetupProxy ->
             files (snd (step_body s config project wa))
               !! (NeexProject.rootPath project +:+ "/nginx-setup.md")
             = files wa !! (NeexProject.rootPath project +:+ "/nginx-setup.md")).
  { intros s wa Hs Hp.
    destruct (step_body_footprint config project false anything
                anything_after_not_error s Hs ltac:(congruence) wa)
      as (_ & _ & _ & Hf).
    apply Hf, Hout. }
  assert (F4 : files w4 !! (NeexProject.rootPath project +:+ "/nginx-setup.md")
               = files w !! (NeexProject.rootPath project +:+ "/nginx-setup.md")).
  { destruct (pipeline_footprint config project false
                [CheckPrerequisites; Build; MaterializeEnvironment; SetupSupervisor]
                ltac:(cbn; intuition discriminate) (announce config w))
      as (_ & _ & _ & Hf).
    rewrite H4 in Hf. apply (Hf _ Hout). }
  destruct (proxy_step_when_absent config project w4 e0 Hw) as (w5 & H5 & F5).
  revert Hd. rewrite deploy_as_pipeline. unfold step_list. rewrite Hn.
  rewrite pipeline_app, H4. cbn [app pipeline]. rewrite H5.
  pose proof (Hframe GenerateManagementScripts
                (emit (proxy_warning (mkError "Nginx installation required")) w5)
                ltac:(discriminate) ltac:(discriminate)) as F6.
  destruct (step_body GenerateManagementScripts config project _)
    as [[[]|e6] w6]; [|discriminate].
  pose proof (Hframe VerifyDeployment w6 ltac:(discriminate) ltac:(discriminate))
    as F7.
  destruct (step_body VerifyDeployment config project w6)
    as [[[]|e7] w7]; [|discriminate].
  cbn [conclude snd] in *. unfold Logger.success. rewrite bind_out.
  destruct (report_mentions_instructions config project
              (emit (Log LSuccess "🎉 Deployment completed successfully!") w7) Hn)
    as (w8 & -> & F8 & Hline).
  intros Hd. inversion Hd; subst w'. split; [exact Hline|].
  rewrite F8. cbn [files emit] in *. rewrite F7, F6, F5, F4. reflexivity.
Qed.

Lemma deploy_points_to_instructions_witness :
  In (Line "   2. Follow nginx-setup.md for Nginx configuration")
     (console (snd (Deployer.deploy blog both_tiers (fresh_world host_without_nginx ∅))))
  /\ files (snd (Deployer.deploy blog both_tiers (fresh_world host_without_nginx ∅)))
       !! (NeexProject.rootPath both_tiers +:+ "/nginx-setup.md")
     = files (fresh_world host_without_nginx ∅)
         !! (NeexProject.rootPath both_tiers +:+ "/nginx-setup.md").
Proof.
  pose (w4 := snd (pipeline
                     [CheckPrerequisites; Build; MaterializeEnvironment; SetupSupervisor]
                     blog both_tiers (announce blog (fresh_world host_without_nginx ∅)))).
  apply (deploy_points_to_instructions_it_did_not_write blog both_tiers
           (fresh_world host_without_nginx ∅) w4
           (snd (Deployer.deploy blog both_tiers (fresh_world host_without_nginx ∅)))
           (mkError "Command failed with exit code 1: which nginx"));
    vm_compute; reflexivity.
Defined.

(** ** The project name the prompt accepts *)

Lemma name_char_no_space (c : ascii) (r : string) :
  Cli.name_char c = true -> Cli.space_width (String c r) = 0%nat.
Proof.
  destruct c as [[] [] [] [] [] [] [] []]; cbv [Cli.name_char]; cbn;
    intros H; try discriminate H; reflexivity.
Qed.

Lemma name_char_plain (c : ascii) :
  Cli.name_char c = true -> json_escape c = String c "" /\ Ascii.eqb c lf = false.
Proof.
  destruct c as [[] [] [] [] [] [] [] []]; cbv [Cli.name_char]; cbn;
    intros H; try discriminate H; split; reflexivity.
Qed.

Lemma trim_keeps_name (c : ascii) (r : string) :
  Cli.name_char c = true -> Cli.trim (String c r) <> "".
Proof.
  intros H.
  assert (Hs : Cli.trimStart (String c r) = String c r).
  { unfold Cli.trimStart. cbn [String.length Cli.trim_start_upto].
    rewrite (name_char_no_space c r H). reflexivity. }
  unfold Cli.trim. rewrite Hs. cbn [Cli.trimEnd]. rewrite Hs.
  cbn [String.eqb]. discriminate.
Qed.

Lemma name_pattern_chars (input : string) :
  Cli.name_pattern input = true <->
  input <> "" /\ Cli.all_chars Cli.name_char input = true.
Proof.
  unfold Cli.name_pattern. destruct input as [|c r]; cbn [String.eqb negb andb].
  - split; [discriminate|intros [H _]; contradiction].
  - split; [intros H; split; [discriminate|exact H]|intros [_ H]; exact H].
Qed.

Lemma validateProjectName_pattern (input : string) :
  Cli.validateProjectName input = Cli.Valid <-> Cli.name_pattern input = true.
Proof.
  unfold Cli.validateProjectName. split.
  - destruct (String.eqb (Cli.trim input) ""); [discriminate|].
    destruct (Cli.name_pattern input); [reflexivity|discriminate].
  - intros H. rewrite H. cbn [negb].
    apply name_pattern_chars in H. destruct H as [Hne Hall].
    destruct input as [|c r]; [contradiction|].
    cbn [Cli.all_chars] in Hall. apply andb_true_iff in Hall. destruct Hall as [Hc _].
    pose proof (trim_keeps_name c r Hc) as Ht.
    destruct (String.eqb_spec (Cli.trim (String c r)) ""); [contradiction|reflexivity].
Qed.

Lemma plain_chars_verbatim (s : string) :
  Cli.all_chars Cli.name_char s = true ->
  json_escape_all s = s /\ single_line s = true.
Proof.
  induction s as [|c r IH]; cbn [Cli.all_chars json_escape_all single_line].
  - intros _. split; reflexivity.
  - intros H. apply andb_true_iff in H. destruct H as [Hc Hr].
    destruct (IH Hr) as [-> ->]. destruct (name_char_plain c Hc) as [-> ->].
    split; reflexivity.
Qed.

Lemma json_escape_all_app (a b : string) :
  json_escape_all (a +:+ b) = json_escape_all a +:+ json_escape_all b.
Proof.
  induction a as [|c r IH].
  - reflexivity.
  - change (String c r +:+ b) with (String c (r +:+ b)). cbn [json_escape_all].
    rewrite IH, append_assoc. reflexivity.
Qed.

(** X20. The prompt accepts a project name exactly when it is not empty and
    made of ASCII letters, digits, hyphens and underscores only; the check
    for a blank name rejects none of these. *)
Theorem prompt_accepts_exactly_plain_names (input : string) :
  Cli.validateProjectName input = Cli.Valid <->
  input <> "" /\ Cli.all_chars Cli.name_char input = true.
Proof.
  rewrite validateProjectName_pattern. apply name_pattern_chars.
Qed.

(** X21. A project name the prompt accepts is written into the manifest as it
    is: the name lines hold [<name>-client] and [<name>-server] between
    quotes, without any escape. *)
Theorem accepted_name_is_written_verbatim
    (config : DeployConfig.t) (project : NeexProject.t) :
  Cli.validateProjectName (DeployConfig.projectName config) = Cli.Valid ->
  entry_lines (PM2Generator.generateEcosystemConfig config project) =
    (if NeexProject.hasClient project then
       [q "name" +:+ ": " +:+ q (DeployConfig.projectName config +:+ "-client") +:+ ",";
        q "PORT" +:+ ": " +:+ num (DeployConfig.clientPort config)]
     else [])
    ++ (if NeexProject.hasServer project then
          [q "name" +:+ ": " +:+ q (DeployConfig.projectName config +:+ "-server") +:+ ",";
           q "PORT" +:+ ": " +:+ num (DeployConfig.serverPort config)]
        else []).
Proof.
  intros H. apply validateProjectName_pattern, name_pattern_chars in H.
  destruct H as [_ H]. apply plain_chars_verbatim in H. destruct H as [H _].
  rewrite entry_lines_generated, !json_escape_all_app, H.
  unfold q. rewrite !append_assoc. reflexivity.
Qed.

Lemma accepted_name_witness :
  entry_lines (PM2Generator.generateEcosystemConfig blog both_tiers) =
    [q "name" +:+ ": " +:+ q "blog-client" +:+ ",";
     q "PORT" +:+ ": " +:+ "3000";
     q "name" +:+ ": " +:+ q "blog-server" +:+ ",";
     q "PORT" +:+ ": " +:+ "8000"].
Proof.
  apply (accepted_name_is_written_verbatim blog both_tiers). reflexivity.
Defined.

